(** * Snowden archive index generators: model and verification

    A shallow embedding of the two scripts of the repository,

    - [generate_file_table.py]      (module [Inventory]): the Markdown inventory;
    - [generate_local_index-hf.py]  (module [Index]): the HTML index,

    together with the part of the Python runtime they rely on (module [Py]
    for text, ordering and sorting, module [Re] for the regular expression).

    Text model.  A Python [str] is modelled as a [string]: the sequence of the
    bytes of its UTF-8 encoding.  Splitting on ["/"], [replace] with ASCII
    patterns, concatenation, code-point ordering (which UTF-8 preserves) and
    percent-encoding are exact on this representation.  The operations that
    look characters up in the Unicode tables of the interpreter ([\d], [\w]
    and [\b] of [re], [int] and [str.lower]) are fixed here on ASCII text and
    take what they do outside ASCII from a parameter, [Py.Unicode]: the
    tables, with the few laws that are used of them.  What is proved holds
    for all such tables; the examples of Part IV run on a fragment of them
    that covers some letters and digits outside ASCII. *)

From Stdlib Require Import ZArith NArith Bool List Ascii String.
From Stdlib Require Import Sorted Permutation Lia DecimalString DecimalZ.
From stdpp Require Import base option list gmap strings sorting.

Local Open Scope string_scope.
Local Open Scope list_scope.
Local Open Scope Z_scope.

(* ===================================================================== *)
(** * Part I: definitions                                                 *)
(* ===================================================================== *)

(** ** Python text primitives *)
Module Py.

(** Code of a character. *)
Definition ord (c : ascii) : N := N_of_ascii c.

Definition in_range (lo hi : N) (c : ascii) : bool :=
  ((lo <=? ord c) && (ord c <=? hi))%N.

(** An ASCII decimal digit. *)
Definition ascii_digit (c : ascii) : bool := in_range 48 57 c.

(** An ASCII letter, an ASCII digit or the underscore. *)
Definition ascii_word (c : ascii) : bool :=
  ascii_digit c || in_range 65 90 c || in_range 97 122 c || Ascii.eqb c "_".

(** The ASCII characters [str.strip] removes.  The one text the scripts
    strip is the Markdown document, whose last line is made of ASCII
    characters. *)
Definition is_space (c : ascii) : bool :=
  in_range 9 13 c || in_range 28 32 c.

(** [str.lower] on an ASCII character. *)
Definition lower_char (c : ascii) : ascii :=
  if in_range 65 90 c then ascii_of_N (ord c + 32) else c.

(** [s.lower()] for an ASCII text: the letters A to Z become a to z. *)
Fixpoint ascii_lower (s : string) : string :=
  match s with
  | EmptyString => EmptyString
  | String c s' => String (lower_char c) (ascii_lower s')
  end.

(** [s.isascii()] *)
Fixpoint is_ascii (s : string) : bool :=
  match s with
  | EmptyString => true
  | String c s' => (ord c <? 128)%N && is_ascii s'
  end.

(** *** Characters

    A character outside ASCII takes several bytes: a first byte and then
    bytes of the form [10xxxxxx]. *)
Definition is_continuation (c : ascii) : bool := in_range 128 191 c.

Definition starts_with_continuation (ch : string) : bool :=
  match ch with
  | String c _ => is_continuation c
  | EmptyString => false
  end.

(** The characters of a text, each given by its bytes: a byte that is not a
    continuation byte starts a character. *)
Fixpoint chars (s : string) : list string :=
  match s with
  | EmptyString => []
  | String c s' =>
      match chars s' with
      | ch :: rest =>
          if starts_with_continuation ch then String c ch :: rest
          else String c EmptyString :: ch :: rest
      | [] => [String c EmptyString]
      end
  end.

(** [s.startswith(p)] *)
Definition startswith (s p : string) : bool := String.prefix p s.

(** *** The Unicode tables

    What the scripts use of the tables of the interpreter, for text outside
    ASCII: the value of a character as a decimal digit ([unicodedata.decimal],
    which decides [\d] and what [int] reads), whether a character is
    alphanumeric ([str.isalnum], which with the underscore decides [\w] and
    [\b]), and the lower-casing of a text that is not all ASCII. *)

(** [s.lower()], given the lower-casing of the texts that are not all
    ASCII. *)
Definition lower_with (table : string -> string) (s : string) : string :=
  if is_ascii s then ascii_lower s else table s.

(** The tables are only known to obey these laws: a decimal digit has a
    value below ten and is alphanumeric; lower-casing a text in lower case
    changes nothing; a dot in front of a text stays in front of its lower
    case, and only a text that begins with a dot has a lower case that does;
    and the ASCII characters at the end of a text become their ASCII lower
    case, whatever becomes of the rest. *)
Class Unicode : Type := {
  uni_decimal : string -> option N;
  uni_alnum : string -> bool;
  uni_lower : string -> string;
  uni_decimal_digit : forall ch v, uni_decimal ch = Some v -> (v < 10)%N;
  uni_decimal_alnum : forall ch v, uni_decimal ch = Some v -> uni_alnum ch = true;
  uni_lower_idem : forall s,
    lower_with uni_lower (lower_with uni_lower s) = lower_with uni_lower s;
  uni_lower_dot : forall s,
    lower_with uni_lower ("." +:+ s) = "." +:+ lower_with uni_lower s;
  uni_lower_starts_dot : forall s,
    startswith (lower_with uni_lower s) "." = startswith s ".";
  uni_lower_suffix : forall s t,
    is_ascii t = true ->
    exists s', lower_with uni_lower (s +:+ t) = s' +:+ ascii_lower t
}.

Section WithUnicode.
Context `{U : Unicode}.

(** [s.lower()] *)
Definition lower (s : string) : string := lower_with uni_lower s.

(** The value of a character as a decimal digit, if it is one. *)
Definition digit_value (ch : string) : option N :=
  match ch with
  | String c EmptyString => if ascii_digit c then Some (ord c - 48)%N else None
  | _ => uni_decimal ch
  end.

(** [\d]: a decimal digit of any script. *)
Definition is_digit (ch : string) : bool :=
  match digit_value ch with Some _ => true | None => false end.

(** [\w]: an alphanumeric character or the underscore. *)
Definition is_word (ch : string) : bool :=
  match ch with
  | String c EmptyString => ascii_word c
  | _ => uni_alnum ch
  end.

End WithUnicode.

(** Reversal of a string, used for the operations that work from the end. *)
Fixpoint rev_onto (s acc : string) : string :=
  match s with
  | EmptyString => acc
  | String c s' => rev_onto s' (String c acc)
  end.

Definition rev (s : string) : string := rev_onto s EmptyString.

(** [s.endswith(p)] *)
Definition endswith (s p : string) : bool := String.prefix (rev p) (rev s).

Fixpoint lstrip (s : string) : string :=
  match s with
  | EmptyString => EmptyString
  | String c s' => if is_space c then lstrip s' else s
  end.

(** [s.rstrip()] *)
Definition rstrip (s : string) : string := rev (lstrip (rev s)).

(** [sep.join(parts)] *)
Definition join (sep : string) (parts : list string) : string :=
  String.concat sep parts.

(** [s.replace(old, new)]: the occurrences of [old] are found from left to
    right and do not overlap.  [skip] counts the characters of an occurrence
    that has just been replaced and still have to be passed over. *)
Fixpoint replace_from (old new : string) (skip : nat) (s : string) : string :=
  match s with
  | EmptyString => EmptyString
  | String c s' =>
      match skip with
      | S k => replace_from old new k s'
      | O =>
          if String.prefix old s
          then new +:+ replace_from old new (Nat.pred (String.length old)) s'
          else String c (replace_from old new O s')
      end
  end.

Fixpoint intersperse (new s : string) : string :=
  match s with
  | EmptyString => EmptyString
  | String c s' => String c (new +:+ intersperse new s')
  end.

Definition replace (s old new : string) : string :=
  match old with
  | EmptyString => new +:+ intersperse new s
  | String _ _ => replace_from old new O s
  end.

(** [s.split(sep, 1)[0]] for a one-character separator: the text before the
    first separator, or all of [s] when there is none. *)
Fixpoint before_first (sep : ascii) (s : string) : string :=
  match s with
  | EmptyString => EmptyString
  | String c s' => if Ascii.eqb c sep then EmptyString else String c (before_first sep s')
  end.

(** [s.split(sep)] for a one-character separator. *)
Fixpoint split (sep : ascii) (s : string) : list string :=
  match s with
  | EmptyString => [EmptyString]
  | String c s' =>
      if Ascii.eqb c sep then EmptyString :: split sep s'
      else match split sep s' with
           | [] => [String c EmptyString]
           | w :: ws => String c w :: ws
           end
  end.

(** [str(n)] for an integer. *)
Definition str (n : Z) : string := NilZero.string_of_int (Z.to_int n).

(** The ASCII digit of a value below ten. *)
Definition digit_char (v : N) : string := String (ascii_of_N (48 + v)) EmptyString.

Section IntOfText.
Context `{U : Unicode}.

(** What [int] does first: every decimal digit, of whatever script, becomes
    the ASCII digit of its value. *)
Definition to_ascii_decimal (s : string) : string :=
  String.concat EmptyString
    ((fun ch => match digit_value ch with Some v => digit_char v | None => ch end)
       <$> chars s).

(** [int(s)]: [None] stands for [ValueError].  Decimal numerals with an
    optional leading minus sign are read, which covers what [str] prints and
    what the year pattern matches; the surrounding blanks and the digit
    separators that [int] tolerates as well are not modelled. *)
Definition int (s : string) : option Z :=
  option_map Z.of_int (NilZero.int_of_string (to_ascii_decimal s)).

(** The value of an [int(...)] call the program makes on a numeral. *)
Definition int_value (s : string) : Z := default 0 (int s).

End IntOfText.

(** *** Percent-encoding: [urllib.parse.quote(s, safe=...)] *)

Definition hex_digit (n : N) : ascii :=
  if (n <? 10)%N then ascii_of_N (48 + n) else ascii_of_N (55 + n).

Definition always_safe (c : ascii) : bool :=
  in_range 65 90 c || in_range 97 122 c || ascii_digit c
  || Ascii.eqb c "_" || Ascii.eqb c "." || Ascii.eqb c "-" || Ascii.eqb c "~".

Fixpoint mem_char (c : ascii) (s : string) : bool :=
  match s with
  | EmptyString => false
  | String c' s' => Ascii.eqb c c' || mem_char c s'
  end.

Fixpoint quote (s safe : string) : string :=
  match s with
  | EmptyString => EmptyString
  | String c s' =>
      if always_safe c || mem_char c safe then String c (quote s' safe)
      else String "%" (String (hex_digit (ord c / 16)) (String (hex_digit (ord c mod 16))
             (quote s' safe)))
  end.

(** *** Ordering: the results of [<] between values of one type *)

(** A three-way comparison that is a strict total order. *)
Class CmpOrder {A : Type} (cmp : A -> A -> comparison) : Prop := {
  cmp_eq : forall x y, cmp x y = Eq -> x = y;
  cmp_refl : forall x, cmp x x = Eq;
  cmp_antisym : forall x y, cmp y x = CompOpp (cmp x y);
  cmp_trans : forall x y z, cmp x y = Lt -> cmp y z = Lt -> cmp x z = Lt
}.

(** Strings compare code point by code point, a proper prefix first. *)
Definition str_cmp : string -> string -> comparison := String.compare.

(** Sequences (lists, tuples, and the parts of a path) compare item by item,
    a proper prefix first. *)
Fixpoint seq_cmp {A : Type} (cmp : A -> A -> comparison) (l1 l2 : list A) : comparison :=
  match l1, l2 with
  | [], [] => Eq
  | [], _ :: _ => Lt
  | _ :: _, [] => Gt
  | x :: l1', y :: l2' =>
      match cmp x y with
      | Eq => seq_cmp cmp l1' l2'
      | c => c
      end
  end.

Definition lt_of {A} (cmp : A -> A -> comparison) (x y : A) : bool :=
  match cmp x y with Lt => true | _ => false end.

(** [x <= y] in the order of [cmp]. *)
Definition le_of {A} (cmp : A -> A -> comparison) (x y : A) : Prop := cmp x y <> Gt.

(** *** [sorted(items, key=key)]

    Python's sort compares keys with [<] only and is stable: items with
    equal keys keep their relative order.  Such a result is unique, and it is
    computed here by insertion from the right. *)
Section Sorted.
Context {A K : Type} (cmp : K -> K -> comparison) (key : A -> K).

Fixpoint insert_sorted (x : A) (l : list A) : list A :=
  match l with
  | [] => [x]
  | y :: l' =>
      if lt_of cmp (key y) (key x) then y :: insert_sorted x l'
      else x :: l
  end.

Fixpoint sorted (l : list A) : list A :=
  match l with
  | [] => []
  | x :: l' => insert_sorted x (sorted l')
  end.

End Sorted.

End Py.

(** ** Regular expressions: the part of [re] the scripts use *)
Module Re.

(** Patterns.  A capturing group changes nothing for [group(0)] and is not
    represented. *)
Inductive regex : Type :=
  | Eps                       (* the empty pattern *)
  | Chr (c : ascii)           (* a literal ASCII character *)
  | Digit                     (* \d *)
  | Boundary                  (* \b *)
  | Cat (r1 r2 : regex)       (* r1 r2 *)
  | Alt (r1 r2 : regex).      (* r1 | r2 *)

(** [r{n}] *)
Fixpoint times (n : nat) (r : regex) : regex :=
  match n with
  | O => Eps
  | S n' => Cat r (times n' r)
  end.

(** A literal ASCII text. *)
Fixpoint lit (s : string) : regex :=
  match s with
  | EmptyString => Eps
  | String c s' => Cat (Chr c) (lit s')
  end.

Section WithUnicode.
Context `{U : Py.Unicode}.

Definition word_before (prev : option string) : bool :=
  match prev with Some ch => Py.is_word ch | None => false end.

Definition word_after (s : list string) : bool :=
  match s with ch :: _ => Py.is_word ch | [] => false end.

(** Backtracking matcher over the characters of a text.  [prev] is the
    character before the current position, [s] the characters from the
    current position on, and [k] what remains to be matched after [r]; the
    result is what is left after the match. *)
Fixpoint match_re (r : regex) (prev : option string) (s : list string)
    (k : option string -> list string -> option (list string)) : option (list string) :=
  match r with
  | Eps => k prev s
  | Chr c =>
      match s with
      | ch :: s' => if String.eqb ch (String c EmptyString) then k (Some ch) s' else None
      | [] => None
      end
  | Digit =>
      match s with
      | ch :: s' => if Py.is_digit ch then k (Some ch) s' else None
      | [] => None
      end
  | Boundary => if xorb (word_before prev) (word_after s) then k prev s else None
  | Cat r1 r2 => match_re r1 prev s (fun prev' s' => match_re r2 prev' s' k)
  | Alt r1 r2 =>
      match match_re r1 prev s k with
      | Some rest => Some rest
      | None => match_re r2 prev s k
      end
  end.

(** A match at the current position; the result is the characters it has
    consumed, which are those of [s] without what the match leaves. *)
Definition match_at (r : regex) (prev : option string) (s : list string)
    : option (list string) :=
  match match_re r prev s (fun _ rest => Some rest) with
  | Some rest => Some (firstn (length s - length rest) s)
  | None => None
  end.

(** The match at the leftmost position that has one. *)
Fixpoint search_from (r : regex) (prev : option string) (s : list string)
    : option (list string) :=
  match match_at r prev s with
  | Some m => Some m
  | None =>
      match s with
      | [] => None
      | ch :: s' => search_from r (Some ch) s'
      end
  end.

(** [re.search]: the result is [m.group(0)], the text of the leftmost
    match. *)
Definition search (r : regex) (s : string) : option string :=
  String.concat EmptyString <$> search_from r None (Py.chars s).

End WithUnicode.

End Re.

(** ** Paths and directory walks ([pathlib]) *)
Module Fs.

(** A relative POSIX path, given by its parts. *)
Definition Path : Type := list string.

(** What a walk ([rglob]) yields: a path below the walk's root, represented
    by its parts relative to that root ([p.relative_to(root).parts]), and
    whether it is a regular file ([p.is_file()]). *)
Record Entry : Type := mkEntry { rel : Path; is_file : bool }.

(** [p.name]: the last part. *)
Definition name (p : Path) : string := List.last p EmptyString.

(** [p.as_posix()] *)
Definition as_posix (p : Path) : string := Py.join "/" p.

(** The text from the last dot of [s] on, when [s] has a dot. *)
Fixpoint from_last_dot (s : string) : option string :=
  match s with
  | EmptyString => None
  | String c s' =>
      match from_last_dot s' with
      | Some t => Some t
      | None => if Ascii.eqb c "." then Some s else None
      end
  end.

(** [p.suffix]: the last dot of the name and what follows it, unless that dot
    is the first or the last character of the name. *)
Definition suffix (p : Path) : string :=
  match name p with
  | EmptyString => EmptyString
  | String _ rest =>
      match from_last_dot rest with
      | Some t => if String.eqb t "." then EmptyString else t
      | None => EmptyString
      end
  end.

(** Paths compare by their parts. *)
Definition path_cmp : Path -> Path -> comparison := Py.seq_cmp Py.str_cmp.

(** [Path(s).parts] for a path given as text: empty and ["."] components are
    dropped and a leading slash becomes a root part. *)
Definition root_of (s : string) : list string :=
  if Py.startswith s "///" then ["/"]
  else if Py.startswith s "//" then ["//"]
  else if Py.startswith s "/" then ["/"]
  else [].

Definition components (s : string) : list string :=
  List.filter (fun c => negb (String.eqb c EmptyString) && negb (String.eqb c ".")) (Py.split "/" s).

Definition parts_of (s : string) : list string := root_of s ++ components s.

(** [Path(s).name] *)
Definition name_of (s : string) : string := List.last (components s) EmptyString.

End Fs.

Definition newline : string := String (ascii_of_nat 10) EmptyString.

(** The double quote character. *)
Definition dquote : string := String (ascii_of_nat 34) EmptyString.

(** The pattern both scripts search path segments for:
    [\b(19\d{2}|20\d{2})\b]. *)
Definition YEAR_PATTERN : Re.regex :=
  Re.Cat Re.Boundary
    (Re.Cat (Re.Alt (Re.Cat (Re.lit "19") (Re.times 2 Re.Digit))
                    (Re.Cat (Re.lit "20") (Re.times 2 Re.Digit)))
            Re.Boundary).

(** ** [generate_file_table.py]: the Markdown inventory *)
Module Inventory.
Import Fs.

Section WithUnicode.
Context `{U : Py.Unicode}.

(** [extract_year]: the year found in one path segment, [999999] for none. *)
Definition extract_year (part : string) : Z :=
  match Re.search YEAR_PATTERN part with
  | Some m => Py.int_value m
  | None => 999999
  end.

(** The loop of [group_files] over [rel.parts]: the first part with a year
    decides. *)
Fixpoint first_year (parts : list string) : option Z :=
  match parts with
  | [] => None
  | part :: rest =>
      let y := extract_year part in
      if negb (y =? 999999) then Some y else first_year rest
  end.

(** [Dict[str, Dict[int | None, List[Path]]]] *)
Definition Structure : Type := gmap string (gmap (option Z) (list Path)).

(** [structure.setdefault(top_level, {})] followed by
    [structure[top_level].setdefault(year, []).append(file_path)]. *)
Definition add_file (structure : Structure) (top_level : string) (year : option Z)
    (file_path : Path) : Structure :=
  let year_groups := default ∅ (structure !! top_level) in
  <[top_level := <[year := default [] (year_groups !! year) ++ [file_path]]> year_groups]>
    structure.

(** [if extensions and file_path.suffix.lower() not in extensions] *)
Definition filtered_out (extensions : option (gset string)) (p : Path) : bool :=
  match extensions with
  | Some exts =>
      negb (bool_decide (exts = ∅)) && negb (bool_decide (Py.lower (suffix p) ∈ exts))
  | None => false
  end.

(** One iteration of the loop of [group_files]. *)
Definition visit (extensions : option (gset string)) (structure : Structure)
    (e : Entry) : Structure :=
  if negb (is_file e) then structure
  else if filtered_out extensions (rel e) then structure
  else match rel e with
       | [] => structure
       | top_level :: _ => add_file structure top_level (first_year (rel e)) (rel e)
       end.

Definition group_files (tree : list Entry) (extensions : option (gset string)) : Structure :=
  foldl (visit extensions) ∅ tree.

(** [github_link] *)
Definition github_link (rel_path : Path) : string :=
  let path_str := as_posix rel_path in
  let encoded := Py.quote path_str "/" in
  "[" +:+ path_str +:+ "](" +:+ encoded +:+ ")".

(** The keys of a dictionary. *)
Definition keys {K : Type} `{Countable K} {V : Type} (m : gmap K V) : list K :=
  (map_to_list m).*1.

(** [sorted(y for y in year_groups if y is not None)], then [None] appended
    when it is a key. *)
Definition years_of (year_groups : gmap (option Z) (list Path)) : list (option Z) :=
  (Some <$> Py.sorted Z.compare id (omap id (keys year_groups)))
  ++ (if bool_decide (is_Some (year_groups !! None)) then [None] else []).

Definition year_header (year : option Z) : string :=
  match year with
  | None => "No Year Folder"
  | Some y => Py.str y
  end.

Definition table_head : list string :=
  ["| Filename | FilePath |"; "|----------|----------|"].

(** The displayed name of a file: [fp.name.replace("|", "\\|")]. *)
Definition cell_name (fp : Path) : string := Py.replace (name fp) "|" "\|".

Definition table_row (fp : Path) : string :=
  "| " +:+ cell_name fp +:+ " | " +:+ github_link fp +:+ " |".

(** The state of the rendering loops: the lines so far and the counter. *)
Definition Acc : Type := list string * nat.

(** The body of the loop over [years]. *)
Definition year_step (year_groups : gmap (option Z) (list Path)) (acc : Acc)
    (year : option Z) : Acc :=
  let files := Py.sorted path_cmp id (year_groups !!! year) in
  let total := (snd acc + length files)%nat in
  match files with
  | [] => (fst acc, total)
  | _ :: _ =>
      (fst acc ++ ["#### " +:+ year_header year +:+ newline] ++ table_head
         ++ (table_row <$> files) ++ [EmptyString],
       total)
  end.

(** The body of the loop over the top-level directories. *)
Definition dir_step (structure : Structure) (acc : Acc) (top_dir : string) : Acc :=
  let year_groups := structure !!! top_dir in
  let acc1 := (fst acc ++ ["### " +:+ top_dir +:+ newline], snd acc) in
  let acc2 := foldl (year_step year_groups) acc1 (years_of year_groups) in
  (fst acc2 ++ ["---" +:+ newline], snd acc2).

Definition title_lines : list string :=
  ["# Snowden Archive – File Inventory" +:+ newline;
   "> Auto-generated • All paths are clickable on GitHub" +:+ newline;
   "## Directories" +:+ newline].

(** The lines and the counter when the loops are done. *)
Definition render (structure : Structure) : Acc :=
  foldl (dir_step structure) (title_lines, O) (Py.sorted Py.str_cmp id (keys structure)).

(** What a call leaves behind: the returned text, the file written (its
    path and content) and the lines printed. *)
Record Outcome : Type := mkOutcome {
  content : string;
  written : option (string * string);
  printed : list string
}.

(** [generate_markdown_inventory] on the walk of [root_dir]. *)
Definition generate_markdown_inventory (tree : list Entry)
    (extensions : option (gset string)) (output_file : option string) : Outcome :=
  let structure := group_files tree extensions in
  let '(lines, total) := render structure in
  let content := Py.rstrip (Py.join newline lines) +:+ newline in
  let summary :=
    "Success: " +:+ Py.str (Z.of_nat total) +:+ " files in "
      +:+ Py.str (Z.of_nat (size structure)) +:+ " top-level directories" in
  match output_file with
  | Some out =>
      mkOutcome content (Some (out, content))
        ["Success: GitHub-ready inventory saved → " +:+ out; summary]
  | None => mkOutcome content None [summary]
  end.

(** *** The command line *)

(** [(ext if ext.lower().startswith(".") else f".{ext}").lower()] *)
Definition normalise_ext (ext : string) : string :=
  Py.lower (if Py.startswith (Py.lower ext) "." then ext else "." +:+ ext).

(** [extensions_set], from the values of [--ext] ([None] when the option
    was not given). *)
Definition extensions_set (exts : option (list string)) : option (gset string) :=
  match exts with
  | Some ((_ :: _) as l) => Some (list_to_set (normalise_ext <$> l))
  | _ => None
  end.

(** [sorted(extensions_set)] *)
Definition sorted_extensions (s : gset string) : list string :=
  Py.sorted Py.str_cmp id (elements s).

(** The arguments of [main] besides the directory: the values of [--ext]
    and the text of [--output]. *)
Record Args : Type := mkArgs { extensions : option (list string); output : string }.

(** What [main] reads: the text of [Path(args.directory).resolve()],
    whether it is a directory, and its walk. *)
Record Env : Type := mkEnv { root : string; is_dir : bool; tree : list Entry }.

(** What [main] leaves behind: the file written (its path and content) and
    the lines printed. *)
Record Ran : Type := mkRan { file : option (string * string); lines : list string }.

(** [main] *)
Definition main (args : Args) (env : Env) : Ran :=
  if negb (is_dir env) then mkRan None ["Error: Directory not found: " +:+ root env]
  else
    let extensions_set := extensions_set (extensions args) in
    let r := generate_markdown_inventory (tree env) extensions_set (Some (output args)) in
    mkRan (written r)
      (["Scanning: " +:+ root env]
       ++ match extensions_set with
          | Some s =>
              if bool_decide (s = ∅) then []
              else ["Only including: " +:+ Py.join ", " (sorted_extensions s)]
          | None => []
          end
       ++ printed r
       ++ [newline +:+ "Finished! Commit '" +:+ output args
             +:+ "' to your repository root.";
           "Every FilePath will now be a working link on GitHub."]).

End WithUnicode.

End Inventory.

(** ** [generate_local_index-hf.py]: the HTML index *)
Module Index.

Section WithUnicode.
Context `{U : Py.Unicode}.

Definition HF_REPO_ID : string := "yukioitsuki/snowden_archived".

(** The dictionaries [{"path": ..., "name": ..., "year": ...}]. *)
Record PdfEntry : Type := mkPdf { path : string; name : string; year : option Z }.

(** [extract_year_from_path] *)
Fixpoint extract_year_from_path (path_parts : list string) : option Z :=
  match path_parts with
  | [] => None
  | part :: rest =>
      match Re.search YEAR_PATTERN part with
      | Some m => Some (Py.int_value m)
      | None => extract_year_from_path rest
      end
  end.

(** *** Effects *)

(** What a run reads: the answer of [list_repo_files] (the message of the
    exception it raised, or the listing), the walk of the current directory,
    and the text of [templates.html] when that file exists. *)
Record Env : Type := mkEnv {
  hf_listing : string + list string;
  local_tree : list Fs.Entry;
  template : option string
}.

(** What a run changes: the lines printed and the content of
    [index_local.html] ([None] while the file does not exist). *)
Record Out : Type := mkOut {
  stdout : list string;
  index_local_html : option string
}.

(** A computation returns a value or leaves through [sys.exit(code)]. *)
Inductive Result (A : Type) : Type :=
  | Return (a : A)
  | SysExit (code : Z).
#[global] Arguments Return {A} a.
#[global] Arguments SysExit {A} code.

Definition IO (A : Type) : Type := Out -> Result A * Out.

Definition ret {A} (a : A) : IO A := fun o => (Return a, o).

Definition bind {A B} (m : IO A) (k : A -> IO B) : IO B :=
  fun o =>
    match m o with
    | (Return a, o') => k a o'
    | (SysExit c, o') => (SysExit c, o')
    end.

Notation "x <- m ;; k" := (bind m (fun x => k))
  (at level 100, m at next level, right associativity).
Notation "m ;;; k" := (bind m (fun _ => k))
  (at level 100, right associativity).

Definition print (line : string) : IO unit :=
  fun o => (Return tt, mkOut (stdout o ++ [line]) (index_local_html o)).

Definition sys_exit {A} (code : Z) : IO A := fun o => (SysExit code, o).

(** [Path("index_local.html").write_text(text)] *)
Definition write_index (text : string) : IO unit :=
  fun o => (Return tt, mkOut (stdout o) (Some text)).

Definition str_len {A} (l : list A) : string := Py.str (Z.of_nat (length l)).

(** *** Enumeration *)

(** [get_pdf_files_from_hf] *)
Definition get_pdf_files_from_hf (env : Env) : IO (list string) :=
  print ("Fetching file list from Hugging Face dataset: " +:+ HF_REPO_ID) ;;;
  match hf_listing env with
  | inr files =>
      let pdf_files := List.filter (fun f => Py.endswith (Py.lower f) ".pdf") files in
      print ("Found " +:+ str_len pdf_files +:+ " PDF files on Hugging Face") ;;;
      ret pdf_files
  | inl e =>
      print ("Failed to fetch from HF: " +:+ e) ;;;
      ret []
  end.

(** [root_path.rglob("*.pdf")] *)
Definition rglob_pdf (tree : list Fs.Entry) : list Fs.Entry :=
  List.filter (fun e => Py.endswith (Fs.name (Fs.rel e)) ".pdf") tree.

(** One iteration of the loop of [scan_local_pdfs]; the state is
    [pdf_files] and [excluded]. *)
Definition scan_step (st : list PdfEntry * nat) (p : Fs.Entry) : list PdfEntry * nat :=
  if bool_decide (".files" ∈ Fs.rel p) then (fst st, S (snd st))
  else if negb (Fs.is_file p) then st
  else
    let year := extract_year_from_path (Fs.rel p) in
    (fst st ++ [mkPdf (Fs.as_posix (Fs.rel p)) (Fs.name (Fs.rel p)) year], snd st).

(** [scan_local_pdfs] *)
Definition scan_local_pdfs (env : Env) : IO (list PdfEntry) :=
  print "Scanning local directory for PDF files (excluding .files folders)..." ;;;
  let '(pdf_files, excluded) := foldl scan_step ([], O) (rglob_pdf (local_tree env)) in
  print ("Found " +:+ str_len pdf_files +:+ " local PDF files ("
           +:+ Py.str (Z.of_nat excluded) +:+ " excluded)") ;;;
  ret pdf_files.

(** *** Grouping *)

(** A year key is an integer or the text ["no-year"]. *)
Definition YearKey : Type := Z + string.

Definition Grouped : Type := gmap string (gmap YearKey (list PdfEntry)).

(** [path.split("/", 1)[0]] (both branches of the conditional in the source
    are this expression). *)
Definition top_dir_of (f : PdfEntry) : string := Py.before_first "/" (path f).

(** [f["year"] if f["year"] else "no-year"] *)
Definition year_key_of (f : PdfEntry) : YearKey :=
  match year f with
  | Some y => if y =? 0 then inr "no-year" else inl y
  | None => inr "no-year"
  end.

(** [grouped.setdefault(top_dir, {}).setdefault(year_key, []).append(f)] *)
Definition add_entry (grouped : Grouped) (f : PdfEntry) : Grouped :=
  let year_groups := default ∅ (grouped !! top_dir_of f) in
  <[top_dir_of f :=
      <[year_key_of f := default [] (year_groups !! year_key_of f) ++ [f]]> year_groups]>
    grouped.

Definition group_entries (pdf_entries : list PdfEntry) : Grouped :=
  foldl add_entry ∅ pdf_entries.

(** *** Rendering *)

Definition NO_YEAR_FOLDER : string := "No Year Folder".

(** ["No Year Folder" if y_key == "no-year" else str(y_key)] *)
Definition display (y_key : YearKey) : string :=
  match y_key with
  | inl y => Py.str y
  | inr s => if String.eqb s "no-year" then NO_YEAR_FOLDER else s
  end.

(** The loop filling [year_map]: each bucket, sorted by lowercased path,
    under its display name. *)
Definition year_map_of (year_groups : gmap YearKey (list PdfEntry))
    : gmap string (list PdfEntry) :=
  foldl (fun year_map '(y_key, flist) =>
           <[display y_key := Py.sorted Py.str_cmp (fun x => Py.lower (path x)) flist]>
             year_map)
        ∅ (map_to_list year_groups).

(** [sorted((y for y in year_map.keys() if y != "No Year Folder"), key=int)],
    then ["No Year Folder"] appended when it is a key. *)
Definition sorted_years_of (year_map : gmap string (list PdfEntry)) : list string :=
  Py.sorted Z.compare Py.int_value
    (List.filter (fun y => negb (String.eqb y NO_YEAR_FOLDER)) (Inventory.keys year_map))
  ++ (if bool_decide (is_Some (year_map !! NO_YEAR_FOLDER)) then [NO_YEAR_FOLDER] else []).

(** [class="c"] *)
Definition cls (c : string) : string := "class=" +:+ dquote +:+ c +:+ dquote.

Definition safe_name (f : PdfEntry) : string := Py.replace (name f) "|" "Vertical Bar".

Definition hf_url (f : PdfEntry) : string :=
  "https://huggingface.co/datasets/" +:+ HF_REPO_ID +:+ "/resolve/main/" +:+ path f.

(** The table row of one file. *)
Definition row_piece (f : PdfEntry) : string :=
  "          <tr><td><a href=" +:+ dquote +:+ Py.quote (hf_url f) ":/" +:+ dquote
    +:+ " target=" +:+ dquote +:+ "_blank" +:+ dquote +:+ ">" +:+ safe_name f
    +:+ "</a></td><td><code>" +:+ path f +:+ "</code></td></tr>" +:+ newline.

Definition year_header_piece (year_name : string) (files : list PdfEntry) : string :=
  "      <div " +:+ cls "year-header" +:+ ">" +:+ year_name +:+ " <span " +:+ cls "count"
    +:+ ">(" +:+ str_len files +:+ " PDFs)</span><span " +:+ cls "arrow"
    +:+ "></span></div>" +:+ newline.

(** What one round of the loop over [sorted_years] appends to [content]. *)
Definition year_pieces (year_map : gmap string (list PdfEntry)) (year_name : string)
    : list string :=
  let files := year_map !!! year_name in
  ["    <div " +:+ cls "year collapsed" +:+ ">" +:+ newline;
   year_header_piece year_name files;
   "      <div " +:+ cls "content" +:+ ">" +:+ newline;
   "        <div " +:+ cls "table-wrapper"
     +:+ "><table><thead><tr><th>Document</th><th>Path</th></tr></thead><tbody>" +:+ newline]
  ++ (row_piece <$> files)
  ++ ["        </tbody></table></div>" +:+ newline;
      "      </div></div>" +:+ newline].

Definition dir_header_piece (top_dir : string) : string :=
  "  <div " +:+ cls "dir-header" +:+ ">" +:+ top_dir +:+ "<span " +:+ cls "arrow"
    +:+ "></span></div>" +:+ newline.

(** What one round of the loop over the top-level directories appends. *)
Definition dir_pieces (grouped : Grouped) (top_dir : string) : list string :=
  let year_map := year_map_of (grouped !!! top_dir) in
  ["<div " +:+ cls "directory collapsed" +:+ ">" +:+ newline;
   dir_header_piece top_dir;
   "  <div " +:+ cls "content" +:+ ">" +:+ newline]
  ++ (sorted_years_of year_map ≫= year_pieces year_map)
  ++ ["  </div></div>" +:+ newline].

(** Every [content += ...] of [generate_html], in order. *)
Definition pieces (grouped : Grouped) : list string :=
  Py.sorted Py.str_cmp id (Inventory.keys grouped) ≫= dir_pieces grouped.

Definition content_of (pdf_entries : list PdfEntry) : string :=
  String.concat EmptyString (pieces (group_entries pdf_entries)).

(** The template with its two markers filled in. *)
Definition fill (template : string) (total_files : nat) (content : string) : string :=
  Py.replace (Py.replace template "{TOTAL_FILES}" (Py.str (Z.of_nat total_files)))
             "<!-- INJECTED_CONTENT -->" content.

(** [generate_html] *)
Definition generate_html (env : Env) (pdf_entries : list PdfEntry) (total_files : nat)
    : IO unit :=
  let content := content_of pdf_entries in
  match template env with
  | None =>
      print "Error: templates.html not found!" ;;;
      sys_exit 1
  | Some template =>
      write_index (fill template total_files content) ;;;
      print (newline +:+ "Success: index_local.html generated with "
               +:+ Py.str (Z.of_nat total_files) +:+ " PDFs") ;;;
      print "   → Links point directly to Hugging Face (no local files needed)" ;;;
      print "   → Double-click index_local.html → full offline-capable index!"
  end.

(** The command line: [--hf] and [--fallback-local]. *)
Record Args : Type := mkArgs { hf : bool; fallback_local : bool }.

(** The entries [main] builds from the remote listing. *)
Definition entry_of_hf (path : string) : PdfEntry :=
  mkPdf path (Fs.name_of path) (extract_year_from_path (Fs.parts_of path)).

(** [main] *)
Definition main (args : Args) (env : Env) : IO unit :=
  pdf_entries <-
    (if hf args then
       hf_files <- get_pdf_files_from_hf env ;;
       match hf_files with
       | _ :: _ => ret (entry_of_hf <$> hf_files)
       | [] =>
           if fallback_local args then
             print "Falling back to local files..." ;;;
             scan_local_pdfs env
           else
             print "No files found and no fallback enabled." ;;;
             sys_exit 1
       end
     else scan_local_pdfs env) ;;
  match pdf_entries with
  | [] =>
      print "No PDF files found." ;;;
      sys_exit 1
  | _ :: _ => generate_html env pdf_entries (length pdf_entries)
  end.

(** The exit status of the process and the state it leaves. *)
Definition run (args : Args) (env : Env) (before : Out) : Z * Out :=
  match main args env before with
  | (Return _, after) => (0, after)
  | (SysExit code, after) => (code, after)
  end.

End WithUnicode.

End Index.

(** ** Vocabulary of the specification *)
Module Spec.

Section WithUnicode.
Context `{U : Py.Unicode}.

(** Four characters are a year when they are the digits 1 9 or 2 0 followed
    by two decimal digits, of whatever script. *)
Definition is_year_text (tok : list string) : bool :=
  match tok with
  | [a; b; c; d] =>
      ((String.eqb a "1" && String.eqb b "9") || (String.eqb a "2" && String.eqb b "0"))
      && Py.is_digit c && Py.is_digit d
  | _ => false
  end.

(** The four characters of [s] from index [i] on are a year token: a year
    that no word character touches on either side.  [prev] is the character
    in front of [s], if any. *)
Definition token_at_from (prev : option string) (s : list string) (i : nat) : bool :=
  is_year_text (firstn 4 (skipn i s))
  && negb (Re.word_before (match i with O => prev | S j => nth_error s j end))
  && negb (Re.word_after (skipn (i + 4) s)).

(** The segment [seg] holds a year token at its character of index [i]. *)
Definition token_at (seg : string) (i : nat) : bool :=
  token_at_from None (Py.chars seg) i.

(** The text of the four characters of [seg] from index [i] on. *)
Definition token_text (seg : string) (i : nat) : string :=
  String.concat EmptyString (firstn 4 (skipn i (Py.chars seg))).

(** No index below [i] holds a year token. *)
Definition none_before (seg : string) (i : nat) : bool :=
  forallb (fun j => negb (token_at seg j)) (seq 0 i).

(** The segment holds no year token at all. *)
Definition no_token (seg : string) : bool :=
  none_before seg (S (length (Py.chars seg))).

(** The first part of a path: its top-level directory. *)
Definition top_level (p : Fs.Path) : string := List.hd EmptyString p.

(** The files the inventory keeps from a walk: the regular files that pass
    the extension filter. *)
Definition kept (extensions : option (gset string)) (e : Fs.Entry) : bool :=
  Fs.is_file e && negb (Inventory.filtered_out extensions (Fs.rel e))
  && match Fs.rel e with [] => false | _ :: _ => true end.

Definition enumerated (extensions : option (gset string)) (tree : list Fs.Entry)
    : list Fs.Path :=
  Fs.rel <$> List.filter (kept extensions) tree.

(** Every occurrence of the character [c0] replaced by the text [new], the
    other characters kept. *)
Fixpoint substitute (c0 : ascii) (new : string) (s : string) : string :=
  match s with
  | EmptyString => EmptyString
  | String c s' =>
      if Ascii.eqb c c0 then new +:+ substitute c0 new s'
      else String c (substitute c0 new s')
  end.

(** Reversing the escape of the Markdown table: a backslash in front of a
    vertical bar is dropped. *)
Definition unescape_pipes (s : string) : string := Py.replace s "\|" "|".

(** Every vertical bar of [s] comes right after a backslash;
    [after_backslash] tells whether the character in front of [s] is one. *)
Fixpoint pipes_escaped (after_backslash : bool) (s : string) : bool :=
  match s with
  | EmptyString => true
  | String c s' =>
      if Ascii.eqb c "|" then after_backslash && pipes_escaped false s'
      else pipes_escaped (Ascii.eqb c "\") s'
  end.

(** The number of occurrences of a character. *)
Fixpoint count_char (c0 : ascii) (s : string) : nat :=
  match s with
  | EmptyString => O
  | String c s' => (if Ascii.eqb c c0 then 1 else 0) + count_char c0 s'
  end.

(** The remote listing is of no use: the call raised, or the listing holds
    no name ending in [.pdf]. *)
Definition remote_failed (env : Index.Env) : bool :=
  match Index.hf_listing env with
  | inl _ => true
  | inr files => forallb (fun f => negb (Py.endswith (Py.lower f) ".pdf")) files
  end.

(** What [get_pdf_files_from_hf] returns, and its second line of output. *)
Definition remote_pdfs (env : Index.Env) : list string :=
  match Index.hf_listing env with
  | inl _ => []
  | inr files => List.filter (fun f => Py.endswith (Py.lower f) ".pdf") files
  end.

Definition remote_report (env : Index.Env) : string :=
  match Index.hf_listing env with
  | inl e => "Failed to fetch from HF: " +:+ e
  | inr _ => "Found " +:+ Index.str_len (remote_pdfs env) +:+ " PDF files on Hugging Face"
  end.

(** What [scan_local_pdfs] returns, and the lines it prints. *)
Definition local_scan (env : Index.Env) : list Index.PdfEntry * nat :=
  foldl Index.scan_step ([], O) (Index.rglob_pdf (Index.local_tree env)).

Definition local_entries (env : Index.Env) : list Index.PdfEntry := fst (local_scan env).

Definition local_lines (env : Index.Env) : list string :=
  ["Scanning local directory for PDF files (excluding .files folders)...";
   "Found " +:+ Index.str_len (local_entries env) +:+ " local PDF files ("
     +:+ Py.str (Z.of_nat (snd (local_scan env))) +:+ " excluded)"].

Definition fetching_line : string :=
  "Fetching file list from Hugging Face dataset: " +:+ Index.HF_REPO_ID.

(** A state with more lines printed. *)
Definition printing (o : Index.Out) (lines : list string) : Index.Out :=
  Index.mkOut (Index.stdout o ++ lines) (Index.index_local_html o).

(** The entries [main] hands to [generate_html], when it gets that far. *)
Definition chosen_entries (args : Index.Args) (env : Index.Env)
    : option (list Index.PdfEntry) :=
  if Index.hf args then
    match remote_pdfs env with
    | _ :: _ => Some (Index.entry_of_hf <$> remote_pdfs env)
    | [] => if Index.fallback_local args then Some (local_entries env) else None
    end
  else Some (local_entries env).

(** The text a run writes to [index_local.html], when it writes. *)
Definition written (args : Index.Args) (env : Index.Env) : option string :=
  match chosen_entries args env, Index.template env with
  | Some (e :: es), Some t =>
      Some (Index.fill t (length (e :: es)) (Index.content_of (e :: es)))
  | _, _ => None
  end.

(** The lines a run prints while it enumerates, and after that. *)
Definition opening_lines (args : Index.Args) (env : Index.Env) : list string :=
  if Index.hf args then
    [fetching_line; remote_report env]
    ++ match remote_pdfs env with
       | _ :: _ => []
       | [] =>
           if Index.fallback_local args
           then "Falling back to local files..." :: local_lines env
           else ["No files found and no fallback enabled."]
       end
  else local_lines env.

Definition closing_lines (env : Index.Env) (pdf_entries : list Index.PdfEntry)
    : list string :=
  match pdf_entries, Index.template env with
  | [], _ => ["No PDF files found."]
  | _ :: _, None => ["Error: templates.html not found!"]
  | _ :: _, Some _ =>
      [newline +:+ "Success: index_local.html generated with "
         +:+ Index.str_len pdf_entries +:+ " PDFs";
       "   → Links point directly to Hugging Face (no local files needed)";
       "   → Double-click index_local.html → full offline-capable index!"]
  end.

Definition run_lines (args : Index.Args) (env : Index.Env) : list string :=
  opening_lines args env
  ++ match chosen_entries args env with
     | Some pdf_entries => closing_lines env pdf_entries
     | None => []
     end.

(** The order of the year groups: ascending years, "no year" ([None])
    after every year. *)
Definition year_before (a b : option Z) : Prop :=
  match a, b with
  | Some x, Some y => x < y
  | Some _, None => True
  | None, _ => False
  end.

(** The same order on the year keys of the index, where "no year" is the
    text ["no-year"]. *)
Definition year_key_before (a b : Index.YearKey) : Prop :=
  match a, b with
  | inl x, inl y => x < y
  | inl _, inr _ => True
  | inr _, _ => False
  end.

(** Ascending lexical order of texts. *)
Definition text_before (a b : string) : Prop := Py.str_cmp a b = Lt.

(** [s] without the prefix [p], when it starts with [p]. *)
Fixpoint strip_prefix (p s : string) : option string :=
  match p with
  | EmptyString => Some s
  | String a p' =>
      match s with
      | String b s' => if Ascii.eqb a b then strip_prefix p' s' else None
      | EmptyString => None
      end
  end.

(** The headings of a Markdown document, read off its lines: the text of
    each directory heading ([inl]) and of each year heading ([inr]), in the
    order they appear. *)
Definition md_heading (line : string) : option (string + string) :=
  match strip_prefix "### " line with
  | Some d => Some (inl d)
  | None =>
      match strip_prefix "#### " line with
      | Some h => Some (inr h)
      | None => None
      end
  end.

Definition md_outline (lines : list string) : list (string + string) :=
  omap md_heading lines.

(** A table row of the inventory is a line ending with the closing
    parenthesis of its link and the cell delimiter. *)
Definition is_table_row (line : string) : bool := Py.endswith line ") |".

(** The headings of the HTML fragment, read off the pieces appended to
    [content]: what follows the opening tag of each directory header ([inl])
    and of each year header ([inr]), in the order they appear. *)
Definition dir_header_open : string := "  <div " +:+ Index.cls "dir-header" +:+ ">".

Definition year_header_open : string := "      <div " +:+ Index.cls "year-header" +:+ ">".

Definition html_heading (piece : string) : option (string + string) :=
  match strip_prefix dir_header_open piece with
  | Some t => Some (inl t)
  | None =>
      match strip_prefix year_header_open piece with
      | Some t => Some (inr t)
      | None => None
      end
  end.

Definition html_outline (pieces : list string) : list (string + string) :=
  omap html_heading pieces.

(** What follows the name in a directory header, and in the header of a year
    with [n] files. *)
Definition dir_header_rest : string :=
  "<span " +:+ Index.cls "arrow" +:+ "></span></div>" +:+ newline.

Definition year_header_rest (n : nat) : string :=
  " <span " +:+ Index.cls "count" +:+ ">(" +:+ Py.str (Z.of_nat n)
    +:+ " PDFs)</span><span " +:+ Index.cls "arrow" +:+ "></span></div>" +:+ newline.

(** The value of a hexadecimal digit. *)
Definition hex_value (c : ascii) : option N :=
  if Py.ascii_digit c then Some (Py.ord c - 48)%N
  else if Py.in_range 65 70 c then Some (Py.ord c - 55)%N
  else if Py.in_range 97 102 c then Some (Py.ord c - 87)%N
  else None.

(** Percent-decoding: every percent sign followed by two hexadecimal digits
    becomes the character of that code; the rest is kept. *)
Fixpoint unquote (s : string) : string :=
  match s with
  | EmptyString => EmptyString
  | String c s' =>
      let keep := String c (unquote s') in
      if Ascii.eqb c "%" then
        match s' with
        | String h (String l rest) =>
            match hex_value h, hex_value l with
            | Some a, Some b => String (ascii_of_N (16 * a + b)) (unquote rest)
            | _, _ => keep
            end
        | _ => keep
        end
      else keep
  end.

(** The characters a percent-encoded text is made of: letters, digits and
    [_.-~], the characters of [safe], and the percent sign. *)
Definition url_char (safe : string) (c : ascii) : bool :=
  Py.always_safe c || Py.mem_char c safe || Ascii.eqb c "%".

(** Every character of [s] passes the test [p]. *)
Definition all_chars (p : ascii -> bool) (s : string) : bool :=
  forallb p (list_ascii_of_string s).

(** The entry [scan_local_pdfs] makes of a file, from the parts of its path
    below the scanned directory. *)
Definition local_entry (parts : Fs.Path) : Index.PdfEntry :=
  Index.mkPdf (Fs.as_posix parts) (Fs.name parts) (Index.extract_year_from_path parts).

(** A path goes through a folder (or is a file) named [.files]. *)
Definition in_dot_files (e : Fs.Entry) : bool := bool_decide (".files" ∈ Fs.rel e).

(** A part of a path as a walk yields it: not empty, not the dot, and
    without a slash. *)
Definition proper_part (p : string) : bool :=
  negb (String.eqb p EmptyString) && negb (String.eqb p ".")
  && negb (Py.mem_char "/" p).

(** An occurrence of [old] starts at one of the first [n] offsets of [s]. *)
Fixpoint starts_before (old s : string) (n : nat) : bool :=
  match n with
  | O => false
  | S n' =>
      String.prefix old s
      || match s with
         | String _ s' => starts_before old s' n'
         | EmptyString => false
         end
  end.

(** [old in s] *)
Definition occurs (old s : string) : bool := starts_before old s (S (String.length s)).

(** A piece of the HTML fragment is a table row when it opens a table row. *)
Definition is_row_piece (piece : string) : bool :=
  Py.startswith piece "          <tr><td>".

End WithUnicode.

End Spec.

(** ** Vocabulary of the proofs *)

Section Vocabulary.
Context `{U : Py.Unicode}.

(** The order of the keys, on the items. *)
Definition key_le {A K : Type} (cmp : K -> K -> comparison) (key : A -> K) (a b : A) : Prop :=
  Py.le_of cmp (key a) (key b).

Definition key_lt {A K : Type} (cmp : K -> K -> comparison) (key : A -> K) (a b : A) : Prop :=
  cmp (key a) (key b) = Lt.

Definition digits : list ascii :=
  ["0"; "1"; "2"; "3"; "4"; "5"; "6"; "7"; "8"; "9"]%char.

Definition four (a b c d : ascii) : string :=
  String a (String b (String c (String d EmptyString))).

(** The values of the decimal digits. *)
Definition digit_values : list N := [0; 1; 2; 3; 4; 5; 6; 7; 8; 9]%N.

(** A character is a first byte followed by continuation bytes only. *)
Fixpoint all_continuation (s : string) : bool :=
  match s with
  | EmptyString => true
  | String c s' => Py.is_continuation c && all_continuation s'
  end.

Definition is_char (ch : string) : bool :=
  match ch with
  | String _ tail => all_continuation tail
  | EmptyString => false
  end.

(** A sequence of characters as [Py.chars] gives them: after the first one,
    none starts with a continuation byte. *)
Definition chars_ok (l : list string) : bool :=
  forallb is_char l && forallb (fun ch => negb (Py.starts_with_continuation ch)) (tl l).

(** The escape of the Markdown table: a backslash in front of every
    vertical bar. *)
Definition escape_pipes (s : string) : string := Spec.substitute "|" "\|" s.

(** Both scripts group with the same idiom,
    [d.setdefault(k1, {}).setdefault(k2, []).append(v)]. *)
Section GroupingDefs.
Context {K1 K2 : Type} `{Countable K1} `{Countable K2} {V : Type}.
Context (k1 : V -> K1) (k2 : V -> K2).

Definition add_to (m : gmap K1 (gmap K2 (list V))) (a : K1) (b : K2) (v : V)
    : gmap K1 (gmap K2 (list V)) :=
  let inner := default ∅ (m !! a) in
  <[a := <[b := default [] (inner !! b) ++ [v]]> inner]> m.

(** The list under a pair of keys, empty when there is none. *)
Definition bucket (m : gmap K1 (gmap K2 (list V))) (a : K1) (b : K2) : list V :=
  default [] (m !! a ≫= (.!! b)).

(** All the lists of a grouping, one after the other. *)
Definition all_items (m : gmap K1 (gmap K2 (list V))) : list V :=
  map_to_list m ≫= (fun '(_, inner) => map_to_list inner ≫= snd).

(** Grouping a list by two key functions. *)
Definition group_by (l : list V) : gmap K1 (gmap K2 (list V)) :=
  foldl (fun m v => add_to m (k1 v) (k2 v) v) ∅ l.

Definition has_key (a : K1) (b : K2) (v : V) : bool :=
  bool_decide (k1 v = a) && bool_decide (k2 v = b).

(** Two groupings with the same keys at both levels and, under each pair of
    keys, the same elements in some order. *)
Definition same_groups (m m' : gmap K1 (gmap K2 (list V))) : Prop :=
  Inventory.keys m ≡ₚ Inventory.keys m'
  /\ (forall a, Inventory.keys (m !!! a) ≡ₚ Inventory.keys (m' !!! a))
  /\ (forall a b, bucket m a b ≡ₚ bucket m' a b).

End GroupingDefs.

(** *** The Markdown document, laid out from the grouping *)

(** The rows of the table of directory [d] and year [y], as files. *)
Definition md_files (structure : Inventory.Structure) (d : string) (y : option Z)
    : list Fs.Path :=
  Py.sorted Fs.path_cmp id (bucket structure d y).

Definition nonempty {A : Type} (l : list A) : bool :=
  match l with [] => false | _ :: _ => true end.

(** The years of directory [d] that get a table, in the order of the
    document. *)
Definition md_years (structure : Inventory.Structure) (d : string) : list (option Z) :=
  List.filter (fun y => nonempty (md_files structure d y))
              (Inventory.years_of (structure !!! d)).

(** The directories in the order of the document. *)
Definition md_dirs (structure : Inventory.Structure) : list string :=
  Py.sorted Py.str_cmp id (Inventory.keys structure).

Definition md_year_block (structure : Inventory.Structure) (d : string) (y : option Z)
    : list string :=
  ["#### " +:+ Inventory.year_header y +:+ newline] ++ Inventory.table_head
  ++ (Inventory.table_row <$> md_files structure d y) ++ [EmptyString].

Definition md_dir_block (structure : Inventory.Structure) (d : string) : list string :=
  ["### " +:+ d +:+ newline]
  ++ (md_years structure d ≫= md_year_block structure d)
  ++ ["---" +:+ newline].

Definition md_layout (structure : Inventory.Structure) : list string :=
  Inventory.title_lines ++ (md_dirs structure ≫= md_dir_block structure).

(** The counter after the loops: the sizes of all the buckets visited. *)
Definition md_count (structure : Inventory.Structure) : nat :=
  sum_list ((fun d => sum_list ((fun y => length (bucket structure d y))
                                  <$> Inventory.years_of (structure !!! d)))
              <$> md_dirs structure).

(** *** The HTML fragment, laid out from the grouping *)

Definition int_key (k : Index.YearKey) : option Z :=
  match k with inl z => Some z | inr _ => None end.

(** The rows of the table of directory [d] and year key [y], as entries. *)
Definition html_files (grouped : Index.Grouped) (d : string) (y : Index.YearKey)
    : list Index.PdfEntry :=
  Py.sorted Py.str_cmp (fun x => Py.lower (Index.path x)) (bucket grouped d y).

(** The year keys of a directory in the order of the document. *)
Definition html_years_of (year_groups : gmap Index.YearKey (list Index.PdfEntry))
    : list Index.YearKey :=
  (inl <$> Py.sorted Z.compare id (omap int_key (Inventory.keys year_groups)))
  ++ (if bool_decide (is_Some (year_groups !! inr "no-year")) then [inr "no-year"]
      else []).

Definition html_years (grouped : Index.Grouped) (d : string) : list Index.YearKey :=
  html_years_of (grouped !!! d).

Definition html_dirs (grouped : Index.Grouped) : list string :=
  Py.sorted Py.str_cmp id (Inventory.keys grouped).

Definition html_year_block (grouped : Index.Grouped) (d : string) (y : Index.YearKey)
    : list string :=
  ["    <div " +:+ Index.cls "year collapsed" +:+ ">" +:+ newline;
   Index.year_header_piece (Index.display y) (html_files grouped d y);
   "      <div " +:+ Index.cls "content" +:+ ">" +:+ newline;
   "        <div " +:+ Index.cls "table-wrapper"
     +:+ "><table><thead><tr><th>Document</th><th>Path</th></tr></thead><tbody>" +:+ newline]
  ++ (Index.row_piece <$> html_files grouped d y)
  ++ ["        </tbody></table></div>" +:+ newline;
      "      </div></div>" +:+ newline].

Definition html_dir_block (grouped : Index.Grouped) (d : string) : list string :=
  ["<div " +:+ Index.cls "directory collapsed" +:+ ">" +:+ newline;
   Index.dir_header_piece d;
   "  <div " +:+ Index.cls "content" +:+ ">" +:+ newline]
  ++ (html_years grouped d ≫= html_year_block grouped d)
  ++ ["  </div></div>" +:+ newline].

Definition html_layout (grouped : Index.Grouped) : list string :=
  html_dirs grouped ≫= html_dir_block grouped.

(** The year keys [generate_html] makes: an integer or ["no-year"]. *)
Definition valid_year_key (k : Index.YearKey) : Prop :=
  k = inr "no-year" \/ exists z : Z, k = inl z.

Definition valid_year_keys (year_groups : gmap Index.YearKey (list Index.PdfEntry)) : Prop :=
  forall k, is_Some (year_groups !! k) -> valid_year_key k.

End Vocabulary.

(** ** A fragment of the Unicode tables

    The tables on the letters of Latin-1 (U+00C0 to U+00FF), the
    Arabic-Indic digits (U+0660 to U+0669) and the CJK ideographs (U+4E00 to
    U+9FFF), for the examples at the end.  The fragment takes every other
    character outside ASCII as caseless and as neither letter nor digit. *)
Module Fragment.

(** [unicodedata.decimal]: the bytes D9 A0 to D9 A9 are the digits U+0660
    to U+0669. *)
Definition decimal (ch : string) : option N :=
  match ch with
  | String a (String b EmptyString) =>
      if (Py.ord a =? 217)%N && Py.in_range 160 169 b
      then Some (Py.ord b - 160)%N else None
  | _ => None
  end.

(** [str.isalnum]: the bytes C3 80 to C3 BF are U+00C0 to U+00FF, letters
    but for the signs U+00D7 and U+00F7; E4 B8 80 to E9 BF BF are U+4E00 to
    U+9FFF. *)
Definition alnum (ch : string) : bool :=
  match ch with
  | String a (String b EmptyString) =>
      ((Py.ord a =? 195)%N && Py.in_range 128 191 b
       && negb (Py.ord b =? 151)%N && negb (Py.ord b =? 183)%N)
      || ((Py.ord a =? 217)%N && Py.in_range 160 169 b)
  | String a (String b (String c EmptyString)) =>
      Py.in_range 228 233 a && Py.in_range 128 191 b && Py.in_range 128 191 c
      && ((229 <=? Py.ord a)%N || (184 <=? Py.ord b)%N)
  | _ => false
  end.

(** [str.lower]: U+00C0 to U+00DE but U+00D7 (the bytes C3 80 to C3 9E but
    C3 97) become U+00E0 to U+00FE, and A to Z become a to z.
    [after_c3] tells that the byte before was C3. *)
Fixpoint lower_from (after_c3 : bool) (s : string) : string :=
  match s with
  | EmptyString => EmptyString
  | String c s' =>
      if after_c3 && Py.in_range 128 158 c && negb (Py.ord c =? 151)%N
      then String (ascii_of_N (Py.ord c + 32)) (lower_from false s')
      else String (Py.lower_char c) (lower_from (Py.ord c =? 195)%N s')
  end.

Definition lower (s : string) : string := lower_from false s.

End Fragment.

(* ===================================================================== *)
(** * Part II: properties                                                 *)
(* ===================================================================== *)

Section Properties.
Context `{U : Py.Unicode}.


(** ** Texts and their characters *)

Lemma append_cons (c : ascii) (s t : string) : String c s +:+ t = String c (s +:+ t).
Proof. reflexivity. Qed.

Lemma append_empty_l (t : string) : EmptyString +:+ t = t.
Proof. reflexivity. Qed.

Lemma append_empty_r (s : string) : s +:+ EmptyString = s.
Proof. induction s as [|c s IH]; [reflexivity|]. now rewrite append_cons, IH. Qed.

Lemma append_assoc (a b c : string) : (a +:+ b) +:+ c = a +:+ (b +:+ c).
Proof.
  induction a as [|x a IH]; [now rewrite !append_empty_l|].
  now rewrite !append_cons, IH.
Qed.

Lemma concat_cons (ch : string) (l : list string) :
  String.concat EmptyString (ch :: l) = ch +:+ String.concat EmptyString l.
Proof.
  destruct l as [|x l]; cbn [String.concat]; [now rewrite append_empty_r|].
  now rewrite append_empty_l.
Qed.

Lemma chars_cons (c : ascii) (s : string) :
  Py.chars (String c s) =
    match Py.chars s with
    | ch :: rest =>
        if Py.starts_with_continuation ch then String c ch :: rest
        else String c EmptyString :: ch :: rest
    | [] => [String c EmptyString]
    end.
Proof. reflexivity. Qed.

Lemma is_char_continued (ch : string) :
  is_char ch = true -> Py.starts_with_continuation ch = true -> all_continuation ch = true.
Proof.
  destruct ch as [|c t]; [discriminate|]. cbn. intros -> ->. reflexivity.
Qed.

(** The characters of a text are characters, and after the first one none
    starts with a continuation byte. *)
Lemma chars_chars_ok (s : string) : chars_ok (Py.chars s) = true.
Proof.
  unfold chars_ok. induction s as [|c s IH]; [reflexivity|].
  rewrite chars_cons. apply andb_prop in IH as [IH1 IH2].
  destruct (Py.chars s) as [|ch rest]; [reflexivity|].
  cbn [forallb tl] in IH1, IH2. apply andb_prop in IH1 as [Hch Hrest].
  destruct (Py.starts_with_continuation ch) eqn:E; cbn [forallb tl is_char].
  - rewrite (is_char_continued ch Hch E), Hrest, IH2. reflexivity.
  - cbn [all_continuation]. rewrite Hch, Hrest, E, IH2. reflexivity.
Qed.

Lemma chars_continuation (tail t : string) :
  all_continuation tail = true -> tail <> EmptyString ->
  match Py.chars t with
  | ch :: _ => Py.starts_with_continuation ch = false
  | [] => True
  end ->
  Py.chars (tail +:+ t) = tail :: Py.chars t.
Proof.
  induction tail as [|c tail IH]; intros Hall Hne Hhead; [congruence|].
  cbn [all_continuation] in Hall. apply andb_prop in Hall as [Hc Hall].
  rewrite append_cons, chars_cons.
  destruct tail as [|c' tail'].
  - rewrite append_empty_l. destruct (Py.chars t) as [|ch rest]; [reflexivity|].
    now rewrite Hhead.
  - rewrite (IH Hall) by (discriminate || exact Hhead).
    cbn [all_continuation] in Hall. apply andb_prop in Hall as [Hc' _].
    cbn [Py.starts_with_continuation]. now rewrite Hc'.
Qed.

Lemma chars_char_app (ch t : string) :
  is_char ch = true ->
  match Py.chars t with
  | ch' :: _ => Py.starts_with_continuation ch' = false
  | [] => True
  end ->
  Py.chars (ch +:+ t) = ch :: Py.chars t.
Proof.
  destruct ch as [|c tail]; [discriminate|]. cbn [is_char]. intros Hall Hhead.
  rewrite append_cons, chars_cons.
  destruct tail as [|c' tail'].
  - rewrite append_empty_l. destruct (Py.chars t) as [|ch' rest]; [reflexivity|].
    now rewrite Hhead.
  - rewrite (chars_continuation _ t Hall) by (discriminate || exact Hhead).
    cbn [all_continuation] in Hall. apply andb_prop in Hall as [Hc' _].
    cbn [Py.starts_with_continuation]. now rewrite Hc'.
Qed.

(** Characters put one after the other are the characters of the text they
    make. *)
Lemma chars_concat (l : list string) :
  chars_ok l = true -> Py.chars (String.concat EmptyString l) = l.
Proof.
  unfold chars_ok. induction l as [|ch l IH]; intros H; [reflexivity|].
  apply andb_prop in H as [H1 H2]. cbn [forallb tl] in H1, H2.
  apply andb_prop in H1 as [Hch Hl].
  assert (Hl' : Py.chars (String.concat EmptyString l) = l).
  { apply IH. rewrite Hl. cbn [andb]. destruct l as [|x l']; [reflexivity|].
    cbn [forallb tl] in *. now apply andb_prop in H2 as [_ H2]. }
  rewrite concat_cons, (chars_char_app ch _ Hch); rewrite Hl'; [reflexivity|].
  destruct l as [|x l']; [exact I|].
  cbn [forallb] in H2. apply andb_prop in H2 as [Hx _]. now apply negb_true_iff in Hx.
Qed.

Lemma chars_ok_skipn (i : nat) (l : list string) :
  chars_ok l = true -> chars_ok (skipn i l) = true.
Proof.
  revert l. induction i as [|i IH]; intros l H; [exact H|].
  destruct l as [|ch l]; [exact H|]. cbn [skipn]. apply IH.
  unfold chars_ok in *. apply andb_prop in H as [H1 H2]. cbn [forallb tl] in H1, H2.
  apply andb_prop in H1 as [_ H1]. rewrite H1. cbn [andb].
  destruct l as [|x l']; [reflexivity|]. cbn [forallb tl] in *.
  now apply andb_prop in H2 as [_ H2].
Qed.

Lemma chars_ok_firstn (n : nat) (l : list string) :
  chars_ok l = true -> chars_ok (firstn n l) = true.
Proof.
  unfold chars_ok. intros H. apply andb_prop in H as [H1 H2].
  apply andb_true_intro. split.
  - revert n. induction l as [|ch l IH]; intros [|n]; try reflexivity.
    cbn [firstn forallb] in *. apply andb_prop in H1 as [Hch H1].
    rewrite Hch. cbn [andb]. apply IH; [exact H1|].
    destruct l as [|x l']; [reflexivity|]. cbn [forallb tl] in *.
    now apply andb_prop in H2 as [_ H2].
  - destruct n as [|n]; [reflexivity|]. destruct l as [|ch l]; [reflexivity|].
    cbn [firstn tl] in *. clear H1. revert n.
    induction l as [|x l IH]; intros [|n]; try reflexivity.
    cbn [firstn forallb] in *. apply andb_prop in H2 as [Hx H2].
    rewrite Hx. cbn [andb]. now apply IH.
Qed.

(** The characters of an ASCII text are its bytes. *)
Lemma chars_ascii (s : string) :
  Py.is_ascii s = true ->
  Py.chars s = (fun c => String c EmptyString) <$> list_ascii_of_string s.
Proof.
  induction s as [|c s IH]; [reflexivity|].
  cbn [Py.is_ascii list_ascii_of_string fmap list_fmap].
  intros H. apply andb_prop in H as [Hc Hs].
  rewrite chars_cons, (IH Hs).
  destruct s as [|c' s']; [reflexivity|].
  cbn [list_ascii_of_string fmap list_fmap Py.starts_with_continuation].
  cbn [Py.is_ascii] in Hs. apply andb_prop in Hs as [Hc' _].
  assert (Hcont : Py.is_continuation c' = false).
  { unfold Py.is_continuation, Py.in_range. apply N.ltb_lt in Hc'.
    apply andb_false_iff. left. apply N.leb_gt. exact Hc'. }
  now rewrite Hcont.
Qed.


(** ** Decimal digits *)

Lemma digit_value_lt (ch : string) (v : N) :
  Py.digit_value ch = Some v -> (v < 10)%N.
Proof.
  unfold Py.digit_value.
  destruct ch as [|c [|c' t]]; try apply Py.uni_decimal_digit.
  destruct (Py.ascii_digit c) eqn:E; [|discriminate]. intros [= <-].
  unfold Py.ascii_digit, Py.in_range in E. apply andb_prop in E as [E1 E2].
  apply N.leb_le in E1, E2. lia.
Qed.

Lemma is_digit_word (ch : string) : Py.is_digit ch = true -> Py.is_word ch = true.
Proof.
  unfold Py.is_digit, Py.digit_value, Py.is_word.
  destruct ch as [|c [|c' t]].
  - destruct (Py.uni_decimal EmptyString) as [v|] eqn:E; [|discriminate].
    intros _. exact (Py.uni_decimal_alnum _ _ E).
  - destruct (Py.ascii_digit c) eqn:E; [|discriminate]. intros _.
    unfold Py.ascii_word. now rewrite E.
  - destruct (Py.uni_decimal (String c (String c' t))) as [v|] eqn:E; [|discriminate].
    intros _. exact (Py.uni_decimal_alnum _ _ E).
Qed.

Lemma digit_values_In (v : N) : (v < 10)%N -> In v digit_values.
Proof.
  intros Hv. unfold digit_values.
  assert (H : (v = 0 \/ v = 1 \/ v = 2 \/ v = 3 \/ v = 4 \/ v = 5 \/ v = 6 \/ v = 7
               \/ v = 8 \/ v = 9)%N) by lia.
  cbn [In]. intuition auto.
Qed.

(** The numerals the pattern can match, read by the ASCII numeral reader. *)
Lemma year_numerals_check :
  forallb (fun vc => forallb (fun vd =>
    match option_map Z.of_int
            (NilZero.int_of_string ("19" +:+ Py.digit_char vc +:+ Py.digit_char vd)),
          option_map Z.of_int
            (NilZero.int_of_string ("20" +:+ Py.digit_char vc +:+ Py.digit_char vd))
    with
    | Some y, Some y' =>
        (y =? 1900 + 10 * Z.of_N vc + Z.of_N vd)
        && (y' =? 2000 + 10 * Z.of_N vc + Z.of_N vd)
    | _, _ => false
    end) digit_values) digit_values = true.
Proof. vm_compute. reflexivity. Qed.

Lemma is_year_text_inv (tok : list string) :
  Spec.is_year_text tok = true ->
  exists c d vc vd,
    (tok = ["1"; "9"; c; d] \/ tok = ["2"; "0"; c; d])
    /\ Py.digit_value c = Some vc /\ Py.digit_value d = Some vd.
Proof.
  unfold Spec.is_year_text.
  destruct tok as [|a [|b [|c [|d [|e tok]]]]]; try discriminate.
  intros H. apply andb_prop in H as [H Hd]. apply andb_prop in H as [H Hc].
  unfold Py.is_digit in Hc, Hd.
  destruct (Py.digit_value c) as [vc|] eqn:Ec; [|discriminate].
  destruct (Py.digit_value d) as [vd|] eqn:Ed; [|discriminate].
  exists c, d, vc, vd. split; [|now split].
  apply orb_prop in H as [H|H]; apply andb_prop in H as [Ha Hb];
    apply String.eqb_eq in Ha, Hb; subst; auto.
Qed.

(** A year text reads as an integer from 1900 to 2099. *)
Lemma year_text_int (tok : list string) :
  Spec.is_year_text tok = true -> chars_ok tok = true ->
  exists y, Py.int (String.concat EmptyString tok) = Some y /\ 1900 <= y <= 2099.
Proof.
  intros Hy Hok.
  destruct (is_year_text_inv tok Hy) as (c & d & vc & vd & Htok & Hc & Hd).
  pose proof (digit_value_lt c vc Hc) as Hvc.
  pose proof (digit_value_lt d vd Hd) as Hvd.
  pose proof year_numerals_check as Hall.
  rewrite forallb_forall in Hall. specialize (Hall vc (digit_values_In vc Hvc)).
  rewrite forallb_forall in Hall. specialize (Hall vd (digit_values_In vd Hvd)).
  unfold Py.int, Py.to_ascii_decimal. rewrite (chars_concat tok Hok).
  destruct Htok as [-> | ->]; cbn [fmap list_fmap]; rewrite Hc, Hd;
    change (Py.digit_value "1") with (Some 1%N);
    change (Py.digit_value "9") with (Some 9%N);
    change (Py.digit_value "2") with (Some 2%N);
    change (Py.digit_value "0") with (Some 0%N); cbv iota;
    rewrite !concat_cons; change (String.concat EmptyString []) with EmptyString;
    rewrite append_empty_r.
  - change (Py.digit_char 1 +:+ Py.digit_char 9 +:+ Py.digit_char vc +:+ Py.digit_char vd)
      with ("19" +:+ Py.digit_char vc +:+ Py.digit_char vd).
    destruct (option_map Z.of_int
                (NilZero.int_of_string ("19" +:+ Py.digit_char vc +:+ Py.digit_char vd)))
      as [y|]; [|discriminate].
    destruct (option_map Z.of_int
                (NilZero.int_of_string ("20" +:+ Py.digit_char vc +:+ Py.digit_char vd)))
      as [y'|]; [|discriminate].
    apply andb_prop in Hall as [Hall _]. apply Z.eqb_eq in Hall.
    exists y. split; [reflexivity|]. lia.
  - change (Py.digit_char 2 +:+ Py.digit_char 0 +:+ Py.digit_char vc +:+ Py.digit_char vd)
      with ("20" +:+ Py.digit_char vc +:+ Py.digit_char vd).
    destruct (option_map Z.of_int
                (NilZero.int_of_string ("19" +:+ Py.digit_char vc +:+ Py.digit_char vd)))
      as [y|]; [|discriminate].
    destruct (option_map Z.of_int
                (NilZero.int_of_string ("20" +:+ Py.digit_char vc +:+ Py.digit_char vd)))
      as [y'|]; [|discriminate].
    apply andb_prop in Hall as [_ Hall]. apply Z.eqb_eq in Hall.
    exists y'. split; [reflexivity|]. lia.
Qed.

(** ** The year pattern *)

Lemma is_year_text_word_first (a b c d : string) :
  Spec.is_year_text [a; b; c; d] = true -> Py.is_word a = true.
Proof.
  intros H. destruct (is_year_text_inv _ H) as (c' & d' & vc & vd & [E|E] & _);
    injection E as -> _ _ _; reflexivity.
Qed.

Lemma is_year_text_word_last (a b c d : string) :
  Spec.is_year_text [a; b; c; d] = true -> Py.is_word d = true.
Proof.
  unfold Spec.is_year_text. intros H. apply andb_prop in H as [_ H].
  now apply is_digit_word.
Qed.

(** The pattern at one position, spelled out. *)
Lemma match_re_year (prev : option string) (s : list string)
    (k : option string -> list string -> option (list string)) :
  Re.match_re YEAR_PATTERN prev s k =
    match s with
    | a :: b :: c :: d :: rest =>
        if Spec.is_year_text [a; b; c; d] && negb (Re.word_before prev)
           && negb (Re.word_after rest)
        then k (Some d) rest else None
    | _ => None
    end.
Proof.
  unfold YEAR_PATTERN.
  cbn [Re.match_re Re.lit Re.times].
  destruct s as [|a s].
  { destruct (xorb _ _); reflexivity. }
  destruct s as [|b s].
  { destruct (xorb _ _); [|reflexivity].
    destruct (String.eqb a "1"), (String.eqb a "2"); reflexivity. }
  destruct s as [|c s].
  { destruct (xorb _ _); [|reflexivity].
    destruct (String.eqb a "1"), (String.eqb a "2"), (String.eqb b "9"), (String.eqb b "0");
      reflexivity. }
  destruct s as [|d rest].
  { destruct (xorb _ _); [|reflexivity].
    destruct (String.eqb a "1"), (String.eqb a "2"), (String.eqb b "9"), (String.eqb b "0"),
      (Py.is_digit c); reflexivity. }
  destruct (Spec.is_year_text [a; b; c; d]) eqn:Hy.
  - change (Re.word_after (a :: b :: c :: d :: rest)) with (Py.is_word a).
    rewrite (is_year_text_word_first _ _ _ _ Hy).
    pose proof (is_year_text_word_last _ _ _ _ Hy) as Hd.
    unfold Spec.is_year_text in Hy.
    apply andb_prop in Hy as [Hy Hdd]. apply andb_prop in Hy as [Hy Hdc].
    rewrite Hdc, Hdd.
    change (Re.word_before (Some d)) with (Py.is_word d). rewrite Hd.
    destruct (Re.word_before prev); cbn [xorb negb andb]; [reflexivity|].
    apply orb_prop in Hy as [Hy|Hy]; apply andb_prop in Hy as [Ha Hb];
      rewrite Ha, Hb; apply String.eqb_eq in Ha; subst a.
    + destruct (Re.word_after rest); cbn [xorb negb andb]; [reflexivity|].
      destruct (k (Some d) rest); reflexivity.
    + change (String.eqb "2" "1") with false. cbv iota.
      destruct (Re.word_after rest); cbn [xorb negb andb]; reflexivity.
  - cbn [andb].
    destruct (xorb _ _); [|reflexivity].
    unfold Spec.is_year_text in Hy.
    destruct (String.eqb a "1"), (String.eqb a "2"), (String.eqb b "9"), (String.eqb b "0"),
      (Py.is_digit c), (Py.is_digit d); cbn [andb orb] in Hy; try discriminate Hy;
      reflexivity.
Qed.


(** A match of the pattern at the current position is a year token at
    index 0, and conversely. *)
Lemma match_at_year (prev : option string) (s : list string) :
  Re.match_at YEAR_PATTERN prev s =
    if Spec.token_at_from prev s 0 then Some (firstn 4 s) else None.
Proof.
  unfold Re.match_at. rewrite match_re_year. unfold Spec.token_at_from.
  destruct s as [|a [|b [|c [|d rest]]]]; try reflexivity.
  change (firstn 4 (skipn 0 (a :: b :: c :: d :: rest))) with [a; b; c; d].
  change (skipn (0 + 4) (a :: b :: c :: d :: rest)) with rest.
  destruct (Spec.is_year_text [a; b; c; d] && negb (Re.word_before prev)
            && negb (Re.word_after rest)); [|reflexivity].
  f_equal. cbn [length].
  replace (S (S (S (S (length rest)))) - length rest)%nat with 4%nat by lia.
  reflexivity.
Qed.

Lemma token_at_from_cons (prev : option string) (ch : string) (s : list string) (i : nat) :
  Spec.token_at_from prev (ch :: s) (S i) = Spec.token_at_from (Some ch) s i.
Proof. unfold Spec.token_at_from. destruct i; reflexivity. Qed.

Lemma forallb_seq_shift (f : nat -> bool) (n : nat) :
  forallb f (seq 1 n) = forallb (fun j => f (S j)) (seq 0 n).
Proof.
  rewrite <- seq_shift. induction (seq 0 n) as [|x l IH]; [reflexivity|].
  cbn [List.map forallb]. now rewrite IH.
Qed.

Lemma forallb_ext_in {X : Type} (f g : X -> bool) (l : list X) :
  (forall x, f x = g x) -> forallb f l = forallb g l.
Proof. intros H. induction l as [|x l IH]; [reflexivity|]. cbn. now rewrite H, IH. Qed.

(** The leftmost match, found by trying the positions in turn. *)
Lemma search_from_first (s : list string) (prev : option string) (i : nat) :
  Spec.token_at_from prev s i = true ->
  forallb (fun j => negb (Spec.token_at_from prev s j)) (seq 0 i) = true ->
  Re.search_from YEAR_PATTERN prev s = Some (firstn 4 (skipn i s)).
Proof.
  revert s prev. induction i as [|i IH]; intros s prev Hi Hnone.
  - destruct s; cbn [Re.search_from]; rewrite match_at_year, Hi; reflexivity.
  - change (seq 0 (S i)) with (0%nat :: seq 1 i) in Hnone.
    cbn [forallb] in Hnone. apply andb_prop in Hnone as [H0 Hnone].
    apply negb_true_iff in H0.
    destruct s as [|ch s].
    + discriminate Hi.
    + cbn [Re.search_from]. rewrite match_at_year, H0.
      rewrite token_at_from_cons in Hi.
      rewrite forallb_seq_shift in Hnone.
      rewrite (forallb_ext_in _ (fun j => negb (Spec.token_at_from (Some ch) s j))) in Hnone
        by (intros j; now rewrite token_at_from_cons).
      cbn [skipn]. apply IH; [exact Hi | exact Hnone].
Qed.

Lemma search_from_none (s : list string) (prev : option string) :
  forallb (fun j => negb (Spec.token_at_from prev s j)) (seq 0 (S (length s))) = true ->
  Re.search_from YEAR_PATTERN prev s = None.
Proof.
  revert prev. induction s as [|ch s IH]; intros prev Hnone.
  - cbn [Re.search_from]. rewrite match_at_year.
    cbn [length seq forallb] in Hnone.
    apply andb_prop in Hnone as [H0 _]. apply negb_true_iff in H0. now rewrite H0.
  - cbn [length] in Hnone.
    change (seq 0 (S (S (length s)))) with (0%nat :: seq 1 (S (length s))) in Hnone.
    cbn [forallb] in Hnone. apply andb_prop in Hnone as [H0 Hnone].
    apply negb_true_iff in H0.
    cbn [Re.search_from]. rewrite match_at_year, H0.
    rewrite forallb_seq_shift in Hnone.
    rewrite (forallb_ext_in _ (fun j => negb (Spec.token_at_from (Some ch) s j))) in Hnone
      by (intros j; now rewrite token_at_from_cons).
    apply IH. exact Hnone.
Qed.

(** What a search finds is a year text, four characters of the text
    searched. *)
Lemma search_from_year_text (s : list string) (prev : option string) (m : list string) :
  Re.search_from YEAR_PATTERN prev s = Some m ->
  Spec.is_year_text m = true /\ exists i, m = firstn 4 (skipn i s).
Proof.
  revert prev. induction s as [|ch s IH]; intros prev; cbn [Re.search_from];
    rewrite match_at_year.
  - destruct (Spec.token_at_from prev [] 0) eqn:E; [|discriminate].
    discriminate E.
  - destruct (Spec.token_at_from prev (ch :: s) 0) eqn:E.
    + intros [= <-]. unfold Spec.token_at_from in E.
      apply andb_prop in E as [E _]. apply andb_prop in E as [E _].
      split; [exact E|]. now exists 0%nat.
    + intros H. destruct (IH _ H) as [Hy [i ->]]. split; [exact Hy|]. now exists (S i).
Qed.

Lemma token_at_year_text (prev : option string) (s : list string) (i : nat) :
  Spec.token_at_from prev s i = true -> Spec.is_year_text (firstn 4 (skipn i s)) = true.
Proof.
  unfold Spec.token_at_from. intros H.
  apply andb_prop in H as [H _]. now apply andb_prop in H as [H _].
Qed.

Lemma chars_ok_token (seg : string) (i : nat) :
  chars_ok (firstn 4 (skipn i (Py.chars seg))) = true.
Proof. apply chars_ok_firstn, chars_ok_skipn, chars_chars_ok. Qed.

(** ** C1: the year extractor *)

Lemma search_no_token (seg : string) :
  Spec.no_token seg = true -> Re.search YEAR_PATTERN seg = None.
Proof.
  intros H. unfold Re.search. now rewrite (search_from_none (Py.chars seg) None H).
Qed.

Lemma search_first_token (seg : string) (i : nat) :
  Spec.token_at seg i = true -> Spec.none_before seg i = true ->
  Re.search YEAR_PATTERN seg = Some (Spec.token_text seg i).
Proof.
  intros Hi Hn. unfold Re.search.
  now rewrite (search_from_first (Py.chars seg) None i Hi Hn).
Qed.

Lemma int_value_some (s : string) (y : Z) : Py.int s = Some y -> Py.int_value s = y.
Proof. unfold Py.int_value. now intros ->. Qed.

(** What [re.search] finds in a segment reads as an integer from 1900 to
    2099. *)
Lemma search_year_range (seg m : string) :
  Re.search YEAR_PATTERN seg = Some m -> 1900 <= Py.int_value m <= 2099.
Proof.
  unfold Re.search.
  destruct (Re.search_from YEAR_PATTERN None (Py.chars seg)) as [tok|] eqn:E;
    [|discriminate].
  cbn [fmap option_fmap option_map]. intros [= <-].
  destruct (search_from_year_text _ _ _ E) as [Hy [i ->]].
  destruct (year_text_int _ Hy (chars_ok_token seg i)) as (y & Hint & Hrange).
  now rewrite (int_value_some _ _ Hint).
Qed.

Lemma ascii_digit_cases (c : ascii) : Py.ascii_digit c = true -> In c digits.
Proof.
  destruct c as [[] [] [] [] [] [] [] []]; vm_compute; intros H;
    try discriminate H; tauto.
Qed.

(** On four ASCII digits, being a year text is reading as an integer from
    1900 to 2099. *)
Lemma ascii_year_text_check :
  forallb (fun a => forallb (fun b => forallb (fun c => forallb (fun d =>
    Bool.eqb (Spec.is_year_text (Py.chars (four a b c d)))
             match Py.int (four a b c d) with
             | Some y => (1900 <=? y) && (y <=? 2099)
             | None => false
             end)
    digits) digits) digits) digits = true.
Proof. vm_compute. reflexivity. Qed.

Lemma ascii_year_text (a b c d : ascii) :
  forallb Py.ascii_digit [a; b; c; d] = true ->
  Spec.is_year_text (Py.chars (four a b c d))
  = match Py.int (four a b c d) with
    | Some y => (1900 <=? y) && (y <=? 2099)
    | None => false
    end.
Proof.
  intros Hd. cbn [forallb] in Hd. repeat (apply andb_prop in Hd as [? Hd]).
  pose proof ascii_year_text_check as Hall.
  rewrite forallb_forall in Hall.
  specialize (Hall a (ascii_digit_cases a ltac:(assumption))).
  rewrite forallb_forall in Hall.
  specialize (Hall b (ascii_digit_cases b ltac:(assumption))).
  rewrite forallb_forall in Hall.
  specialize (Hall c (ascii_digit_cases c ltac:(assumption))).
  rewrite forallb_forall in Hall.
  specialize (Hall d (ascii_digit_cases d ltac:(assumption))).
  now apply Bool.eqb_prop in Hall.
Qed.

(** C1. For every sequence of path segments, when a segment holds a year
    token (the digits 1 9 or 2 0 and two more decimal digits, with no word
    character next to them) and no earlier segment does, both extractors
    return the leftmost token of that segment read as an integer, which lies
    in 1900..2099, whatever follows; when no segment holds a token they
    return their "no year" value ([None]; the one-segment helper of the
    inventory returns 999999).  Digits, word characters and the reading of a
    numeral are those of the Unicode tables of the interpreter; on four ASCII
    digits, being a year is reading as an integer from 1900 to 2099. *)
Theorem C1_year_extractor_first_match :
  (forall (before : list string) (seg : string) (after : list string) (i : nat),
      forallb Spec.no_token before = true ->
      Spec.token_at seg i = true ->
      Spec.none_before seg i = true ->
      exists y : Z,
        Py.int (Spec.token_text seg i) = Some y /\ 1900 <= y <= 2099 /\
        Index.extract_year_from_path (before ++ seg :: after) = Some y /\
        Inventory.first_year (before ++ seg :: after) = Some y /\
        Inventory.extract_year seg = y)
  /\ (forall parts : list string,
         forallb Spec.no_token parts = true ->
         Index.extract_year_from_path parts = None /\
         Inventory.first_year parts = None /\
         Forall (fun seg => Inventory.extract_year seg = 999999) parts)
  /\ (forall a b c d : ascii,
         forallb Py.ascii_digit [a; b; c; d] = true ->
         Spec.is_year_text (Py.chars (four a b c d))
         = match Py.int (four a b c d) with
           | Some y => (1900 <=? y) && (y <=? 2099)
           | None => false
           end).
Proof.
  split; [|split].
  - intros before seg after i Hbefore Hi Hnone.
    destruct (year_text_int _ (token_at_year_text _ _ _ Hi) (chars_ok_token seg i))
      as (y & Hint & Hrange).
    fold (Spec.token_text seg i) in Hint.
    exists y. split; [exact Hint|]. split; [exact Hrange|].
    pose proof (search_first_token seg i Hi Hnone) as Hs.
    pose proof (int_value_some _ _ Hint) as Hv.
    assert (Hseg : Inventory.extract_year seg = y).
    { unfold Inventory.extract_year. now rewrite Hs. }
    induction before as [|p before IH].
    + cbn [app Index.extract_year_from_path Inventory.first_year].
      rewrite Hs, Hv, Hseg.
      replace (y =? 999999) with false by (symmetry; apply Z.eqb_neq; lia).
      auto.
    + cbn [forallb] in Hbefore. apply andb_prop in Hbefore as [Hp Hbefore].
      specialize (IH Hbefore). destruct IH as (IH1 & IH2 & _).
      cbn [app Index.extract_year_from_path Inventory.first_year].
      unfold Inventory.extract_year at 1.
      rewrite (search_no_token p Hp). cbn [negb Z.eqb Pos.eqb].
      auto.
  - intros parts Hparts.
    induction parts as [|p parts IH]; [repeat split; constructor|].
    cbn [forallb] in Hparts. apply andb_prop in Hparts as [Hp Hparts].
    destruct (IH Hparts) as (IH1 & IH2 & IH3).
    assert (Hseg : Inventory.extract_year p = 999999).
    { unfold Inventory.extract_year. now rewrite (search_no_token p Hp). }
    cbn [Index.extract_year_from_path Inventory.first_year].
    rewrite Hseg, (search_no_token p Hp). cbn [negb Z.eqb Pos.eqb].
    repeat split; try assumption. constructor; assumption.
  - apply ascii_year_text.
Qed.

(** ** Orders *)

Lemma cmp_le_of_not_lt {A} (cmp : A -> A -> comparison) `{!Py.CmpOrder cmp} (x y : A) :
  Py.lt_of cmp y x = false -> Py.le_of cmp x y.
Proof.
  unfold Py.lt_of, Py.le_of. rewrite (Py.cmp_antisym (cmp:=cmp) y x).
  destruct (cmp y x); cbn; congruence.
Qed.

Lemma cmp_le_of_lt {A} (cmp : A -> A -> comparison) `{!Py.CmpOrder cmp} (x y : A) :
  Py.lt_of cmp x y = true -> Py.le_of cmp x y.
Proof. unfold Py.lt_of, Py.le_of. destruct (cmp x y); congruence. Qed.

Lemma cmp_gt_lt {A} (cmp : A -> A -> comparison) `{!Py.CmpOrder cmp} (x y : A) :
  cmp x y = Gt <-> cmp y x = Lt.
Proof. rewrite (Py.cmp_antisym (cmp:=cmp) x y). destruct (cmp x y); cbn; split; congruence. Qed.

Lemma cmp_le_trans {A} (cmp : A -> A -> comparison) `{!Py.CmpOrder cmp} (x y z : A) :
  Py.le_of cmp x y -> Py.le_of cmp y z -> Py.le_of cmp x z.
Proof.
  unfold Py.le_of. intros Hxy Hyz Hxz.
  apply cmp_gt_lt in Hxz; [|assumption].
  destruct (cmp x y) eqn:Exy; [| |congruence].
  - apply Py.cmp_eq in Exy. subst y.
    apply Hyz. apply cmp_gt_lt; assumption.
  - destruct (cmp y z) eqn:Eyz; [| |congruence].
    + apply Py.cmp_eq in Eyz. subst z.
      pose proof (Py.cmp_trans _ _ _ Hxz Exy) as Hc. rewrite (Py.cmp_refl (cmp:=cmp)) in Hc. discriminate.
    + pose proof (Py.cmp_trans _ _ _ Exy Eyz) as Hc.
      pose proof (Py.cmp_trans _ _ _ Hc Hxz) as Hc'. rewrite (Py.cmp_refl (cmp:=cmp)) in Hc'. discriminate.
Qed.

Lemma cmp_le_antisym {A} (cmp : A -> A -> comparison) `{!Py.CmpOrder cmp} (x y : A) :
  Py.le_of cmp x y -> Py.le_of cmp y x -> x = y.
Proof.
  unfold Py.le_of. intros Hxy Hyx.
  destruct (cmp x y) eqn:E; [now apply Py.cmp_eq| |congruence].
  exfalso. apply Hyx. apply cmp_gt_lt; assumption.
Qed.

Global Instance Z_cmp_order : Py.CmpOrder Z.compare.
Proof.
  split.
  - apply Z.compare_eq.
  - apply Z.compare_refl.
  - intros x y. apply Z.compare_antisym.
  - intros x y z. rewrite !Z.compare_lt_iff. lia.
Qed.

Lemma ascii_compare_trans (a b c : ascii) :
  Ascii.compare a b = Lt -> Ascii.compare b c = Lt -> Ascii.compare a c = Lt.
Proof. unfold Ascii.compare. rewrite !N.compare_lt_iff. lia. Qed.

Lemma ascii_compare_refl (a : ascii) : Ascii.compare a a = Eq.
Proof. unfold Ascii.compare. apply N.compare_refl. Qed.

Global Instance str_cmp_order : Py.CmpOrder Py.str_cmp.
Proof.
  unfold Py.str_cmp. split.
  - apply String.compare_eq_iff.
  - induction x as [|a x IH]; [reflexivity|].
    cbn [String.compare]. now rewrite ascii_compare_refl.
  - intros x y. apply String.compare_antisym.
  - induction x as [|a x IH]; intros [|b y] [|c z]; cbn [String.compare];
      try congruence.
    destruct (Ascii.compare a b) eqn:Eab; try congruence;
      destruct (Ascii.compare b c) eqn:Ebc; try congruence.
    + apply Ascii.compare_eq_iff in Eab, Ebc. subst.
      rewrite ascii_compare_refl. apply IH.
    + apply Ascii.compare_eq_iff in Eab. subst. now rewrite Ebc.
    + apply Ascii.compare_eq_iff in Ebc. subst. now rewrite Eab.
    + now rewrite (ascii_compare_trans _ _ _ Eab Ebc).
Qed.

Global Instance seq_cmp_order {A} (cmp : A -> A -> comparison) `{!Py.CmpOrder cmp} :
  Py.CmpOrder (Py.seq_cmp cmp).
Proof.
  split.
  - induction x as [|a x IH]; intros [|b y]; cbn [Py.seq_cmp]; try congruence.
    destruct (cmp a b) eqn:E; try congruence.
    apply Py.cmp_eq in E. subst. intros Heq. f_equal. now apply IH.
  - induction x as [|a x IH]; [reflexivity|].
    cbn [Py.seq_cmp]. now rewrite (Py.cmp_refl (cmp:=cmp)).
  - induction x as [|a x IH]; intros [|b y]; cbn [Py.seq_cmp]; try reflexivity.
    rewrite (Py.cmp_antisym (cmp:=cmp) a b). destruct (cmp a b); cbn; auto.
  - induction x as [|a x IH]; intros [|b y] [|c z]; cbn [Py.seq_cmp];
      try congruence.
    destruct (cmp a b) eqn:Eab; try congruence;
      destruct (cmp b c) eqn:Ebc; try congruence.
    + apply Py.cmp_eq in Eab, Ebc. subst. rewrite (Py.cmp_refl (cmp:=cmp)). apply IH.
    + apply Py.cmp_eq in Eab. subst. now rewrite Ebc.
    + apply Py.cmp_eq in Ebc. subst. now rewrite Eab.
    + now rewrite (Py.cmp_trans _ _ _ Eab Ebc).
Qed.

Global Instance path_cmp_order : Py.CmpOrder Fs.path_cmp.
Proof. unfold Fs.path_cmp. apply _. Qed.

(** ** [sorted] *)
Section SortedFacts.
Context {A K : Type} (cmp : K -> K -> comparison) `{!Py.CmpOrder cmp} (key : A -> K).


Lemma insert_sorted_Permutation (x : A) (l : list A) :
  Py.insert_sorted cmp key x l ≡ₚ x :: l.
Proof.
  induction l as [|y l IH]; cbn [Py.insert_sorted]; [reflexivity|].
  destruct (Py.lt_of cmp (key y) (key x)); [|reflexivity].
  rewrite IH. apply perm_swap.
Qed.

Lemma sorted_Permutation (l : list A) : Py.sorted cmp key l ≡ₚ l.
Proof.
  induction l as [|x l IH]; cbn [Py.sorted]; [reflexivity|].
  now rewrite insert_sorted_Permutation, IH.
Qed.

Lemma sorted_length (l : list A) : length (Py.sorted cmp key l) = length l.
Proof. now rewrite sorted_Permutation. Qed.

Lemma sorted_nil_inv (l : list A) : Py.sorted cmp key l = [] -> l = [].
Proof.
  intros E. apply Permutation_nil_r. rewrite <- E. symmetry. apply sorted_Permutation.
Qed.

Lemma insert_sorted_StronglySorted (x : A) (l : list A) :
  StronglySorted (key_le cmp key) l ->
  StronglySorted (key_le cmp key) (Py.insert_sorted cmp key x l).
Proof.
  induction 1 as [|y l Hl IH Hy]; cbn [Py.insert_sorted].
  - repeat constructor.
  - destruct (Py.lt_of cmp (key y) (key x)) eqn:E.
    + constructor; [exact IH|].
      rewrite insert_sorted_Permutation. constructor; [|exact Hy].
      exact (cmp_le_of_lt cmp _ _ E).
    + assert (Hxy : key_le cmp key x y) by exact (cmp_le_of_not_lt cmp _ _ E).
      constructor; [constructor; assumption|].
      constructor; [exact Hxy|].
      eapply Forall_impl; [exact Hy|].
      intros z Hyz. exact (cmp_le_trans cmp _ _ _ Hxy Hyz).
Qed.

Lemma sorted_StronglySorted (l : list A) : StronglySorted (key_le cmp key) (Py.sorted cmp key l).
Proof.
  induction l as [|x l IH]; cbn [Py.sorted]; [constructor|].
  now apply insert_sorted_StronglySorted.
Qed.

(** With pairwise distinct keys the result is strictly increasing. *)
Lemma StronglySorted_strict (l : list A) :
  StronglySorted (key_le cmp key) l -> NoDup (key <$> l) -> StronglySorted (key_lt cmp key) l.
Proof.
  induction 1 as [|x l Hl IH Hx]; intros Hnd; [constructor|].
  rewrite fmap_cons in Hnd. apply NoDup_cons in Hnd as [Hnotin Hnd].
  constructor; [now apply IH|].
  rewrite Forall_forall in Hx |- *. intros y Hy.
  specialize (Hx y Hy). unfold key_le, Py.le_of, key_lt in *.
  destruct (cmp (key x) (key y)) eqn:E; [|reflexivity|congruence].
  apply Py.cmp_eq in E. exfalso. apply Hnotin. rewrite E.
  apply list_elem_of_fmap. exists y. split; [reflexivity|exact Hy].
Qed.

Lemma sorted_strict (l : list A) :
  NoDup (key <$> l) -> StronglySorted (key_lt cmp key) (Py.sorted cmp key l).
Proof.
  intros Hnd. apply StronglySorted_strict; [apply sorted_StronglySorted|].
  now rewrite sorted_Permutation.
Qed.

(** When equal keys mean equal items, the result depends on the items only,
    not on the order they come in. *)
Lemma sorted_order_irrelevant (l1 l2 : list A) :
  (forall a b, a ∈ l1 -> b ∈ l1 -> key a = key b -> a = b) ->
  l1 ≡ₚ l2 -> Py.sorted cmp key l1 = Py.sorted cmp key l2.
Proof.
  intros Hinj Hperm.
  apply (StronglySorted_unique_strong (key_le cmp key)).
  - intros a b Ha Hb Hab Hba.
    rewrite sorted_Permutation in Ha. rewrite sorted_Permutation, <- Hperm in Hb.
    apply Hinj; [assumption..|]. exact (cmp_le_antisym cmp _ _ Hab Hba).
  - apply sorted_StronglySorted.
  - apply sorted_StronglySorted.
  - now rewrite !sorted_Permutation.
Qed.

End SortedFacts.

(** ** Two-level grouping *)
Section Grouping.
Context {K1 K2 : Type} `{Countable K1} `{Countable K2} {V : Type}.
Context (k1 : V -> K1) (k2 : V -> K2).

Lemma bucket_add_to (m : gmap K1 (gmap K2 (list V))) (a : K1) (b : K2) (v : V)
    (a' : K1) (b' : K2) :
  bucket (add_to m a b v) a' b' =
    if bool_decide (a = a') && bool_decide (b = b') then bucket m a' b' ++ [v]
    else bucket m a' b'.
Proof.
  unfold bucket, add_to.
  destruct (decide (a = a')) as [->|Ha].
  - rewrite bool_decide_eq_true_2 by reflexivity. rewrite lookup_insert_eq. cbn [mbind option_bind].
    destruct (decide (b = b')) as [->|Hb].
    + rewrite bool_decide_eq_true_2 by reflexivity. rewrite lookup_insert_eq. cbn.
      destruct (m !! a'); reflexivity.
    + rewrite bool_decide_eq_false_2 by assumption. rewrite lookup_insert_ne by assumption.
      cbn. destruct (m !! a'); [reflexivity|]. cbn. now rewrite lookup_empty.
  - rewrite bool_decide_eq_false_2 by assumption. now rewrite lookup_insert_ne by assumption.
Qed.

Lemma bucket_foldl (l : list V) (m : gmap K1 (gmap K2 (list V))) (a : K1) (b : K2) :
  bucket (foldl (fun m v => add_to m (k1 v) (k2 v) v) m l) a b =
    bucket m a b ++ List.filter (has_key k1 k2 a b) l.
Proof.
  revert m. induction l as [|v l IH]; intros m; cbn [foldl List.filter].
  - now rewrite app_nil_r.
  - rewrite IH, bucket_add_to. unfold has_key.
    destruct (bool_decide (k1 v = a) && bool_decide (k2 v = b)); [|reflexivity].
    now rewrite <- app_assoc.
Qed.

(** Each bucket holds the items with its keys, in the order they came. *)
Lemma bucket_group_by (l : list V) (a : K1) (b : K2) :
  bucket (group_by k1 k2 l) a b = List.filter (has_key k1 k2 a b) l.
Proof. unfold group_by. rewrite bucket_foldl. unfold bucket. now rewrite lookup_empty. Qed.

Lemma inner_items_insert (inner : gmap K2 (list V)) (b : K2) (v : V) :
  map_to_list (<[b := default [] (inner !! b) ++ [v]]> inner) ≫= snd
    ≡ₚ v :: (map_to_list inner ≫= snd).
Proof.
  destruct (inner !! b) as [vs|] eqn:E; cbn [default].
  - rewrite <- (insert_delete_eq inner b (vs ++ [v])) at 1.
    rewrite map_to_list_insert by apply lookup_delete_eq.
    rewrite <- (map_to_list_delete inner b vs E).
    cbn [mbind list_bind snd]. rewrite <- app_assoc. cbn [app].
    symmetry. apply Permutation_middle.
  - rewrite map_to_list_insert by assumption. reflexivity.
Qed.

Lemma all_items_add_to (m : gmap K1 (gmap K2 (list V))) (a : K1) (b : K2) (v : V) :
  all_items (add_to m a b v) ≡ₚ v :: all_items m.
Proof.
  unfold all_items, add_to.
  destruct (m !! a) as [inner|] eqn:E; cbn [default].
  - rewrite <- (insert_delete_eq m a) at 1.
    rewrite map_to_list_insert by apply lookup_delete_eq.
    rewrite <- (map_to_list_delete m a inner E).
    cbn [mbind list_bind]. change (id inner) with inner.
    rewrite inner_items_insert. reflexivity.
  - rewrite map_to_list_insert by assumption.
    cbn [mbind list_bind].
    rewrite insert_empty, map_to_list_singleton. reflexivity.
Qed.

(** The buckets hold the input, each item once. *)
Lemma all_items_group_by (l : list V) : all_items (group_by k1 k2 l) ≡ₚ l.
Proof.
  unfold group_by.
  assert (Hgen : forall m, all_items (foldl (fun m v => add_to m (k1 v) (k2 v) v) m l)
                             ≡ₚ all_items m ++ l).
  { induction l as [|v l IH]; intros m; cbn [foldl].
    - now rewrite app_nil_r.
    - rewrite IH, all_items_add_to. now rewrite <- Permutation_middle. }
  rewrite Hgen. unfold all_items. now rewrite map_to_list_empty.
Qed.

End Grouping.

(** ** C2: grouping is a partition *)

(** The loop of [group_files] groups the files it keeps by top-level
    directory and year. *)
Lemma group_files_enumerated (tree : list Fs.Entry) (extensions : option (gset string)) :
  Inventory.group_files tree extensions =
    group_by Spec.top_level Inventory.first_year (Spec.enumerated extensions tree).
Proof.
  unfold Inventory.group_files, group_by, Spec.enumerated.
  assert (Hgen : forall m : Inventory.Structure,
    foldl (Inventory.visit extensions) m tree =
    foldl (fun m v => add_to m (Spec.top_level v) (Inventory.first_year v) v) m
          (Fs.rel <$> List.filter (Spec.kept extensions) tree)).
  { induction tree as [|e tree IH]; intros m; [reflexivity|].
    cbn [foldl List.filter]. rewrite IH. clear IH.
    unfold Inventory.visit, Spec.kept.
    destruct (Fs.is_file e); cbn [negb andb]; [|reflexivity].
    destruct (Inventory.filtered_out extensions (Fs.rel e)); cbn [negb andb]; [reflexivity|].
    destruct (Fs.rel e) as [|top_level rest] eqn:E; [reflexivity|].
    cbn [fmap list_fmap foldl]. rewrite E. reflexivity. }
  apply Hgen.
Qed.

Lemma group_entries_group_by (pdf_entries : list Index.PdfEntry) :
  Index.group_entries pdf_entries =
    group_by Index.top_dir_of Index.year_key_of pdf_entries.
Proof. reflexivity. Qed.

Lemma has_key_true {K1 K2 V : Type} `{Countable K1} `{Countable K2}
    (k1 : V -> K1) (k2 : V -> K2) (a : K1) (b : K2) (v : V) :
  has_key k1 k2 a b v = true <-> k1 v = a /\ k2 v = b.
Proof.
  unfold has_key. rewrite andb_true_iff, !bool_decide_eq_true. reflexivity.
Qed.

(** C2. The grouper's output is a partition of its input.  For the
    inventory (the files kept from the walk) and for the index (the entries
    given to [generate_html]): the lists of all buckets together are the
    input, each descriptor as often as it was given; the bucket under
    (top-level directory, year key) holds exactly the descriptors with these
    two keys, in input order; so a descriptor is found in the bucket of its
    own keys and in no other. *)
Theorem C2_grouping_is_partition :
  (forall (tree : list Fs.Entry) (extensions : option (gset string)),
      let files := Spec.enumerated extensions tree in
      let structure := Inventory.group_files tree extensions in
      all_items structure ≡ₚ files
      /\ (forall d y, bucket structure d y =
                        List.filter (has_key Spec.top_level Inventory.first_year d y) files)
      /\ (forall f d y, f ∈ bucket structure d y <->
                          f ∈ files /\ Spec.top_level f = d /\ Inventory.first_year f = y))
  /\ (forall pdf_entries : list Index.PdfEntry,
         let grouped := Index.group_entries pdf_entries in
         all_items grouped ≡ₚ pdf_entries
         /\ (forall d y, bucket grouped d y =
                           List.filter (has_key Index.top_dir_of Index.year_key_of d y)
                                       pdf_entries)
         /\ (forall f d y, f ∈ bucket grouped d y <->
                             f ∈ pdf_entries /\ Index.top_dir_of f = d
                             /\ Index.year_key_of f = y)).
Proof.
  split.
  - intros tree extensions files structure. subst files structure.
    rewrite group_files_enumerated.
    split; [apply all_items_group_by|].
    split; [intros d y; apply bucket_group_by|].
    intros f d y. rewrite bucket_group_by.
    rewrite list_elem_of_In, filter_In, has_key_true, <- list_elem_of_In. reflexivity.
  - intros pdf_entries grouped. subst grouped.
    rewrite group_entries_group_by.
    split; [apply all_items_group_by|].
    split; [intros d y; apply bucket_group_by|].
    intros f d y. rewrite bucket_group_by.
    rewrite list_elem_of_In, filter_In, has_key_true, <- list_elem_of_In. reflexivity.
Qed.

(** ** [replace] with a one-character pattern *)

Lemma prefix_one_char (c0 c : ascii) (s : string) :
  String.prefix (String c0 EmptyString) (String c s) = Ascii.eqb c c0.
Proof.
  cbn [String.prefix]. destruct (ascii_dec c0 c) as [->|Hne].
  - rewrite Ascii.eqb_refl. now destruct s.
  - symmetry. apply Ascii.eqb_neq. congruence.
Qed.

Lemma replace_one_char (s : string) (c0 : ascii) (new : string) :
  Py.replace s (String c0 EmptyString) new = Spec.substitute c0 new s.
Proof.
  unfold Py.replace.
  induction s as [|c s IH]; [reflexivity|].
  cbn [Py.replace_from Spec.substitute String.length Nat.pred].
  rewrite prefix_one_char. destruct (Ascii.eqb c c0); now rewrite IH.
Qed.

(** ** C6: the escape of the Markdown table cell *)

Lemma escape_pipes_head (s : string) :
  String.prefix "|" (escape_pipes s) = false.
Proof.
  destruct s as [|c s]; [reflexivity|].
  unfold escape_pipes. cbn [Spec.substitute].
  destruct (Ascii.eqb_spec c "|") as [->|Hne]; [reflexivity|].
  cbn [String.prefix]. destruct (ascii_dec "|" c); [congruence|reflexivity].
Qed.

Lemma prefix_two (a b : ascii) (x : string) :
  String.prefix (String a (String b EmptyString)) (String a (String b x)) = true.
Proof.
  cbn [String.prefix].
  destruct (ascii_dec a a); [|congruence]. destruct (ascii_dec b b); [|congruence].
  now destruct x.
Qed.

Lemma unescape_escape (s : string) : Spec.unescape_pipes (escape_pipes s) = s.
Proof.
  unfold Spec.unescape_pipes, Py.replace.
  induction s as [|c s IH]; [reflexivity|].
  unfold escape_pipes in *. cbn [Spec.substitute].
  destruct (Ascii.eqb_spec c "|") as [->|Hne].
  - rewrite !append_cons, append_empty_l.
    cbn [Py.replace_from]. rewrite prefix_two.
    cbn [String.length Nat.pred]. rewrite append_cons, append_empty_l. now rewrite IH.
  - cbn [Py.replace_from].
    assert (Hp : String.prefix "\|" (String c (Spec.substitute "|" "\|" s)) = false).
    { cbn [String.prefix]. destruct (ascii_dec "\" c); [|reflexivity].
      pose proof (escape_pipes_head s) as Hh. unfold escape_pipes in Hh.
      destruct (Spec.substitute "|" "\|" s) as [|c' s']; [reflexivity|].
      cbn [String.prefix] in Hh |- *.
      destruct (ascii_dec "|" c'); [destruct s'; discriminate Hh|reflexivity]. }
    rewrite Hp. now rewrite IH.
Qed.

Lemma escape_pipes_escaped (s : string) (after_backslash : bool) :
  Spec.pipes_escaped after_backslash (escape_pipes s) = true.
Proof.
  revert after_backslash. unfold escape_pipes.
  induction s as [|c s IH]; intros after_backslash; [reflexivity|].
  cbn [Spec.substitute].
  destruct (Ascii.eqb_spec c "|") as [->|Hne].
  - rewrite !append_cons, append_empty_l. cbn [Spec.pipes_escaped].
    change (Ascii.eqb "\" "|") with false. change (Ascii.eqb "|" "|") with true.
    change (Ascii.eqb "\" "\") with true. cbn [andb]. apply IH.
  - cbn [Spec.pipes_escaped].
    destruct (Ascii.eqb_spec c "|"); [congruence|]. apply IH.
Qed.

Lemma escape_pipes_count (s : string) :
  Spec.count_char "|" (escape_pipes s) = Spec.count_char "|" s.
Proof.
  unfold escape_pipes. induction s as [|c s IH]; [reflexivity|].
  cbn [Spec.substitute Spec.count_char].
  destruct (Ascii.eqb_spec c "|") as [->|Hne].
  - rewrite !append_cons, append_empty_l. cbn [Spec.count_char].
    change (Ascii.eqb "\" "|") with false. change (Ascii.eqb "|" "|") with true.
    now rewrite IH.
  - cbn [Spec.count_char]. destruct (Ascii.eqb_spec c "|"); [congruence|]. now rewrite IH.
Qed.

(** C6. In the Markdown renderer the name cell of a row is the file name
    with a backslash put in front of every vertical bar: every bar of the
    cell is escaped, the cell has as many bars as the name, dropping the
    backslashes in front of bars gives the name back, and so two different
    names never give the same cell. *)
Theorem C6_markdown_escape_roundtrip :
  forall fp : Fs.Path,
    Inventory.table_row fp =
      "| " +:+ Inventory.cell_name fp +:+ " | " +:+ Inventory.github_link fp +:+ " |"
    /\ Inventory.cell_name fp = Spec.substitute "|" "\|" (Fs.name fp)
    /\ Spec.pipes_escaped false (Inventory.cell_name fp) = true
    /\ Spec.count_char "|" (Inventory.cell_name fp) = Spec.count_char "|" (Fs.name fp)
    /\ Spec.unescape_pipes (Inventory.cell_name fp) = Fs.name fp
    /\ (forall fp' : Fs.Path,
          Inventory.cell_name fp = Inventory.cell_name fp' -> Fs.name fp = Fs.name fp').
Proof.
  intros fp.
  assert (Hc : forall p, Inventory.cell_name p = escape_pipes (Fs.name p)).
  { intros p. unfold Inventory.cell_name. apply replace_one_char. }
  split; [reflexivity|]. split; [apply Hc|].
  rewrite Hc.
  split; [apply escape_pipes_escaped|].
  split; [apply escape_pipes_count|].
  split; [apply unescape_escape|].
  intros fp' Heq. rewrite Hc in Heq.
  rewrite <- (unescape_escape (Fs.name fp)), <- (unescape_escape (Fs.name fp')).
  now rewrite Heq.
Qed.

(** ** C10: the link text of the HTML index *)

Lemma count_char_append (c0 : ascii) (a b : string) :
  Spec.count_char c0 (a +:+ b) = (Spec.count_char c0 a + Spec.count_char c0 b)%nat.
Proof.
  induction a as [|c a IH]; [reflexivity|].
  rewrite append_cons. cbn [Spec.count_char]. rewrite IH. lia.
Qed.

Lemma substitute_no_char (c0 : ascii) (new s : string) :
  Spec.count_char c0 new = 0%nat -> Spec.count_char c0 (Spec.substitute c0 new s) = 0%nat.
Proof.
  intros Hnew. induction s as [|c s IH]; [reflexivity|].
  cbn [Spec.substitute]. destruct (Ascii.eqb c c0) eqn:E.
  - rewrite count_char_append. lia.
  - cbn [Spec.count_char]. now rewrite E.
Qed.

(** C10. In the HTML renderer the link text of a file is its name with every
    vertical bar replaced by the words [Vertical Bar]; no bar is left in it;
    the replacement cannot be undone, since a file named [|] and a file
    named [Vertical Bar] get the same link text; the path cell next to the
    link holds the path as it is. *)
Theorem C10_html_vertical_bar :
  (forall f : Index.PdfEntry,
      Index.safe_name f = Spec.substitute "|" "Vertical Bar" (Index.name f)
      /\ Spec.count_char "|" (Index.safe_name f) = 0%nat
      /\ Index.row_piece f =
           "          <tr><td><a href=" +:+ dquote +:+ Py.quote (Index.hf_url f) ":/" +:+ dquote
             +:+ " target=" +:+ dquote +:+ "_blank" +:+ dquote +:+ ">" +:+ Index.safe_name f
             +:+ "</a></td><td><code>" +:+ Index.path f +:+ "</code></td></tr>" +:+ newline)
  /\ (forall (p p' : string) (y y' : option Z),
         Index.safe_name (Index.mkPdf p "|" y) = "Vertical Bar"
         /\ Index.safe_name (Index.mkPdf p' "Vertical Bar" y') = "Vertical Bar")
  /\ Index.row_piece (Index.mkPdf "a/x|y.pdf" "x|y.pdf" None) =
       "          <tr><td><a href=" +:+ dquote
         +:+ "https://huggingface.co/datasets/yukioitsuki/snowden_archived/resolve/main/a/x%7Cy.pdf"
         +:+ dquote +:+ " target=" +:+ dquote +:+ "_blank" +:+ dquote
         +:+ ">xVertical Bary.pdf</a></td><td><code>a/x|y.pdf</code></td></tr>" +:+ newline.
Proof.
  split; [|split; [intros; split; reflexivity|reflexivity]].
  intros f.
  assert (Hs : Index.safe_name f = Spec.substitute "|" "Vertical Bar" (Index.name f)).
  { unfold Index.safe_name. apply replace_one_char. }
  split; [exact Hs|]. split; [|reflexivity].
  rewrite Hs. apply substitute_no_char. reflexivity.
Qed.

(** ** The effects of the index generator *)

Lemma printing_printing (o : Index.Out) (l1 l2 : list string) :
  Spec.printing (Spec.printing o l1) l2 = Spec.printing o (l1 ++ l2).
Proof. unfold Spec.printing. cbn. now rewrite <- app_assoc. Qed.

Lemma print_printing (line : string) (o : Index.Out) :
  Index.print line o = (Index.Return tt, Spec.printing o [line]).
Proof. reflexivity. Qed.

Lemma get_pdf_files_from_hf_run (env : Index.Env) (o : Index.Out) :
  Index.get_pdf_files_from_hf env o =
    (Index.Return (Spec.remote_pdfs env),
     Spec.printing o [Spec.fetching_line; Spec.remote_report env]).
Proof.
  unfold Index.get_pdf_files_from_hf, Spec.remote_report, Spec.remote_pdfs, Index.bind.
  rewrite print_printing.
  destruct (Index.hf_listing env) as [e|files];
    rewrite print_printing, printing_printing; reflexivity.
Qed.

Lemma scan_local_pdfs_run (env : Index.Env) (o : Index.Out) :
  Index.scan_local_pdfs env o =
    (Index.Return (Spec.local_entries env), Spec.printing o (Spec.local_lines env)).
Proof.
  unfold Index.scan_local_pdfs, Spec.local_lines, Spec.local_entries, Spec.local_scan,
    Index.bind.
  rewrite print_printing.
  destruct (foldl Index.scan_step ([], 0%nat) (Index.rglob_pdf (Index.local_tree env)))
    as [pdf_files excluded].
  rewrite print_printing, printing_printing. reflexivity.
Qed.

Lemma remote_failed_no_pdfs (env : Index.Env) :
  Spec.remote_failed env = true -> Spec.remote_pdfs env = [].
Proof.
  unfold Spec.remote_failed, Spec.remote_pdfs.
  destruct (Index.hf_listing env) as [e|files]; [reflexivity|].
  induction files as [|f files IH]; [reflexivity|].
  cbn [forallb List.filter]. intros H. apply andb_prop in H as [Hf H].
  apply negb_true_iff in Hf. rewrite Hf. now apply IH.
Qed.

(** The rest of [main], once the entries are known. *)
Lemma main_local (env : Index.Env) (fb : bool) (o : Index.Out) :
  Index.main (Index.mkArgs false fb) env o =
    match Spec.local_entries env with
    | [] =>
        (Index.SysExit 1,
         Spec.printing o (Spec.local_lines env ++ ["No PDF files found."]))
    | _ :: _ =>
        Index.generate_html env (Spec.local_entries env) (length (Spec.local_entries env))
          (Spec.printing o (Spec.local_lines env))
    end.
Proof.
  unfold Index.main, Index.bind. cbn [Index.hf].
  rewrite scan_local_pdfs_run.
  destruct (Spec.local_entries env); [|reflexivity].
  rewrite print_printing, printing_printing. reflexivity.
Qed.

Lemma generate_html_template (env : Index.Env) (pdf_entries : list Index.PdfEntry)
    (total_files : nat) (o : Index.Out) (t : string) :
  Index.template env = Some t ->
  exists lines,
    Index.generate_html env pdf_entries total_files o =
      (Index.Return tt,
       Index.mkOut (Index.stdout o ++ lines)
         (Some (Index.fill t total_files (Index.content_of pdf_entries)))).
Proof.
  unfold Index.generate_html. intros ->.
  eexists. unfold Index.bind, Index.write_index, Index.print. cbn.
  rewrite <- !app_assoc. reflexivity.
Qed.

(** What the loop of [scan_local_pdfs] computes. *)
Lemma scan_fold (matches : list Fs.Entry) (acc : list Index.PdfEntry) (k : nat) :
  foldl Index.scan_step (acc, k) matches =
    (acc ++ ((fun e => Spec.local_entry (Fs.rel e))
               <$> List.filter (fun e => negb (Spec.in_dot_files e) && Fs.is_file e) matches),
     (k + length (List.filter Spec.in_dot_files matches))%nat).
Proof.
  revert acc k. induction matches as [|e matches IH]; intros acc k.
  - cbn. now rewrite app_nil_r, Nat.add_0_r.
  - cbn [foldl List.filter]. unfold Index.scan_step at 2.
    change (bool_decide (".files" ∈ Fs.rel e)) with (Spec.in_dot_files e).
    destruct (Spec.in_dot_files e); cbn [fst snd negb andb].
    + rewrite IH. cbn [length]. f_equal. lia.
    + destruct (Fs.is_file e); cbn [negb fst snd].
      * rewrite IH. cbn [fmap list_fmap]. rewrite <- app_assoc. reflexivity.
      * apply IH.
Qed.

Lemma local_scan_found (env : Index.Env) :
  Spec.local_scan env =
    ((fun e => Spec.local_entry (Fs.rel e))
       <$> List.filter (fun e => negb (Spec.in_dot_files e) && Fs.is_file e)
             (Index.rglob_pdf (Index.local_tree env)),
     length (List.filter Spec.in_dot_files (Index.rglob_pdf (Index.local_tree env)))).
Proof. unfold Spec.local_scan. now rewrite scan_fold. Qed.

(** [main] with [--hf] and [--fallback-local], when the listing gave
    nothing: the local scan is run and its entries are used. *)
Lemma main_fallback (env : Index.Env) (before : Index.Out) :
  Spec.remote_pdfs env = [] ->
  Index.main (Index.mkArgs true true) env before =
    match Index.scan_local_pdfs env
            (Spec.printing before
               [Spec.fetching_line; Spec.remote_report env;
                "Falling back to local files..."]) with
    | (Index.Return [], scanned) =>
        (Index.SysExit 1, Spec.printing scanned ["No PDF files found."])
    | (Index.Return (e :: es), scanned) =>
        Index.generate_html env (e :: es) (length (e :: es)) scanned
    | (Index.SysExit code, scanned) => (Index.SysExit code, scanned)
    end.
Proof.
  intros Hnone. unfold Index.main. cbn [Index.hf Index.fallback_local].
  unfold Index.bind at 1. unfold Index.bind at 1.
  rewrite get_pdf_files_from_hf_run, Hnone.
  unfold Index.bind at 1. rewrite print_printing, printing_printing.
  destruct (Index.scan_local_pdfs env _) as [[[|e es]|code] scanned];
    [|reflexivity|reflexivity].
  unfold Index.bind. now rewrite print_printing.
Qed.

(** C4. With [--hf], when the remote listing call raised or gave no PDF
    name: without [--fallback-local] the process prints what happened and
    exits with status 1, leaving [index_local.html] as it was; with
    [--fallback-local] it goes on exactly as a run without [--hf] would from
    there.  That is: [scan_local_pdfs] is run after the three lines printed
    so far and returns one entry for each regular file of the walk that
    matches [*.pdf] outside the [.files] folders; with no such file the
    process exits with status 1 and leaves the index file as it was;
    otherwise [generate_html] is called on these entries, and with a
    template the process ends with status 0 and the index file holds the
    template filled with their number and their rows. *)
Theorem C4_remote_failure_and_fallback :
  forall (env : Index.Env) (before : Index.Out),
    Spec.remote_failed env = true ->
    Index.run (Index.mkArgs true false) env before =
      (1, Spec.printing before
            [Spec.fetching_line; Spec.remote_report env;
             "No files found and no fallback enabled."])
    /\ Index.index_local_html (snd (Index.run (Index.mkArgs true false) env before)) =
         Index.index_local_html before
    /\ (forall fb : bool,
          Index.run (Index.mkArgs true true) env before =
            Index.run (Index.mkArgs false fb) env
              (Spec.printing before
                 [Spec.fetching_line; Spec.remote_report env;
                  "Falling back to local files..."]))
    /\ (let fallen :=
          Spec.printing before
            [Spec.fetching_line; Spec.remote_report env;
             "Falling back to local files..."] in
        let matches := Index.rglob_pdf (Index.local_tree env) in
        let entries :=
          (fun e => Spec.local_entry (Fs.rel e))
            <$> List.filter (fun e => negb (Spec.in_dot_files e) && Fs.is_file e) matches in
        let excluded := length (List.filter Spec.in_dot_files matches) in
        let scanned :=
          Spec.printing fallen
            ["Scanning local directory for PDF files (excluding .files folders)...";
             "Found " +:+ Py.str (Z.of_nat (length entries)) +:+ " local PDF files ("
               +:+ Py.str (Z.of_nat excluded) +:+ " excluded)"] in
        let fallback := Index.mkArgs true true in
        Index.scan_local_pdfs env fallen = (Index.Return entries, scanned)
        /\ Index.main fallback env before =
             match entries with
             | [] => (Index.SysExit 1, Spec.printing scanned ["No PDF files found."])
             | _ :: _ => Index.generate_html env entries (length entries) scanned
             end
        /\ (entries = [] ->
            Index.run fallback env before
              = (1, Spec.printing scanned ["No PDF files found."]))
        /\ (forall t : string,
              entries <> [] -> Index.template env = Some t ->
              fst (Index.run fallback env before) = 0
              /\ Index.index_local_html (snd (Index.run fallback env before)) =
                   Some (Index.fill t (length entries) (Index.content_of entries)))).
Proof.
  intros env before Hfail.
  pose proof (remote_failed_no_pdfs env Hfail) as Hnone.
  assert (Hno : Index.run (Index.mkArgs true false) env before =
            (1, Spec.printing before
                  [Spec.fetching_line; Spec.remote_report env;
                   "No files found and no fallback enabled."])).
  { unfold Index.run, Index.main, Index.bind. cbn [Index.hf Index.fallback_local].
    rewrite get_pdf_files_from_hf_run, Hnone.
    rewrite print_printing, printing_printing. reflexivity. }
  split; [exact Hno|]. split; [now rewrite Hno|]. split.
  - intros fb. unfold Index.run. rewrite main_local.
    unfold Index.main, Index.bind. cbn [Index.hf Index.fallback_local].
    rewrite get_pdf_files_from_hf_run, Hnone.
    rewrite print_printing, printing_printing.
    rewrite scan_local_pdfs_run.
    destruct (Spec.local_entries env);
      rewrite ?print_printing, ?printing_printing; reflexivity.
  - intros fallen matches entries excluded scanned fallback.
    assert (Hscan : Index.scan_local_pdfs env fallen = (Index.Return entries, scanned)).
    { rewrite scan_local_pdfs_run.
      unfold Spec.local_lines, Spec.local_entries, Index.str_len.
      rewrite local_scan_found. reflexivity. }
    assert (Hmain : Index.main fallback env before =
              match entries with
              | [] => (Index.SysExit 1, Spec.printing scanned ["No PDF files found."])
              | _ :: _ => Index.generate_html env entries (length entries) scanned
              end).
    { unfold fallback. rewrite (main_fallback env before Hnone).
      fold fallen. rewrite Hscan. destruct entries; reflexivity. }
    split; [exact Hscan|]. split; [exact Hmain|]. split.
    + intros Hempty. unfold Index.run. rewrite Hmain, Hempty. reflexivity.
    + intros t Hsome Ht. unfold Index.run. rewrite Hmain.
      destruct entries as [|e es] eqn:E; [congruence|].
      destruct (generate_html_template env (e :: es) (length (e :: es)) scanned t Ht)
        as (lines & ->).
      split; reflexivity.
Qed.

(** ** C5: the template *)

Lemma generate_html_no_template (env : Index.Env) (pdf_entries : list Index.PdfEntry)
    (total_files : nat) (o : Index.Out) :
  Index.template env = None ->
  Index.generate_html env pdf_entries total_files o =
    (Index.SysExit 1, Spec.printing o ["Error: templates.html not found!"]).
Proof. unfold Index.generate_html. intros ->. reflexivity. Qed.

(** Every run either leaves [index_local.html] alone or writes the filled
    template. *)
Lemma run_writes_filled_template (args : Index.Args) (env : Index.Env) (before : Index.Out) :
  Index.index_local_html (snd (Index.run args env before)) = Index.index_local_html before
  \/ exists t pdf_entries,
       Index.template env = Some t /\ pdf_entries <> []
       /\ fst (Index.run args env before) = 0
       /\ Index.index_local_html (snd (Index.run args env before)) =
            Some (Index.fill t (length pdf_entries) (Index.content_of pdf_entries)).
Proof.
  assert (Hgen : forall (entries : list Index.PdfEntry) (o : Index.Out),
    entries <> [] ->
    Index.index_local_html o = Index.index_local_html before ->
    let r := Index.generate_html env entries (length entries) o in
    let out := match r with (Index.Return _, after) => (0, after)
                          | (Index.SysExit code, after) => (code, after) end in
    Index.index_local_html (snd out) = Index.index_local_html before
    \/ exists t pdf_entries,
         Index.template env = Some t /\ pdf_entries <> [] /\ fst out = 0
         /\ Index.index_local_html (snd out) =
              Some (Index.fill t (length pdf_entries) (Index.content_of pdf_entries))).
  { intros entries o Hne Ho r out. subst r out.
    destruct (Index.template env) as [t|] eqn:Et.
    - destruct (generate_html_template env entries (length entries) o t Et) as [lines ->].
      right. exists t, entries. cbn. auto.
    - rewrite (generate_html_no_template env entries _ o Et). left. exact Ho. }
  destruct args as [hf fb]. unfold Index.run.
  destruct hf.
  - unfold Index.main, Index.bind. cbn [Index.hf Index.fallback_local].
    rewrite get_pdf_files_from_hf_run.
    destruct (Spec.remote_pdfs env) as [|f files] eqn:Er.
    + destruct fb.
      * rewrite print_printing, scan_local_pdfs_run.
        destruct (Spec.local_entries env) as [|e entries] eqn:El.
        -- rewrite print_printing. left. reflexivity.
        -- apply Hgen; [discriminate|reflexivity].
      * rewrite print_printing. left. reflexivity.
    + cbn [Index.ret fmap list_fmap]. apply Hgen; [discriminate|reflexivity].
  - rewrite main_local.
    destruct (Spec.local_entries env) as [|e entries] eqn:El.
    + left. reflexivity.
    + apply Hgen; [discriminate|reflexivity].
Qed.

(** C5. When [templates.html] is absent, [generate_html] prints the error
    and leaves with status 1 without touching [index_local.html], and every
    run of the generator ends with status 1 and the file as it was.  With
    the template present, [generate_html] writes the template with both
    markers filled in; no run writes anything else into the file. *)
Theorem C5_missing_template :
  forall (env : Index.Env) (before : Index.Out),
    (Index.template env = None ->
       (forall (pdf_entries : list Index.PdfEntry) (total_files : nat),
           Index.generate_html env pdf_entries total_files before =
             (Index.SysExit 1,
              Index.mkOut (Index.stdout before ++ ["Error: templates.html not found!"])
                          (Index.index_local_html before)))
       /\ (forall args : Index.Args,
             fst (Index.run args env before) = 1
             /\ Index.index_local_html (snd (Index.run args env before)) =
                  Index.index_local_html before))
    /\ (forall (t : string) (pdf_entries : list Index.PdfEntry) (total_files : nat),
          Index.template env = Some t ->
          exists lines,
            Index.generate_html env pdf_entries total_files before =
              (Index.Return tt,
               Index.mkOut (Index.stdout before ++ lines)
                 (Some (Py.replace
                          (Py.replace t "{TOTAL_FILES}" (Py.str (Z.of_nat total_files)))
                          "<!-- INJECTED_CONTENT -->" (Index.content_of pdf_entries)))))
    /\ (forall args : Index.Args,
          Index.index_local_html (snd (Index.run args env before)) =
            Index.index_local_html before
          \/ exists t pdf_entries,
               Index.template env = Some t /\ pdf_entries <> []
               /\ fst (Index.run args env before) = 0
               /\ Index.index_local_html (snd (Index.run args env before)) =
                    Some (Index.fill t (length pdf_entries) (Index.content_of pdf_entries))).
Proof.
  intros env before. split; [|split].
  - intros Hnone. split.
    + intros pdf_entries total_files. now apply generate_html_no_template.
    + intros args.
      assert (Hexit : forall entries o,
                Index.generate_html env entries (length entries) o =
                  (Index.SysExit 1, Spec.printing o ["Error: templates.html not found!"])).
      { intros. now apply generate_html_no_template. }
      destruct args as [hf fb]. unfold Index.run. destruct hf.
      * unfold Index.main, Index.bind. cbn [Index.hf Index.fallback_local].
        rewrite get_pdf_files_from_hf_run.
        destruct (Spec.remote_pdfs env) as [|f files].
        -- destruct fb.
           ++ rewrite print_printing, scan_local_pdfs_run.
              destruct (Spec.local_entries env) as [|e entries].
              ** rewrite print_printing. split; reflexivity.
              ** rewrite Hexit. split; reflexivity.
           ++ rewrite print_printing. split; reflexivity.
        -- cbn [Index.ret fmap list_fmap]. rewrite Hexit. split; reflexivity.
      * rewrite main_local.
        destruct (Spec.local_entries env) as [|e entries].
        -- split; reflexivity.
        -- rewrite Hexit. split; reflexivity.
  - intros t pdf_entries total_files Ht.
    exact (generate_html_template env pdf_entries total_files before t Ht).
  - intros args. apply run_writes_filled_template.
Qed.

(** ** The layout of the Markdown document *)

(** A loop that appends lines and adds to a counter. *)
Lemma foldl_emit {X : Type} (f : X -> list string) (g : X -> nat)
    (step : list string * nat -> X -> list string * nat) (l : list X)
    (acc : list string * nat) :
  (forall acc x, step acc x = (fst acc ++ f x, (snd acc + g x)%nat)) ->
  foldl step acc l = (fst acc ++ (l ≫= f), (snd acc + sum_list (g <$> l))%nat).
Proof.
  intros Hstep. revert acc.
  induction l as [|x l IH]; intros [lines n]; cbn [foldl fst snd].
  - cbn. now rewrite app_nil_r, Nat.add_0_r.
  - rewrite IH, Hstep. cbn [fst snd fmap list_fmap sum_list sum_list_with mbind list_bind].
    rewrite <- app_assoc. f_equal. unfold id. lia.
Qed.

Lemma bind_filter {X Y : Type} (p : X -> bool) (f : X -> list Y) (l : list X) :
  l ≫= (fun x => if p x then f x else []) = List.filter p l ≫= f.
Proof.
  induction l as [|x l IH]; [reflexivity|].
  cbn [mbind list_bind List.filter]. destruct (p x); cbn [mbind list_bind app];
    now rewrite <- IH.
Qed.

Lemma bucket_lookup_total (structure : Inventory.Structure) (d : string) (y : option Z) :
  (structure !!! d) !!! y = bucket structure d y.
Proof.
  unfold Inventory.Structure in *.
  unfold bucket. rewrite !lookup_total_alt.
  destruct (structure !! d) as [inner|] eqn:E; cbn; [reflexivity|].
  now rewrite lookup_empty.
Qed.

Lemma year_step_emit (structure : Inventory.Structure) (d : string)
    (acc : Inventory.Acc) (y : option Z) :
  Inventory.year_step (structure !!! d) acc y =
    (fst acc ++ (if nonempty (md_files structure d y) then md_year_block structure d y else []),
     (snd acc + length (bucket structure d y))%nat).
Proof.
  unfold Inventory.year_step, md_year_block, md_files.
  rewrite bucket_lookup_total.
  rewrite (sorted_length Fs.path_cmp id (bucket structure d y)).
  destruct (Py.sorted Fs.path_cmp id (bucket structure d y)); cbn [nonempty].
  - now rewrite app_nil_r.
  - reflexivity.
Qed.

Lemma dir_step_emit (structure : Inventory.Structure) (acc : Inventory.Acc) (d : string) :
  Inventory.dir_step structure acc d =
    (fst acc ++ md_dir_block structure d,
     (snd acc + sum_list ((fun y => length (bucket structure d y))
                            <$> Inventory.years_of (structure !!! d)))%nat).
Proof.
  unfold Inventory.dir_step, md_dir_block, md_years.
  rewrite (foldl_emit _ _ _ _ _ (year_step_emit structure d)).
  cbn [fst snd]. rewrite bind_filter. now rewrite <- !app_assoc.
Qed.

(** The loops of [generate_markdown_inventory] produce the layout. *)
Lemma render_layout (structure : Inventory.Structure) :
  Inventory.render structure = (md_layout structure, md_count structure).
Proof.
  unfold Inventory.render, md_layout, md_count, md_dirs.
  now rewrite (foldl_emit _ _ _ _ _ (dir_step_emit structure)).
Qed.

(** ** The order of the sections *)

Lemma keys_NoDup {K V : Type} `{Countable K} (m : gmap K V) : NoDup (Inventory.keys m).
Proof. unfold Inventory.keys. apply NoDup_fst_map_to_list. Qed.

Lemma elem_of_keys {K V : Type} `{Countable K} (m : gmap K V) (k : K) :
  k ∈ Inventory.keys m <-> is_Some (m !! k).
Proof.
  unfold Inventory.keys. rewrite list_elem_of_fmap. split.
  - intros ([k' v] & -> & Hin). apply elem_of_map_to_list in Hin. now exists v.
  - intros [v Hv]. exists (k, v). split; [reflexivity|]. now apply elem_of_map_to_list.
Qed.

Lemma StronglySorted_filter {X : Type} (R : X -> X -> Prop) (p : X -> bool) (l : list X) :
  StronglySorted R l -> StronglySorted R (List.filter p l).
Proof.
  induction 1 as [|x l Hl IH Hx]; cbn [List.filter]; [constructor|].
  destruct (p x); [|exact IH].
  constructor; [exact IH|].
  rewrite Forall_forall in Hx |- *. intros y Hy.
  apply Hx. apply list_elem_of_In in Hy. apply filter_In in Hy as [Hy _].
  now apply list_elem_of_In.
Qed.

(** The directories come in strictly ascending order, each once. *)
Lemma md_dirs_sorted (structure : Inventory.Structure) :
  StronglySorted Spec.text_before (md_dirs structure)
  /\ md_dirs structure ≡ₚ Inventory.keys structure.
Proof.
  unfold md_dirs. split; [|apply sorted_Permutation].
  apply (sorted_strict Py.str_cmp id). rewrite list_fmap_id. apply keys_NoDup.
Qed.

Lemma omap_id_NoDup {X : Type} (l : list (option X)) : NoDup l -> NoDup (omap id l).
Proof.
  induction 1 as [|x l Hx Hl IH]; [constructor|].
  destruct x as [x|]; cbn [omap id]; [|exact IH].
  constructor; [|exact IH].
  intros Hin. apply Hx. apply list_elem_of_omap in Hin as (o & Ho & Hid).
  cbn in Hid. now subst o.
Qed.

Lemma elem_of_omap_id {X : Type} (l : list (option X)) (x : X) :
  x ∈ omap id l <-> Some x ∈ l.
Proof.
  rewrite list_elem_of_omap. split.
  - intros (o & Ho & Hid). cbn in Hid. now subst o.
  - intros Hin. now exists (Some x).
Qed.

Lemma years_tail_sorted (zs : list Z) (tail : list (option Z)) :
  StronglySorted (key_lt Z.compare id) zs ->
  tail = [None] \/ tail = [] ->
  StronglySorted Spec.year_before ((Some <$> zs) ++ tail).
Proof.
  intros Hzs Htail.
  induction Hzs as [|z zs Hs IH Hz]; cbn [fmap list_fmap app].
  - destruct Htail as [-> | ->]; repeat constructor.
  - constructor; [exact IH|].
    apply Forall_app. split.
    + rewrite Forall_fmap. eapply Forall_impl; [exact Hz|].
      intros y Hy. unfold key_lt, id in Hy. cbn. now apply Z.compare_lt_iff.
    + destruct Htail as [-> | ->]; repeat constructor.
Qed.

(** The years of a directory come in ascending order, "no year" last, each
    key once. *)
Lemma years_of_sorted (year_groups : gmap (option Z) (list Fs.Path)) :
  StronglySorted Spec.year_before (Inventory.years_of year_groups)
  /\ (forall y, y ∈ Inventory.years_of year_groups <-> is_Some (year_groups !! y)).
Proof.
  unfold Inventory.years_of. split.
  - apply years_tail_sorted.
    + apply (sorted_strict Z.compare id). rewrite list_fmap_id.
      apply omap_id_NoDup, keys_NoDup.
    + destruct (bool_decide _); auto.
  - intros y. rewrite elem_of_app, list_elem_of_fmap.
    split.
    + intros [(z & -> & Hz) | Hy].
      * rewrite (sorted_Permutation Z.compare id) in Hz.
        apply elem_of_omap_id in Hz. now apply elem_of_keys in Hz.
      * destruct (bool_decide (is_Some (year_groups !! None))) eqn:E.
        -- apply list_elem_of_singleton in Hy. subst y. now apply bool_decide_eq_true in E.
        -- now apply elem_of_nil in Hy.
    + intros Hsome. destruct y as [z|].
      * left. exists z. split; [reflexivity|].
        rewrite (sorted_Permutation Z.compare id).
        apply elem_of_omap_id. now apply elem_of_keys.
      * right. rewrite bool_decide_eq_true_2 by assumption. now apply list_elem_of_singleton.
Qed.

(** ** The headings of the Markdown document *)

Lemma strip_prefix_append (p x : string) : Spec.strip_prefix p (p +:+ x) = Some x.
Proof.
  induction p as [|a p IH]; [reflexivity|].
  rewrite append_cons. cbn [Spec.strip_prefix]. now rewrite Ascii.eqb_refl.
Qed.

Lemma omap_none {X Y : Type} (f : X -> option Y) (l : list X) :
  Forall (fun x => f x = None) l -> omap f l = [].
Proof.
  induction 1 as [|x l Hx Hl IH]; [reflexivity|].
  cbn [omap list_omap]. now rewrite Hx.
Qed.

Lemma omap_bind {X Y W : Type} (f : Y -> option W) (g : X -> list Y) (l : list X) :
  omap f (l ≫= g) = l ≫= (fun x => omap f (g x)).
Proof.
  induction l as [|x l IH]; [reflexivity|].
  cbn [mbind list_bind]. now rewrite omap_app, IH.
Qed.

Lemma bind_singleton_fmap {X Y : Type} (f : X -> Y) (l : list X) :
  l ≫= (fun x => [f x]) = f <$> l.
Proof. induction l as [|x l IH]; [reflexivity|]. cbn. now rewrite <- IH. Qed.

Lemma md_heading_dir (d : string) :
  Spec.md_heading ("### " +:+ d +:+ newline) = Some (inl (d +:+ newline)).
Proof. unfold Spec.md_heading. now rewrite strip_prefix_append. Qed.

Lemma md_heading_year (h : string) :
  Spec.md_heading ("#### " +:+ h +:+ newline) = Some (inr (h +:+ newline)).
Proof.
  unfold Spec.md_heading.
  change (Spec.strip_prefix "### " ("#### " +:+ h +:+ newline)) with (@None string).
  now rewrite strip_prefix_append.
Qed.

Lemma md_heading_row (fp : Fs.Path) : Spec.md_heading (Inventory.table_row fp) = None.
Proof. reflexivity. Qed.

Lemma md_outline_year_block (structure : Inventory.Structure) (d : string) (y : option Z) :
  Spec.md_outline (md_year_block structure d y) =
    [inr (Inventory.year_header y +:+ newline)].
Proof.
  unfold Spec.md_outline, md_year_block.
  rewrite !omap_app. cbn [omap list_omap]. rewrite md_heading_year.
  change (omap Spec.md_heading Inventory.table_head) with (@nil (string + string)).
  rewrite (omap_none Spec.md_heading (Inventory.table_row <$> _)).
  - reflexivity.
  - rewrite Forall_fmap. apply Forall_true. intros fp. apply md_heading_row.
Qed.

Lemma md_outline_dir_block (structure : Inventory.Structure) (d : string) :
  Spec.md_outline (md_dir_block structure d) =
    inl (d +:+ newline)
      :: ((fun y => inr (Inventory.year_header y +:+ newline)) <$> md_years structure d).
Proof.
  unfold md_dir_block. unfold Spec.md_outline at 1.
  rewrite !omap_app, omap_bind. cbn [omap list_omap]. rewrite md_heading_dir.
  change (Spec.md_heading ("---" +:+ newline)) with (@None (string + string)).
  rewrite app_nil_r. cbn [app]. f_equal.
  rewrite <- bind_singleton_fmap.
  induction (md_years structure d) as [|y ys IH]; [reflexivity|].
  cbn [mbind list_bind]. rewrite IH.
  fold (Spec.md_outline (md_year_block structure d y)).
  now rewrite md_outline_year_block.
Qed.

Lemma md_outline_layout (structure : Inventory.Structure) :
  Spec.md_outline (md_layout structure) =
    md_dirs structure ≫= (fun d =>
      inl (d +:+ newline)
        :: ((fun y => inr (Inventory.year_header y +:+ newline)) <$> md_years structure d)).
Proof.
  unfold md_layout. unfold Spec.md_outline at 1.
  rewrite omap_app, omap_bind.
  change (omap Spec.md_heading Inventory.title_lines) with (@nil (string + string)).
  cbn [app].
  induction (md_dirs structure) as [|d ds IH]; [reflexivity|].
  cbn [mbind list_bind]. rewrite IH.
  fold (Spec.md_outline (md_dir_block structure d)).
  now rewrite md_outline_dir_block.
Qed.

Lemma md_years_spec (structure : Inventory.Structure) (d : string) :
  StronglySorted Spec.year_before (md_years structure d)
  /\ (forall y, y ∈ md_years structure d <-> bucket structure d y <> []).
Proof.
  unfold md_years.
  destruct (years_of_sorted (structure !!! d)) as [Hsorted Hmem].
  split; [now apply StronglySorted_filter|].
  intros y. rewrite list_elem_of_In, filter_In, <- list_elem_of_In, Hmem.
  unfold md_files.
  assert (Hne : nonempty (Py.sorted Fs.path_cmp id (bucket structure d y)) = true
                <-> bucket structure d y <> []).
  { destruct (Py.sorted Fs.path_cmp id (bucket structure d y)) eqn:E; cbn [nonempty].
    - apply sorted_nil_inv in E. rewrite E. split; [discriminate|congruence].
    - split; [|reflexivity]. intros _ Hb. rewrite Hb in E. discriminate. }
  rewrite Hne. split; [tauto|].
  intros Hb. split; [|exact Hb].
  rewrite <- bucket_lookup_total in Hb. rewrite lookup_total_alt in Hb.
  destruct ((structure !!! d) !! y); [eauto|]. now cbn in Hb.
Qed.

(** ** [str] and [int] *)

Lemma to_int_not_nil (z : Z) : Z.to_int z <> Decimal.Pos Decimal.Nil /\ Z.to_int z <> Decimal.Neg Decimal.Nil.
Proof.
  destruct z as [|p|p]; cbn [Z.to_int]; split; try discriminate;
    intros E; injection E as E; now apply DecimalPos.Unsigned.to_uint_nonnil in E.
Qed.

Lemma digit_char_ord (c : ascii) :
  Py.ascii_digit c = true -> Py.digit_char (Py.ord c - 48) = String c EmptyString.
Proof.
  unfold Py.ascii_digit, Py.in_range, Py.digit_char, Py.ord. intros H.
  apply andb_prop in H as [H _]. apply N.leb_le in H.
  replace (48 + (N_of_ascii c - 48))%N with (N_of_ascii c) by lia.
  now rewrite ascii_N_embedding.
Qed.

(** A text of ASCII characters is its own transcription. *)
Lemma to_ascii_decimal_ascii (s : string) :
  Py.is_ascii s = true -> Py.to_ascii_decimal s = s.
Proof.
  intros Hs. unfold Py.to_ascii_decimal. rewrite (chars_ascii s Hs). clear Hs.
  induction s as [|c s IH]; [reflexivity|].
  cbn [list_ascii_of_string fmap list_fmap]. rewrite concat_cons.
  cbn [fmap list_fmap] in IH. rewrite IH.
  cbn [Py.digit_value].
  destruct (Py.ascii_digit c) eqn:E; [|reflexivity].
  now rewrite (digit_char_ord c E).
Qed.

Lemma string_of_uint_ascii (d : Decimal.uint) : Py.is_ascii (NilZero.string_of_uint d) = true.
Proof.
  assert (H : forall d', Py.is_ascii (NilEmpty.string_of_uint d') = true).
  { induction d' as [|d' IH|d' IH|d' IH|d' IH|d' IH|d' IH|d' IH|d' IH|d' IH|d' IH];
      cbn [NilEmpty.string_of_uint Py.is_ascii]; try rewrite IH; reflexivity. }
  destruct d; try apply H. reflexivity.
Qed.

Lemma str_ascii (z : Z) : Py.is_ascii (Py.str z) = true.
Proof.
  unfold Py.str. destruct (Z.to_int z) as [d|d];
    cbn [NilZero.string_of_int Py.is_ascii]; now rewrite string_of_uint_ascii.
Qed.

Lemma int_str (z : Z) : Py.int (Py.str z) = Some z.
Proof.
  unfold Py.int. rewrite (to_ascii_decimal_ascii _ (str_ascii z)). unfold Py.str.
  destruct (to_int_not_nil z) as [Hp Hn].
  rewrite (NilZero.isi _ Hp Hn). cbn [option_map].
  now rewrite DecimalZ.of_to.
Qed.

Lemma int_value_str (z : Z) : Py.int_value (Py.str z) = z.
Proof. unfold Py.int_value. now rewrite int_str. Qed.

Lemma str_inj (z z' : Z) : Py.str z = Py.str z' -> z = z'.
Proof. intros E. rewrite <- (int_value_str z), <- (int_value_str z'). now rewrite E. Qed.

Lemma str_not_no_year_folder (z : Z) : Py.str z <> Index.NO_YEAR_FOLDER.
Proof.
  intros E. pose proof (int_str z) as Hi. rewrite E in Hi. discriminate Hi.
Qed.

Lemma display_valid_inj (k k' : Index.YearKey) :
  valid_year_key k -> valid_year_key k' -> Index.display k = Index.display k' -> k = k'.
Proof.
  intros [-> | [z ->]] [-> | [z' ->]]; cbn [Index.display]; intros E.
  - reflexivity.
  - change (Index.NO_YEAR_FOLDER = Py.str z') in E. symmetry in E.
    now apply str_not_no_year_folder in E.
  - change (Py.str z = Index.NO_YEAR_FOLDER) in E.
    now apply str_not_no_year_folder in E.
  - f_equal. now apply str_inj.
Qed.

(** ** Filling a dictionary under new keys *)
Section Rekey.
Context {K V K' V' : Type} `{Countable K'} (g : K -> K') (h : V -> V').

Lemma rekey_lookup_other (l : list (K * V)) (m0 : gmap K' V') (s : K') :
  (forall k v, (k, v) ∈ l -> g k <> s) ->
  foldl (fun m '(k, v) => <[g k := h v]> m) m0 l !! s = m0 !! s.
Proof.
  revert m0. induction l as [|[k0 v0] l IH]; intros m0 Hl; [reflexivity|].
  cbn [foldl]. rewrite IH.
  - apply lookup_insert_ne. apply (Hl k0 v0). now left.
  - intros k v Hkv. apply (Hl k v). now right.
Qed.

Lemma rekey_lookup (l : list (K * V)) (m0 : gmap K' V') (k : K) (v : V) :
  NoDup (g <$> l.*1) -> (k, v) ∈ l ->
  foldl (fun m '(k, v) => <[g k := h v]> m) m0 l !! g k = Some (h v).
Proof.
  revert m0. induction l as [|[k0 v0] l IH]; intros m0 Hnd Hin.
  - now apply elem_of_nil in Hin.
  - cbn [foldl]. rewrite !fmap_cons in Hnd. cbn [fst] in Hnd.
    apply NoDup_cons in Hnd as [Hk0 Hnd].
    apply elem_of_cons in Hin as [Heq | Hin].
    + injection Heq as -> ->. rewrite rekey_lookup_other; [apply lookup_insert_eq|].
      intros k v Hkv Egk. apply Hk0. rewrite <- Egk.
      apply list_elem_of_fmap. exists k. split; [reflexivity|].
      apply list_elem_of_fmap. now exists (k, v).
    + now apply IH.
Qed.

End Rekey.

(** ** [sorted] and maps over the items *)

Lemma insert_sorted_fmap {X Y K : Type} (cmp : K -> K -> comparison) (key : Y -> K)
    (f : X -> Y) (x : X) (l : list X) :
  Py.insert_sorted cmp key (f x) (f <$> l) =
    f <$> Py.insert_sorted cmp (fun a => key (f a)) x l.
Proof.
  induction l as [|y l IH]; [reflexivity|].
  cbn [fmap list_fmap Py.insert_sorted].
  destruct (Py.lt_of cmp (key (f y)) (key (f x))); [|reflexivity].
  cbn [fmap list_fmap]. f_equal. exact IH.
Qed.

Lemma sorted_fmap {X Y K : Type} (cmp : K -> K -> comparison) (key : Y -> K)
    (f : X -> Y) (l : list X) :
  Py.sorted cmp key (f <$> l) = f <$> Py.sorted cmp (fun a => key (f a)) l.
Proof.
  induction l as [|x l IH]; [reflexivity|].
  cbn [fmap list_fmap Py.sorted]. rewrite IH. apply insert_sorted_fmap.
Qed.

Lemma sorted_ext {X K : Type} (cmp : K -> K -> comparison) (key key' : X -> K)
    (l : list X) :
  (forall x, key x = key' x) -> Py.sorted cmp key l = Py.sorted cmp key' l.
Proof.
  intros Hk. induction l as [|x l IH]; [reflexivity|].
  cbn [Py.sorted]. rewrite IH. clear IH.
  induction (Py.sorted cmp key' l) as [|y l' IH]; [reflexivity|].
  cbn [Py.insert_sorted]. rewrite !Hk. now rewrite IH.
Qed.

Lemma filter_Permutation {X : Type} (p : X -> bool) (l l' : list X) :
  l ≡ₚ l' -> List.filter p l ≡ₚ List.filter p l'.
Proof.
  induction 1 as [|x l l' Hl IH|x y l|l l' l'' H1 IH1 H2 IH2]; cbn [List.filter].
  - reflexivity.
  - destruct (p x); now rewrite IH.
  - destruct (p x), (p y); try reflexivity. apply perm_swap.
  - now rewrite IH1.
Qed.

Lemma bind_ext_in {X Y : Type} (f g : X -> list Y) (l : list X) :
  (forall x, x ∈ l -> f x = g x) -> l ≫= f = l ≫= g.
Proof.
  induction l as [|x l IH]; intros Hfg; [reflexivity|].
  cbn [mbind list_bind]. rewrite (Hfg x) by now left.
  f_equal. apply IH. intros y Hy. apply Hfg. now right.
Qed.

Lemma bind_fmap {X Y W : Type} (f : X -> Y) (g : Y -> list W) (l : list X) :
  (f <$> l) ≫= g = l ≫= (fun x => g (f x)).
Proof. induction l as [|x l IH]; [reflexivity|]. cbn. now rewrite IH. Qed.

(** ** The year map of the HTML renderer *)
Section YearMap.
Context (year_groups : gmap Index.YearKey (list Index.PdfEntry)).
Context (Hvalid : valid_year_keys year_groups).

Lemma display_keys_NoDup : NoDup (Index.display <$> Inventory.keys year_groups).
Proof.
  apply NoDup_fmap_2_strong; [|apply keys_NoDup].
  intros k k' Hk Hk' E. apply elem_of_keys in Hk, Hk'.
  apply display_valid_inj; auto.
Qed.

Lemma year_map_lookup (k : Index.YearKey) (flist : list Index.PdfEntry) :
  year_groups !! k = Some flist ->
  Index.year_map_of year_groups !! Index.display k =
    Some (Py.sorted Py.str_cmp (fun x => Py.lower (Index.path x)) flist).
Proof.
  intros Hk. unfold Index.year_map_of.
  apply (rekey_lookup Index.display
           (Py.sorted Py.str_cmp (fun x => Py.lower (Index.path x)))).
  - apply display_keys_NoDup.
  - now apply elem_of_map_to_list.
Qed.

Lemma year_map_lookup_none (s : string) :
  (forall k, is_Some (year_groups !! k) -> Index.display k <> s) ->
  Index.year_map_of year_groups !! s = None.
Proof.
  intros Hs. unfold Index.year_map_of.
  rewrite (rekey_lookup_other Index.display
             (Py.sorted Py.str_cmp (fun x => Py.lower (Index.path x)))).
  - apply lookup_empty.
  - intros k v Hkv. apply Hs. apply elem_of_map_to_list in Hkv. now exists v.
Qed.

Lemma year_map_keys :
  Inventory.keys (Index.year_map_of year_groups)
    ≡ₚ Index.display <$> Inventory.keys year_groups.
Proof.
  apply NoDup_Permutation; [apply keys_NoDup|apply display_keys_NoDup|].
  intros s. rewrite elem_of_keys, list_elem_of_fmap. split.
  - intros Hsome.
    destruct (decide (s ∈ Index.display <$> Inventory.keys year_groups)) as [Hin|Hnot].
    + apply list_elem_of_fmap in Hin. exact Hin.
    + rewrite year_map_lookup_none in Hsome; [now destruct Hsome|].
      intros k Hk E. apply Hnot. apply list_elem_of_fmap. exists k.
      split; [now symmetry|]. now apply elem_of_keys.
  - intros (k & -> & Hk). apply elem_of_keys in Hk as [flist Hk].
    rewrite (year_map_lookup k flist Hk). eauto.
Qed.

Lemma filter_display_keys (ks : list Index.YearKey) :
  Forall valid_year_key ks ->
  List.filter (fun y => negb (String.eqb y Index.NO_YEAR_FOLDER)) (Index.display <$> ks)
    = Py.str <$> omap int_key ks.
Proof.
  induction 1 as [|k ks Hk Hks IH]; [reflexivity|].
  cbn [fmap list_fmap List.filter omap list_omap].
  destruct Hk as [-> | [z ->]]; cbn [int_key].
  - change (Index.display (inr "no-year")) with Index.NO_YEAR_FOLDER.
    rewrite String.eqb_refl. cbn [negb]. exact IH.
  - cbn [Index.display].
    destruct (String.eqb_spec (Py.str z) Index.NO_YEAR_FOLDER) as [E|_].
    + now apply str_not_no_year_folder in E.
    + cbn [negb fmap list_fmap]. f_equal. exact IH.
Qed.

Lemma keys_valid : Forall valid_year_key (Inventory.keys year_groups).
Proof. apply Forall_forall. intros k Hk. apply Hvalid. now apply elem_of_keys. Qed.

Lemma no_year_folder_key :
  is_Some (Index.year_map_of year_groups !! Index.NO_YEAR_FOLDER)
  <-> is_Some (year_groups !! inr "no-year").
Proof.
  split.
  - intros Hsome.
    destruct (year_groups !! inr "no-year") as [flist|] eqn:E; [eauto|].
    rewrite year_map_lookup_none in Hsome; [now destruct Hsome|].
    intros k Hk Ed. destruct (Hvalid k Hk) as [-> | [z ->]].
    + destruct Hk as [v Hv]. pose proof (eq_trans (eq_sym Hv) E) as Hc. discriminate Hc.
    + now apply str_not_no_year_folder in Ed.
  - intros [flist Hk]. eexists. exact (year_map_lookup _ flist Hk).
Qed.

(** The years come out in the order of their keys. *)
Lemma sorted_years_display :
  Index.sorted_years_of (Index.year_map_of year_groups) =
    Index.display <$> html_years_of year_groups.
Proof.
  unfold Index.sorted_years_of, html_years_of. rewrite fmap_app. f_equal.
  - rewrite <- list_fmap_compose.
    change (Index.display ∘ inl) with Py.str.
    rewrite <- (sorted_ext Z.compare (fun z => Py.int_value (Py.str z)) id)
      by apply int_value_str.
    rewrite <- (sorted_fmap Z.compare Py.int_value Py.str).
    apply sorted_order_irrelevant.
    + apply _.
    + intros a b Ha Hb E.
      apply list_elem_of_In in Ha, Hb.
      apply filter_In in Ha as [Ha HaF], Hb as [Hb HbF].
      apply list_elem_of_In in Ha, Hb.
      rewrite year_map_keys in Ha, Hb.
      apply list_elem_of_fmap in Ha as (ka & -> & Hka), Hb as (kb & -> & Hkb).
      apply elem_of_keys in Hka, Hkb.
      destruct (Hvalid ka Hka) as [-> | [za ->]].
      { vm_compute in HaF. discriminate HaF. }
      destruct (Hvalid kb Hkb) as [-> | [zb ->]].
      { vm_compute in HbF. discriminate HbF. }
      cbn [Index.display] in E |- *. rewrite !int_value_str in E. now subst.
    + rewrite (filter_Permutation _ _ _ year_map_keys).
      now rewrite (filter_display_keys _ keys_valid).
  - destruct (bool_decide (is_Some (year_groups !! inr "no-year"))) eqn:E.
    + apply bool_decide_eq_true in E. apply no_year_folder_key in E.
      now rewrite bool_decide_eq_true_2.
    + apply bool_decide_eq_false in E. rewrite <- no_year_folder_key in E.
      now rewrite bool_decide_eq_false_2.
Qed.

End YearMap.

(** ** The layout of the HTML fragment *)

Lemma grouped_lookup_total (grouped : Index.Grouped) (d : string) (y : Index.YearKey) :
  (grouped !!! d) !! y = grouped !! d ≫= (.!! y).
Proof.
  unfold Index.Grouped in *. rewrite lookup_total_alt.
  destruct (grouped !! d) as [inner|] eqn:E; cbn; [reflexivity|].
  now rewrite lookup_empty.
Qed.

Lemma html_years_lookup (grouped : Index.Grouped) (d : string) (y : Index.YearKey) :
  y ∈ html_years grouped d -> is_Some ((grouped !!! d) !! y).
Proof.
  unfold html_years, html_years_of. rewrite elem_of_app. intros [Hy | Hy].
  - apply list_elem_of_fmap in Hy as (z & -> & Hz).
    rewrite (sorted_Permutation Z.compare id) in Hz.
    apply list_elem_of_omap in Hz as (k & Hk & Hz).
    destruct k as [z'|s]; cbn [int_key] in Hz; [|discriminate].
    injection Hz as ->. now apply elem_of_keys in Hk.
  - destruct (bool_decide (is_Some ((grouped !!! d) !! inr "no-year"))) eqn:E.
    + apply list_elem_of_singleton in Hy. subst y. now apply bool_decide_eq_true in E.
    + now apply elem_of_nil in Hy.
Qed.

Lemma year_pieces_block (grouped : Index.Grouped) (d : string) (y : Index.YearKey) :
  valid_year_keys (grouped !!! d) ->
  y ∈ html_years grouped d ->
  Index.year_pieces (Index.year_map_of (grouped !!! d)) (Index.display y) =
    html_year_block grouped d y.
Proof.
  intros Hvalid Hy. apply html_years_lookup in Hy as [flist Hy].
  unfold Index.year_pieces, html_year_block, html_files.
  assert (Hf : Index.year_map_of (grouped !!! d) !!! Index.display y =
               Py.sorted Py.str_cmp (fun x => Py.lower (Index.path x)) (bucket grouped d y)).
  { rewrite lookup_total_alt, (year_map_lookup _ Hvalid y flist Hy). cbn.
    unfold bucket. rewrite <- grouped_lookup_total.
    replace ((grouped !!! d) !! y) with (Some flist) by (symmetry; exact Hy).
    reflexivity. }
  rewrite Hf. reflexivity.
Qed.

Lemma dir_pieces_block (grouped : Index.Grouped) (d : string) :
  valid_year_keys (grouped !!! d) ->
  Index.dir_pieces grouped d = html_dir_block grouped d.
Proof.
  intros Hvalid. unfold Index.dir_pieces, html_dir_block.
  rewrite (sorted_years_display _ Hvalid), bind_fmap.
  fold (html_years grouped d).
  rewrite (bind_ext_in _ (html_year_block grouped d)); [reflexivity|].
  intros y Hy. now apply year_pieces_block.
Qed.

Lemma pieces_layout (grouped : Index.Grouped) :
  (forall d, valid_year_keys (grouped !!! d)) ->
  Index.pieces grouped = html_layout grouped.
Proof.
  intros Hvalid. unfold Index.pieces, html_layout, html_dirs.
  apply bind_ext_in. intros d _. now apply dir_pieces_block.
Qed.

(** The groupings [generate_html] builds have valid year keys and no empty
    bucket. *)
Section GroupInvariant.
Context {K1 K2 : Type} `{Countable K1} `{Countable K2} {V : Type}.
Context (k1 : V -> K1) (k2 : V -> K2).

Lemma group_by_buckets_nonempty (l : list V) (a : K1) (b : K2)
    (inner : gmap K2 (list V)) (vs : list V) :
  group_by k1 k2 l !! a = Some inner -> inner !! b = Some vs -> vs <> [].
Proof.
  unfold group_by.
  assert (Hgen : forall m : gmap K1 (gmap K2 (list V)),
    (forall a inner b vs, m !! a = Some inner -> inner !! b = Some vs -> vs <> []) ->
    forall a inner b vs,
      foldl (fun m v => add_to m (k1 v) (k2 v) v) m l !! a = Some inner ->
      inner !! b = Some vs -> vs <> []).
  { induction l as [|v l IH]; intros m Hm; [exact Hm|].
    cbn [foldl]. apply IH. clear IH.
    intros a' inner' b' vs'. unfold add_to.
    destruct (decide (k1 v = a')) as [<-|Ha].
    - rewrite lookup_insert_eq. intros [= <-].
      destruct (decide (k2 v = b')) as [<-|Hb].
      + rewrite lookup_insert_eq. intros [= <-]. now destruct (default [] _).
      + rewrite lookup_insert_ne by assumption.
        destruct (m !! k1 v) as [inner0|] eqn:E; cbn [default].
        * intros Hb'. exact (Hm _ _ _ _ E Hb').
        * now rewrite lookup_empty.
    - rewrite lookup_insert_ne by assumption. apply Hm. }
  apply Hgen. intros a' inner' b' vs'. now rewrite lookup_empty.
Qed.

Lemma group_by_key_origin (l : list V) (a : K1) (b : K2) (inner : gmap K2 (list V)) :
  group_by k1 k2 l !! a = Some inner -> is_Some (inner !! b) ->
  exists v, v ∈ l /\ k1 v = a /\ k2 v = b.
Proof.
  intros Ha [vs Hb].
  pose proof (group_by_buckets_nonempty l a b inner vs Ha Hb) as Hne.
  pose proof (bucket_group_by k1 k2 l a b) as Hbucket.
  unfold bucket in Hbucket. rewrite Ha in Hbucket. cbn in Hbucket.
  rewrite Hb in Hbucket. cbn in Hbucket.
  destruct vs as [|v vs]; [congruence|].
  assert (Hv : In v (List.filter (has_key k1 k2 a b) l)) by (rewrite <- Hbucket; now left).
  apply filter_In in Hv as [Hv Hk]. apply has_key_true in Hk.
  exists v. split; [now apply list_elem_of_In|exact Hk].
Qed.

End GroupInvariant.

Lemma is_Some_bind_lookup {K V : Type} `{Countable K} (o : option (gmap K V)) (k : K) :
  is_Some (o ≫= (.!! k)) -> exists inner, o = Some inner /\ is_Some (inner !! k).
Proof. destruct o as [inner|]; cbn; [eauto|]. intros [v Hv]. discriminate Hv. Qed.

Lemma group_entries_valid (pdf_entries : list Index.PdfEntry) (d : string) :
  valid_year_keys (Index.group_entries pdf_entries !!! d).
Proof.
  intros k Hk. rewrite grouped_lookup_total in Hk.
  apply is_Some_bind_lookup in Hk as (inner & E & Hk).
  destruct (group_by_key_origin Index.top_dir_of Index.year_key_of pdf_entries d k inner
              E Hk) as (f & _ & _ & <-).
  unfold Index.year_key_of, valid_year_key.
  destruct (Index.year f) as [y|]; [|now left].
  destruct (y =? 0); [now left|right; eauto].
Qed.

Lemma group_entries_layout (pdf_entries : list Index.PdfEntry) :
  Index.pieces (Index.group_entries pdf_entries) =
    html_layout (Index.group_entries pdf_entries).
Proof. apply pieces_layout. intros d. apply group_entries_valid. Qed.

(** ** The headings of the HTML fragment *)

Lemma html_heading_dir (d : string) :
  Spec.html_heading (Index.dir_header_piece d) = Some (inl (d +:+ Spec.dir_header_rest)).
Proof.
  unfold Spec.html_heading.
  change (Index.dir_header_piece d)
    with (Spec.dir_header_open +:+ (d +:+ Spec.dir_header_rest)).
  now rewrite strip_prefix_append.
Qed.

Lemma html_heading_year (year_name : string) (files : list Index.PdfEntry) :
  Spec.html_heading (Index.year_header_piece year_name files) =
    Some (inr (year_name +:+ Spec.year_header_rest (length files))).
Proof.
  unfold Spec.html_heading.
  change (Index.year_header_piece year_name files)
    with (Spec.year_header_open +:+ (year_name +:+ Spec.year_header_rest (length files))).
  change (Spec.strip_prefix Spec.dir_header_open
            (Spec.year_header_open +:+ (year_name +:+ Spec.year_header_rest (length files))))
    with (@None string).
  now rewrite strip_prefix_append.
Qed.

Lemma html_heading_row (f : Index.PdfEntry) : Spec.html_heading (Index.row_piece f) = None.
Proof. reflexivity. Qed.

Lemma html_outline_year_block (grouped : Index.Grouped) (d : string) (y : Index.YearKey) :
  Spec.html_outline (html_year_block grouped d y) =
    [inr (Index.display y +:+ Spec.year_header_rest (length (bucket grouped d y)))].
Proof.
  unfold Spec.html_outline, html_year_block.
  rewrite !omap_app.
  rewrite (omap_none Spec.html_heading (Index.row_piece <$> _)).
  2: { rewrite Forall_fmap. apply Forall_true. intros f. apply html_heading_row. }
  cbn [omap list_omap]. rewrite html_heading_year.
  unfold html_files. rewrite sorted_length. reflexivity.
Qed.

Lemma html_outline_dir_block (grouped : Index.Grouped) (d : string) :
  Spec.html_outline (html_dir_block grouped d) =
    inl (d +:+ Spec.dir_header_rest)
      :: ((fun y => inr (Index.display y
                           +:+ Spec.year_header_rest (length (bucket grouped d y))))
            <$> html_years grouped d).
Proof.
  unfold html_dir_block. unfold Spec.html_outline at 1.
  rewrite !omap_app, omap_bind. cbn [omap list_omap]. rewrite html_heading_dir.
  change (Spec.html_heading ("<div " +:+ Index.cls "directory collapsed" +:+ ">" +:+ newline))
    with (@None (string + string)).
  change (Spec.html_heading ("  <div " +:+ Index.cls "content" +:+ ">" +:+ newline))
    with (@None (string + string)).
  change (Spec.html_heading ("  </div></div>" +:+ newline)) with (@None (string + string)).
  rewrite app_nil_r. cbn [app]. f_equal.
  rewrite <- bind_singleton_fmap.
  apply bind_ext_in. intros y _.
  fold (Spec.html_outline (html_year_block grouped d y)).
  apply html_outline_year_block.
Qed.

Lemma html_outline_layout (grouped : Index.Grouped) :
  Spec.html_outline (html_layout grouped) =
    html_dirs grouped ≫= (fun d =>
      inl (d +:+ Spec.dir_header_rest)
        :: ((fun y => inr (Index.display y
                             +:+ Spec.year_header_rest (length (bucket grouped d y))))
              <$> html_years grouped d)).
Proof.
  unfold html_layout. unfold Spec.html_outline at 1. rewrite omap_bind.
  apply bind_ext_in. intros d _.
  fold (Spec.html_outline (html_dir_block grouped d)).
  apply html_outline_dir_block.
Qed.

Lemma html_dirs_sorted (grouped : Index.Grouped) :
  StronglySorted Spec.text_before (html_dirs grouped)
  /\ html_dirs grouped ≡ₚ Inventory.keys grouped.
Proof.
  unfold html_dirs. split; [|apply sorted_Permutation].
  apply (sorted_strict Py.str_cmp id). rewrite list_fmap_id. apply keys_NoDup.
Qed.

Lemma int_key_NoDup (ks : list Index.YearKey) : NoDup ks -> NoDup (omap int_key ks).
Proof.
  induction 1 as [|k ks Hk Hks IH]; [constructor|].
  destruct k as [z|s]; cbn [omap list_omap int_key]; [|exact IH].
  constructor; [|exact IH].
  intros Hin. apply Hk. apply list_elem_of_omap in Hin as (k & Hin & Hz).
  destruct k as [z'|s]; cbn [int_key] in Hz; [|discriminate].
  now injection Hz as ->.
Qed.

Lemma html_years_sorted (year_groups : gmap Index.YearKey (list Index.PdfEntry)) :
  StronglySorted Spec.year_key_before (html_years_of year_groups).
Proof.
  unfold html_years_of.
  assert (Hzs : StronglySorted (key_lt Z.compare id)
                  (Py.sorted Z.compare id (omap int_key (Inventory.keys year_groups)))).
  { apply (sorted_strict Z.compare id). rewrite list_fmap_id.
    apply int_key_NoDup, keys_NoDup. }
  induction Hzs as [|z zs Hs IH Hz]; cbn [fmap list_fmap app].
  - destruct (bool_decide _); repeat constructor.
  - constructor; [exact IH|].
    apply Forall_app. split.
    + rewrite Forall_fmap. eapply Forall_impl; [exact Hz|].
      intros y Hy. unfold key_lt, id in Hy. cbn. now apply Z.compare_lt_iff.
    + destruct (bool_decide _); repeat constructor.
Qed.

Lemma bucket_of_lookups {K1 K2 V : Type} `{Countable K1} `{Countable K2}
    (m : gmap K1 (gmap K2 (list V))) (a : K1) (b : K2) (inner : gmap K2 (list V))
    (vs : list V) :
  m !! a = Some inner -> inner !! b = Some vs -> bucket m a b = vs.
Proof. unfold bucket. intros -> . cbn. now intros ->. Qed.

Lemma bucket_nonempty_is_Some {K1 K2 V : Type} `{Countable K1} `{Countable K2}
    (m : gmap K1 (gmap K2 (list V))) (a : K1) (b : K2) :
  bucket m a b <> [] -> is_Some (m !! a ≫= (.!! b)).
Proof. unfold bucket. destruct (m !! a ≫= (.!! b)); [eauto|]. now cbn. Qed.

Lemma html_years_mem (pdf_entries : list Index.PdfEntry) (d : string) (y : Index.YearKey) :
  y ∈ html_years (Index.group_entries pdf_entries) d
  <-> bucket (Index.group_entries pdf_entries) d y <> [].
Proof.
  split.
  - intros Hy. apply html_years_lookup in Hy.
    rewrite grouped_lookup_total in Hy.
    apply is_Some_bind_lookup in Hy as (inner & E & [vs Hvs]).
    intros Hb.
    pose proof (bucket_of_lookups _ _ _ _ _ E Hvs) as Hbv.
    pose proof (eq_trans (eq_sym Hbv) Hb) as Hnil.
    exact (group_by_buckets_nonempty Index.top_dir_of Index.year_key_of
             pdf_entries d y inner vs E Hvs Hnil).
  - intros Hne.
    assert (Hsome : is_Some ((Index.group_entries pdf_entries !!! d) !! y)).
    { rewrite grouped_lookup_total. now apply bucket_nonempty_is_Some. }
    unfold html_years, html_years_of. rewrite elem_of_app.
    destruct (group_entries_valid pdf_entries d y Hsome) as [-> | [z ->]].
    + right. rewrite bool_decide_eq_true_2 by exact Hsome. now apply list_elem_of_singleton.
    + left. apply list_elem_of_fmap. exists z. split; [reflexivity|].
      rewrite (sorted_Permutation Z.compare id).
      apply list_elem_of_omap. exists (inl z). split; [|reflexivity].
      now apply elem_of_keys.
Qed.

(** ** C3: the order of the sections *)

(** C3. In the Markdown lines, for any grouping, and in the pieces that make
    up the HTML fragment, for the grouping of any list of entries: the
    headings read off the output are those of the directories, each followed
    by those of its years; the directories are all the keys of the grouping
    in strictly ascending lexical order; the years of a directory are those
    with a non-empty bucket, in ascending numeric order with "no year" after
    every year. *)
Theorem C3_sections_in_order :
  (forall structure : Inventory.Structure,
      Spec.md_outline (fst (Inventory.render structure)) =
        md_dirs structure ≫= (fun d =>
          inl (d +:+ newline)
            :: ((fun y => inr (Inventory.year_header y +:+ newline))
                  <$> md_years structure d))
      /\ StronglySorted Spec.text_before (md_dirs structure)
      /\ md_dirs structure ≡ₚ Inventory.keys structure
      /\ (forall d, StronglySorted Spec.year_before (md_years structure d))
      /\ (forall d y, y ∈ md_years structure d <-> bucket structure d y <> []))
  /\ (forall pdf_entries : list Index.PdfEntry,
         let grouped := Index.group_entries pdf_entries in
         Index.content_of pdf_entries = String.concat EmptyString (Index.pieces grouped)
         /\ Spec.html_outline (Index.pieces grouped) =
              html_dirs grouped ≫= (fun d =>
                inl (d +:+ Spec.dir_header_rest)
                  :: ((fun y => inr (Index.display y
                                       +:+ Spec.year_header_rest
                                             (length (bucket grouped d y))))
                        <$> html_years grouped d))
         /\ StronglySorted Spec.text_before (html_dirs grouped)
         /\ html_dirs grouped ≡ₚ Inventory.keys grouped
         /\ (forall d, StronglySorted Spec.year_key_before (html_years grouped d))
         /\ (forall d y, y ∈ html_years grouped d <-> bucket grouped d y <> [])).
Proof.
  split.
  - intros structure. rewrite render_layout. cbn [fst].
    split; [apply md_outline_layout|].
    destruct (md_dirs_sorted structure) as [Hs Hp].
    split; [exact Hs|]. split; [exact Hp|].
    split; intros d; [apply md_years_spec|].
    intros y. apply md_years_spec.
  - intros pdf_entries grouped. subst grouped.
    split; [reflexivity|].
    rewrite group_entries_layout.
    split; [apply html_outline_layout|].
    destruct (html_dirs_sorted (Index.group_entries pdf_entries)) as [Hs Hp].
    split; [exact Hs|]. split; [exact Hp|].
    split; intros d; [apply html_years_sorted|].
    intros y. apply html_years_mem.
Qed.

(** ** C7: the order of the rows of a table *)

(** C7. In both renderers the rows of the table of a directory and a year
    are those of the files of its bucket, rearranged in ascending order of
    their path: the Markdown generator compares the paths themselves, part
    by part and with upper case before lower case; the HTML generator
    compares the path texts lower-cased by [str.lower].  So [A/Z.pdf] comes
    before [A/a.pdf] in the Markdown table and after it in the HTML one. *)
Theorem C7_rows_sorted_by_path :
  (forall structure : Inventory.Structure,
      fst (Inventory.render structure) =
        Inventory.title_lines
        ++ (md_dirs structure ≫= (fun d =>
              ["### " +:+ d +:+ newline]
              ++ (md_years structure d ≫= (fun y =>
                    ["#### " +:+ Inventory.year_header y +:+ newline]
                    ++ Inventory.table_head
                    ++ (Inventory.table_row <$> md_files structure d y)
                    ++ [EmptyString]))
              ++ ["---" +:+ newline]))
      /\ (forall d y,
             md_files structure d y ≡ₚ bucket structure d y
             /\ StronglySorted (fun a b => Fs.path_cmp a b <> Gt)
                               (md_files structure d y)))
  /\ (forall pdf_entries : list Index.PdfEntry,
         let grouped := Index.group_entries pdf_entries in
         Index.pieces grouped =
           html_dirs grouped ≫= (fun d =>
             ["<div " +:+ Index.cls "directory collapsed" +:+ ">" +:+ newline;
              Index.dir_header_piece d;
              "  <div " +:+ Index.cls "content" +:+ ">" +:+ newline]
             ++ (html_years grouped d ≫= (fun y =>
                   ["    <div " +:+ Index.cls "year collapsed" +:+ ">" +:+ newline;
                    Index.year_header_piece (Index.display y) (html_files grouped d y);
                    "      <div " +:+ Index.cls "content" +:+ ">" +:+ newline;
                    "        <div " +:+ Index.cls "table-wrapper"
                      +:+ "><table><thead><tr><th>Document</th><th>Path</th></tr></thead><tbody>"
                      +:+ newline]
                   ++ (Index.row_piece <$> html_files grouped d y)
                   ++ ["        </tbody></table></div>" +:+ newline;
                       "      </div></div>" +:+ newline]))
             ++ ["  </div></div>" +:+ newline])
         /\ (forall d y,
                html_files grouped d y ≡ₚ bucket grouped d y
                /\ StronglySorted
                     (fun a b => Py.str_cmp (Py.lower (Index.path a))
                                            (Py.lower (Index.path b)) <> Gt)
                     (html_files grouped d y)))
  /\ md_files (group_by Spec.top_level Inventory.first_year
                 [["A"; "a.pdf"]; ["A"; "Z.pdf"]]) "A" None
       = [["A"; "Z.pdf"]; ["A"; "a.pdf"]]
  /\ Index.path <$> html_files (Index.group_entries
                      [Index.mkPdf "A/a.pdf" "a.pdf" None;
                       Index.mkPdf "A/Z.pdf" "Z.pdf" None]) "A" (inr "no-year")
       = ["A/a.pdf"; "A/Z.pdf"].
Proof.
  split; [|split; [|split; vm_compute; reflexivity]].
  - intros structure. rewrite render_layout. cbn [fst].
    split; [reflexivity|]. intros d y. unfold md_files. split.
    + apply sorted_Permutation.
    + apply (sorted_StronglySorted Fs.path_cmp id).
  - intros pdf_entries grouped. subst grouped.
    rewrite group_entries_layout.
    split; [reflexivity|]. intros d y. unfold html_files. split.
    + apply sorted_Permutation.
    + apply (sorted_StronglySorted Py.str_cmp (fun x => Py.lower (Index.path x))).
Qed.

(** ** The counter of the Markdown generator *)

Lemma StronglySorted_irrefl_NoDup {X : Type} (R : X -> X -> Prop) (l : list X) :
  (forall x, ~ R x x) -> StronglySorted R l -> NoDup l.
Proof.
  intros Hirr. induction 1 as [|x l Hs IH Hall]; constructor; [|exact IH].
  intros Hin. rewrite Forall_forall in Hall. exact (Hirr x (Hall x Hin)).
Qed.

Lemma year_before_irrefl (y : option Z) : ~ Spec.year_before y y.
Proof. destruct y as [z|]; cbn; [lia|tauto]. Qed.

Lemma years_of_keys (year_groups : gmap (option Z) (list Fs.Path)) :
  Inventory.years_of year_groups ≡ₚ Inventory.keys year_groups.
Proof.
  destruct (years_of_sorted year_groups) as [Hsorted Hmem].
  apply NoDup_Permutation.
  - exact (StronglySorted_irrefl_NoDup _ _ year_before_irrefl Hsorted).
  - apply keys_NoDup.
  - intros y. now rewrite Hmem, elem_of_keys.
Qed.

Lemma sum_list_fmap_ext_in {X : Type} (f g : X -> nat) (l : list X) :
  (forall x, x ∈ l -> f x = g x) -> sum_list (f <$> l) = sum_list (g <$> l).
Proof.
  induction l as [|x l IH]; intros Hfg; [reflexivity|].
  cbn [fmap list_fmap sum_list_with id].
  rewrite (Hfg x) by apply list_elem_of_here.
  f_equal. apply IH. intros z Hz. apply Hfg. now apply list_elem_of_further.
Qed.

Lemma length_bind_sum {X Y : Type} (f : X -> list Y) (l : list X) :
  length (l ≫= f) = sum_list ((fun x => length (f x)) <$> l).
Proof.
  induction l as [|x l IH]; [reflexivity|].
  cbn [mbind list_bind fmap list_fmap sum_list_with id].
  now rewrite length_app, IH.
Qed.

Lemma sum_list_fmap_Permutation {X : Type} (f : X -> nat) (l l' : list X) :
  l ≡ₚ l' -> sum_list (f <$> l) = sum_list (f <$> l').
Proof. intros Hp. now rewrite Hp. Qed.

(** The counter is the number of files held by the grouping, whatever the
    grouping: an empty bucket adds nothing to either. *)
Lemma md_count_all_items (structure : Inventory.Structure) :
  md_count structure = length (all_items structure).
Proof.
  unfold md_count, all_items.
  rewrite (sum_list_fmap_Permutation _ _ _ (proj2 (md_dirs_sorted structure))).
  rewrite length_bind_sum. unfold Inventory.keys.
  rewrite <- list_fmap_compose.
  apply sum_list_fmap_ext_in. intros [d inner] Hin.
  apply elem_of_map_to_list in Hin. cbn [compose fst].
  assert (Hd : structure !!! d = inner).
  { unfold Inventory.Structure in *. rewrite lookup_total_alt, Hin. reflexivity. }
  rewrite Hd, (sum_list_fmap_Permutation _ _ _ (years_of_keys inner)).
  rewrite length_bind_sum. unfold Inventory.keys.
  rewrite <- list_fmap_compose.
  apply sum_list_fmap_ext_in. intros [y vs] Hy.
  apply elem_of_map_to_list in Hy. cbn [compose fst snd].
  f_equal. exact (bucket_of_lookups structure d y inner vs Hin Hy).
Qed.

(** ** The rows among the Markdown lines *)

Lemma rev_onto_append (a b acc : string) :
  Py.rev_onto (a +:+ b) acc = Py.rev_onto b (Py.rev_onto a acc).
Proof.
  revert acc. induction a as [|x a IH]; intros acc.
  - now rewrite append_empty_l.
  - rewrite append_cons. cbn [Py.rev_onto]. apply IH.
Qed.

Lemma ends_newline_not_row (x : string) : Spec.is_table_row (x +:+ newline) = false.
Proof.
  unfold Spec.is_table_row, Py.endswith, Py.rev. rewrite rev_onto_append.
  reflexivity.
Qed.

Lemma ends_link_is_row (x : string) : Spec.is_table_row (x +:+ ") |") = true.
Proof.
  unfold Spec.is_table_row, Py.endswith, Py.rev. rewrite rev_onto_append.
  cbn [Py.rev_onto String.prefix].
  repeat (match goal with |- context [ascii_dec ?a ?b] =>
            destruct (ascii_dec a b); [|congruence] end).
  now destruct (Py.rev_onto x EmptyString).
Qed.

Lemma table_row_is_row (fp : Fs.Path) : Spec.is_table_row (Inventory.table_row fp) = true.
Proof.
  unfold Inventory.table_row, Inventory.github_link. cbn zeta.
  rewrite <- !append_assoc. rewrite append_assoc.
  change (")" +:+ " |") with ") |". apply ends_link_is_row.
Qed.

Lemma filter_rows_table (files : list Fs.Path) :
  List.filter Spec.is_table_row (Inventory.table_row <$> files) = Inventory.table_row <$> files.
Proof.
  induction files as [|fp files IH]; [reflexivity|].
  cbn [fmap list_fmap List.filter]. rewrite table_row_is_row. f_equal. exact IH.
Qed.

Lemma heading_not_row (a x : string) : Spec.is_table_row (a +:+ x +:+ newline) = false.
Proof. rewrite <- append_assoc. apply ends_newline_not_row. Qed.

Lemma rows_year_block (structure : Inventory.Structure) (d : string) (y : option Z) :
  length (List.filter Spec.is_table_row (md_year_block structure d y))
  = length (bucket structure d y).
Proof.
  unfold md_year_block. rewrite !List.filter_app, filter_rows_table.
  cbn [List.filter]. rewrite heading_not_row.
  change (List.filter Spec.is_table_row Inventory.table_head) with (@nil string).
  change (Spec.is_table_row EmptyString) with false.
  cbn [app]. rewrite app_nil_r, length_fmap. unfold md_files. apply sorted_length.
Qed.

Lemma sum_list_filter_zero {X : Type} (p : X -> bool) (f : X -> nat) (l : list X) :
  (forall x, p x = false -> f x = O) ->
  sum_list (f <$> List.filter p l) = sum_list (f <$> l).
Proof.
  intros Hz. induction l as [|x l IH]; [reflexivity|].
  cbn [List.filter]. destruct (p x) eqn:E; cbn [fmap list_fmap sum_list_with id].
  - f_equal. exact IH.
  - rewrite (Hz x E). exact IH.
Qed.

Lemma filter_bind_length {X Y : Type} (p : Y -> bool) (f : X -> list Y) (l : list X) :
  length (List.filter p (l ≫= f))
  = sum_list ((fun x => length (List.filter p (f x))) <$> l).
Proof.
  induction l as [|x l IH]; [reflexivity|].
  cbn [mbind list_bind fmap list_fmap sum_list_with id].
  now rewrite List.filter_app, length_app, IH.
Qed.

Lemma rows_dir_block (structure : Inventory.Structure) (d : string) :
  length (List.filter Spec.is_table_row (md_dir_block structure d))
  = sum_list ((fun y => length (bucket structure d y))
                <$> Inventory.years_of (structure !!! d)).
Proof.
  unfold md_dir_block. rewrite !List.filter_app.
  cbn [List.filter]. rewrite heading_not_row, ends_newline_not_row.
  cbn [app]. rewrite app_nil_r, filter_bind_length.
  rewrite (sum_list_fmap_ext_in _ (fun y => length (bucket structure d y)))
    by (intros y _; apply rows_year_block).
  unfold md_years. apply sum_list_filter_zero.
  intros y Hy. unfold md_files in Hy.
  rewrite <- (sorted_length Fs.path_cmp id).
  now destruct (Py.sorted Fs.path_cmp id (bucket structure d y)).
Qed.

(** The rows among the lines are as many as the counter says. *)
Lemma rows_layout (structure : Inventory.Structure) :
  length (List.filter Spec.is_table_row (md_layout structure)) = md_count structure.
Proof.
  unfold md_layout, md_count. rewrite List.filter_app.
  change (List.filter Spec.is_table_row Inventory.title_lines) with (@nil string).
  cbn [app]. rewrite filter_bind_length.
  apply sum_list_fmap_ext_in. intros d _. apply rows_dir_block.
Qed.

Lemma generate_markdown_inventory_summary (tree : list Fs.Entry)
    (extensions : option (gset string)) (output_file : option string) :
  List.last (Inventory.printed
               (Inventory.generate_markdown_inventory tree extensions output_file))
            EmptyString
  = "Success: "
      +:+ Py.str (Z.of_nat (snd (Inventory.render (Inventory.group_files tree extensions))))
      +:+ " files in "
      +:+ Py.str (Z.of_nat (size (Inventory.group_files tree extensions)))
      +:+ " top-level directories".
Proof.
  unfold Inventory.generate_markdown_inventory. cbn zeta.
  destruct (Inventory.render (Inventory.group_files tree extensions)) as [lines total].
  destruct output_file; reflexivity.
Qed.

(** ** The end of the Markdown document *)

Lemma rev_onto_acc (s acc : string) : Py.rev_onto s acc = Py.rev s +:+ acc.
Proof.
  unfold Py.rev. revert acc. induction s as [|c s IH]; intros acc.
  - now rewrite append_empty_l.
  - cbn [Py.rev_onto]. rewrite (IH (String c acc)), (IH (String c EmptyString)).
    now rewrite append_assoc, append_cons, append_empty_l.
Qed.

Lemma rev_append (a b : string) : Py.rev (a +:+ b) = Py.rev b +:+ Py.rev a.
Proof. unfold Py.rev at 1. now rewrite rev_onto_append, rev_onto_acc. Qed.

Lemma rev_cons (c : ascii) (s : string) :
  Py.rev (String c s) = Py.rev s +:+ String c EmptyString.
Proof. unfold Py.rev at 1. cbn [Py.rev_onto]. apply rev_onto_acc. Qed.

Lemma rev_involutive (s : string) : Py.rev (Py.rev s) = s.
Proof.
  induction s as [|c s IH]; [reflexivity|].
  rewrite rev_cons, rev_append, IH. reflexivity.
Qed.

(** [rstrip] takes the final newline off a text whose last character but
    one is not a blank. *)
Lemma rstrip_final_newline (p : string) (c : ascii) :
  Py.is_space c = false ->
  Py.rstrip (p +:+ String c EmptyString +:+ newline) = p +:+ String c EmptyString.
Proof.
  intros Hc. unfold Py.rstrip. rewrite rev_append.
  change (Py.rev (String c EmptyString +:+ newline))
    with (String (ascii_of_nat 10) (String c EmptyString)).
  rewrite !append_cons, append_empty_l. cbn [Py.lstrip].
  change (Py.is_space (ascii_of_nat 10)) with true. cbv iota. rewrite Hc.
  rewrite rev_cons, rev_involutive. reflexivity.
Qed.

Lemma join_snoc (sep : string) (init : list string) (x : string) :
  exists p, Py.join sep (init ++ [x]) = p +:+ x.
Proof.
  unfold Py.join. induction init as [|a init (p & IH)].
  - exists EmptyString. reflexivity.
  - exists (a +:+ sep +:+ p).
    change ((a :: init) ++ [x]) with (a :: (init ++ [x])).
    destruct (init ++ [x]) as [|b rest] eqn:E.
    + now destruct init.
    + cbn [String.concat]. cbn [String.concat] in IH. rewrite IH.
      now rewrite !append_assoc.
Qed.

(** The last line of the document is a rule or, without any directory, the
    last title line. *)
Lemma md_layout_last (structure : Inventory.Structure) :
  exists init body c,
    md_layout structure = init ++ [body +:+ String c EmptyString +:+ newline]
    /\ Py.is_space c = false.
Proof.
  unfold md_layout.
  destruct (md_dirs structure) as [|d ds _] using rev_ind.
  - exists ["# Snowden Archive – File Inventory" +:+ newline;
            "> Auto-generated • All paths are clickable on GitHub" +:+ newline],
      "## Directorie", "s"%char.
    split; reflexivity.
  - exists (Inventory.title_lines ++ (ds ≫= md_dir_block structure)
            ++ ["### " +:+ d +:+ newline]
            ++ (md_years structure d ≫= md_year_block structure d)),
      "--", "-"%char.
    split; [|reflexivity].
    rewrite bind_app. cbn [mbind list_bind]. rewrite app_nil_r.
    unfold md_dir_block. rewrite <- !app_assoc. reflexivity.
Qed.

(** The text returned is the lines joined by newlines: the stripping of
    trailing blanks takes off the newline of the last line, which is then
    put back. *)
Lemma generate_markdown_inventory_text (tree : list Fs.Entry)
    (extensions : option (gset string)) (output_file : option string) :
  Inventory.content (Inventory.generate_markdown_inventory tree extensions output_file)
  = Py.join newline (fst (Inventory.render (Inventory.group_files tree extensions))).
Proof.
  unfold Inventory.generate_markdown_inventory. cbn zeta.
  rewrite render_layout.
  replace (Inventory.content _)
    with (Py.rstrip (Py.join newline (md_layout (Inventory.group_files tree extensions)))
          +:+ newline) by (destruct output_file; reflexivity).
  cbn [fst].
  destruct (md_layout_last (Inventory.group_files tree extensions))
    as (init & body & c & -> & Hsp).
  destruct (join_snoc newline init (body +:+ String c EmptyString +:+ newline))
    as (p & ->).
  rewrite <- (append_assoc p body (String c EmptyString +:+ newline)).
  rewrite rstrip_final_newline by exact Hsp.
  now rewrite !append_assoc.
Qed.

Lemma generate_markdown_inventory_written (tree : list Fs.Entry)
    (extensions : option (gset string)) (output_file : option string) :
  Inventory.written (Inventory.generate_markdown_inventory tree extensions output_file)
  = match output_file with
    | Some out =>
        Some (out, Inventory.content
                     (Inventory.generate_markdown_inventory tree extensions output_file))
    | None => None
    end.
Proof.
  unfold Inventory.generate_markdown_inventory. cbn zeta.
  destruct (Inventory.render (Inventory.group_files tree extensions)) as [lines total].
  destruct output_file; reflexivity.
Qed.

(** ** C8: the reported total *)

(** C8. The total in the summary line of the Markdown generator is the
    number of files of the walk that pass the filters, and it is the number
    of table rows among the lines of the document; the text the generator
    returns, and writes to the output file when one is given, is these lines
    joined by newlines.  For the tree [A/2010/x.pdf], [A/2010/y.pdf],
    [B/z.pdf] without extension filter the document has a table of two rows
    under [A], [2010] and one of one row under [B], [No Year Folder], it is
    the text written, and the summary reports 3 files in 2 directories.
    The counter agrees with the rows for any grouping at all, since an
    empty bucket adds nothing to it. *)
Theorem C8_total_is_number_of_files :
  (forall (tree : list Fs.Entry) (extensions : option (gset string))
          (output_file : option string),
      let structure := Inventory.group_files tree extensions in
      let lines := fst (Inventory.render structure) in
      let total := snd (Inventory.render structure) in
      let r := Inventory.generate_markdown_inventory tree extensions output_file in
      total = length (Spec.enumerated extensions tree)
      /\ total = length (List.filter Spec.is_table_row lines)
      /\ Inventory.content r = Py.join newline lines
      /\ Inventory.written r
         = match output_file with
           | Some out => Some (out, Py.join newline lines)
           | None => None
           end
      /\ List.last (Inventory.printed r) EmptyString
         = "Success: " +:+ Py.str (Z.of_nat total) +:+ " files in "
             +:+ Py.str (Z.of_nat (size structure)) +:+ " top-level directories")
  /\ (forall structure : Inventory.Structure,
         snd (Inventory.render structure) = length (all_items structure)
         /\ snd (Inventory.render structure)
            = length (List.filter Spec.is_table_row (fst (Inventory.render structure))))
  /\ (let tree :=
        [Fs.mkEntry ["A"] false; Fs.mkEntry ["A"; "2010"] false;
         Fs.mkEntry ["A"; "2010"; "x.pdf"] true; Fs.mkEntry ["A"; "2010"; "y.pdf"] true;
         Fs.mkEntry ["B"] false; Fs.mkEntry ["B"; "z.pdf"] true] in
      let lines :=
        Inventory.title_lines
        ++ ["### A" +:+ newline; "#### 2010" +:+ newline]
        ++ Inventory.table_head
        ++ ["| x.pdf | [A/2010/x.pdf](A/2010/x.pdf) |";
            "| y.pdf | [A/2010/y.pdf](A/2010/y.pdf) |";
            EmptyString; "---" +:+ newline;
            "### B" +:+ newline; "#### No Year Folder" +:+ newline]
        ++ Inventory.table_head
        ++ ["| z.pdf | [B/z.pdf](B/z.pdf) |"; EmptyString; "---" +:+ newline] in
      Inventory.render (Inventory.group_files tree None) = (lines, 3%nat)
      /\ List.filter Spec.is_table_row lines
         = ["| x.pdf | [A/2010/x.pdf](A/2010/x.pdf) |";
            "| y.pdf | [A/2010/y.pdf](A/2010/y.pdf) |";
            "| z.pdf | [B/z.pdf](B/z.pdf) |"]
      /\ Inventory.generate_markdown_inventory tree None (Some "INVENTORY.md")
         = Inventory.mkOutcome (Py.join newline lines)
             (Some ("INVENTORY.md", Py.join newline lines))
             ["Success: GitHub-ready inventory saved → INVENTORY.md";
              "Success: 3 files in 2 top-level directories"]
      /\ Inventory.printed (Inventory.generate_markdown_inventory tree None None)
         = ["Success: 3 files in 2 top-level directories"]).
Proof.
  split; [|split].
  - intros tree extensions output_file structure lines total r.
    subst lines total structure r.
    split; [|split; [|split; [|split]]].
    + rewrite render_layout. cbn [snd]. rewrite md_count_all_items.
      rewrite group_files_enumerated.
      now rewrite (all_items_group_by Spec.top_level Inventory.first_year).
    + rewrite render_layout. cbn [fst snd]. symmetry. apply rows_layout.
    + apply generate_markdown_inventory_text.
    + rewrite generate_markdown_inventory_written.
      now rewrite generate_markdown_inventory_text.
    + apply generate_markdown_inventory_summary.
  - intros structure. rewrite render_layout. cbn [fst snd].
    split; [apply md_count_all_items|]. symmetry. apply rows_layout.
  - repeat split; vm_compute; reflexivity.
Qed.

(** ** A run of the index generator, as a function of what it reads *)

Lemma generate_html_run (env : Index.Env) (pdf_entries : list Index.PdfEntry)
    (o : Index.Out) :
  pdf_entries <> [] ->
  Index.generate_html env pdf_entries (length pdf_entries) o =
    match Index.template env with
    | None => (Index.SysExit 1, Spec.printing o (Spec.closing_lines env pdf_entries))
    | Some t =>
        (Index.Return tt,
         Index.mkOut (Index.stdout o ++ Spec.closing_lines env pdf_entries)
           (Some (Index.fill t (length pdf_entries) (Index.content_of pdf_entries))))
    end.
Proof.
  intros Hne. destruct pdf_entries as [|e es]; [congruence|].
  unfold Index.generate_html, Spec.closing_lines.
  destruct (Index.template env) as [t|]; [|reflexivity].
  unfold Index.bind, Index.write_index, Index.print, Index.str_len. cbn.
  rewrite <- !app_assoc. reflexivity.
Qed.

Lemma finish_run (env : Index.Env) (pdf_entries : list Index.PdfEntry) (o : Index.Out) :
  match pdf_entries with
  | [] => Index.bind (Index.print "No PDF files found.") (fun _ => Index.sys_exit 1)
  | _ :: _ => Index.generate_html env pdf_entries (length pdf_entries)
  end o =
  match pdf_entries, Index.template env with
  | _ :: _, Some t =>
      (Index.Return tt,
       Index.mkOut (Index.stdout o ++ Spec.closing_lines env pdf_entries)
         (Some (Index.fill t (length pdf_entries) (Index.content_of pdf_entries))))
  | _, _ => (Index.SysExit 1, Spec.printing o (Spec.closing_lines env pdf_entries))
  end.
Proof.
  destruct pdf_entries as [|e es].
  - unfold Index.bind. rewrite print_printing. reflexivity.
  - rewrite generate_html_run by discriminate.
    destruct (Index.template env); reflexivity.
Qed.

(** The exit status, the lines printed and the file left by a run are
    given by what the run reads. *)
Lemma run_outcome (args : Index.Args) (env : Index.Env) (before : Index.Out) :
  Index.run args env before =
    (match Spec.written args env with Some _ => 0 | None => 1 end,
     Index.mkOut (Index.stdout before ++ Spec.run_lines args env)
       (match Spec.written args env with
        | Some text => Some text
        | None => Index.index_local_html before
        end)).
Proof.
  unfold Index.run, Index.main, Spec.written, Spec.run_lines, Spec.opening_lines,
    Spec.chosen_entries.
  destruct args as [hf fb]. cbn [Index.hf Index.fallback_local].
  unfold Index.bind at 1.
  destruct hf.
  - unfold Index.bind at 1. rewrite get_pdf_files_from_hf_run.
    destruct (Spec.remote_pdfs env) as [|f fs] eqn:Er.
    + destruct fb.
      * unfold Index.bind at 1. rewrite print_printing, scan_local_pdfs_run.
        rewrite !printing_printing, finish_run.
        destruct (Spec.local_entries env) as [|e es];
          [|destruct (Index.template env)];
          unfold Spec.printing; cbn; rewrite <- ?app_assoc; reflexivity.
      * unfold Index.bind at 1. rewrite print_printing, printing_printing.
        unfold Index.sys_exit, Spec.printing. cbn.
        rewrite ?app_nil_r, <- ?app_assoc. reflexivity.
    + unfold Index.ret. rewrite finish_run.
      cbn [fmap list_fmap].
      destruct (Index.template env);
        unfold Spec.printing; cbn; rewrite <- ?app_assoc; reflexivity.
  - rewrite scan_local_pdfs_run, finish_run.
    destruct (Spec.local_entries env) as [|e es];
      [|destruct (Index.template env)];
      unfold Spec.printing; cbn; rewrite <- ?app_assoc; reflexivity.
Qed.

(** ** Grouping a list and a rearrangement of it *)

Section GroupOrder.
Context {K1 K2 : Type} `{Countable K1} `{Countable K2} {V : Type}.
Context (k1 : V -> K1) (k2 : V -> K2).

Lemma lookup_total_lookup (m : gmap K1 (gmap K2 (list V))) (a : K1) (b : K2) :
  (m !!! a) !! b = m !! a ≫= (.!! b).
Proof.
  rewrite lookup_total_alt.
  destruct (m !! a) as [inner|] eqn:E; cbn; [reflexivity|].
  now rewrite lookup_empty.
Qed.

Lemma group_by_dom (l : list V) (a : K1) :
  is_Some (group_by k1 k2 l !! a) <-> exists v, v ∈ l /\ k1 v = a.
Proof.
  unfold group_by.
  assert (Hgen : forall m : gmap K1 (gmap K2 (list V)),
    is_Some (foldl (fun m v => add_to m (k1 v) (k2 v) v) m l !! a)
    <-> is_Some (m !! a) \/ exists v, v ∈ l /\ k1 v = a).
  { induction l as [|v l IH]; intros m; cbn [foldl].
    - split; [now left|]. intros [Hm | (v & Hv & _)]; [exact Hm|].
      now apply elem_of_nil in Hv.
    - rewrite IH. unfold add_to at 1. split.
      + intros [Hm | (w & Hw & Hk)].
        * destruct (decide (k1 v = a)) as [E|Hne].
          -- right. exists v. split; [apply list_elem_of_here|exact E].
          -- left. now rewrite lookup_insert_ne in Hm.
        * right. exists w. split; [now apply list_elem_of_further|exact Hk].
      + intros [Hm | (w & Hw & Hk)].
        * left. destruct (decide (k1 v = a)) as [E|Hne].
          -- rewrite E, lookup_insert_eq. eauto.
          -- now rewrite lookup_insert_ne.
        * apply elem_of_cons in Hw as [-> | Hw].
          -- left. rewrite Hk, lookup_insert_eq. eauto.
          -- right. exists w. now split. }
  rewrite Hgen, lookup_empty. split.
  - intros [[x Hx] | Hv]; [discriminate Hx|exact Hv].
  - intros Hv. now right.
Qed.

Lemma group_by_inner_dom (l : list V) (a : K1) (b : K2) :
  is_Some ((group_by k1 k2 l !!! a) !! b) <-> exists v, v ∈ l /\ k1 v = a /\ k2 v = b.
Proof.
  rewrite lookup_total_lookup. split.
  - intros Hs. apply is_Some_bind_lookup in Hs as (inner & E & Hb).
    exact (group_by_key_origin k1 k2 l a b inner E Hb).
  - intros (v & Hv & Ha & Hb).
    apply bucket_nonempty_is_Some. rewrite bucket_group_by.
    intros Hnil.
    assert (Hin : In v (List.filter (has_key k1 k2 a b) l)).
    { apply filter_In. split; [now apply list_elem_of_In|]. now apply has_key_true. }
    rewrite Hnil in Hin. exact Hin.
Qed.

Lemma group_by_Permutation (l l' : list V) :
  l ≡ₚ l' -> same_groups (group_by k1 k2 l) (group_by k1 k2 l').
Proof.
  intros Hp. split; [|split].
  - apply NoDup_Permutation; [apply keys_NoDup|apply keys_NoDup|].
    intros a. rewrite !elem_of_keys, !group_by_dom.
    split; intros (v & Hv & Hk); exists v; (split; [|exact Hk]).
    + now rewrite <- Hp.
    + now rewrite Hp.
  - intros a. apply NoDup_Permutation; [apply keys_NoDup|apply keys_NoDup|].
    intros b. rewrite !elem_of_keys, !group_by_inner_dom.
    split; intros (v & Hv & Hk); exists v; (split; [|exact Hk]).
    + now rewrite <- Hp.
    + now rewrite Hp.
  - intros a b. rewrite !bucket_group_by. now apply filter_Permutation.
Qed.

Lemma bucket_group_by_subset (l : list V) (a : K1) (b : K2) (v : V) :
  v ∈ bucket (group_by k1 k2 l) a b -> v ∈ l.
Proof.
  rewrite bucket_group_by, !list_elem_of_In, filter_In. tauto.
Qed.

End GroupOrder.

Lemma NoDup_fmap_inj_on {X Y : Type} (f : X -> Y) (l : list X) (a b : X) :
  NoDup (f <$> l) -> a ∈ l -> b ∈ l -> f a = f b -> a = b.
Proof.
  induction l as [|x l IH]; intros Hnd Ha Hb E.
  - now apply elem_of_nil in Ha.
  - cbn [fmap list_fmap] in Hnd. apply NoDup_cons in Hnd as [Hx Hnd].
    apply elem_of_cons in Ha as [-> | Ha]; apply elem_of_cons in Hb as [-> | Hb].
    + reflexivity.
    + exfalso. apply Hx. rewrite E. apply list_elem_of_fmap. now exists b.
    + exfalso. apply Hx. rewrite <- E. apply list_elem_of_fmap. now exists a.
    + now apply IH.
Qed.

(** ** The Markdown document of a rearranged walk *)

Lemma years_of_same_keys (year_groups year_groups' : gmap (option Z) (list Fs.Path)) :
  Inventory.keys year_groups ≡ₚ Inventory.keys year_groups' ->
  Inventory.years_of year_groups = Inventory.years_of year_groups'.
Proof.
  intros Hp. unfold Inventory.years_of. f_equal.
  - f_equal. apply (sorted_order_irrelevant Z.compare id).
    + intros a b _ _ E. exact E.
    + now rewrite Hp.
  - apply (f_equal (fun c : bool => if c then [None] else [])).
    apply bool_decide_ext. rewrite <- !elem_of_keys. now rewrite Hp.
Qed.

Lemma md_files_same_groups (structure structure' : Inventory.Structure)
    (d : string) (y : option Z) :
  same_groups structure structure' ->
  md_files structure d y = md_files structure' d y.
Proof.
  intros (_ & _ & Hb). unfold md_files.
  apply (sorted_order_irrelevant Fs.path_cmp id); [|apply Hb].
  intros a b _ _ E. exact E.
Qed.

Lemma md_years_same_groups (structure structure' : Inventory.Structure) (d : string) :
  same_groups structure structure' ->
  md_years structure d = md_years structure' d.
Proof.
  intros Hs. unfold md_years.
  rewrite (years_of_same_keys (structure !!! d) (structure' !!! d))
    by apply Hs.
  apply List.filter_ext. intros y. now rewrite (md_files_same_groups _ _ d y Hs).
Qed.

Lemma md_dirs_same_groups (structure structure' : Inventory.Structure) :
  same_groups structure structure' -> md_dirs structure = md_dirs structure'.
Proof.
  intros (Hk & _ & _). unfold md_dirs.
  apply (sorted_order_irrelevant Py.str_cmp id); [|exact Hk].
  intros a b _ _ E. exact E.
Qed.

Lemma md_layout_same_groups (structure structure' : Inventory.Structure) :
  same_groups structure structure' -> md_layout structure = md_layout structure'.
Proof.
  intros Hs. unfold md_layout. f_equal.
  rewrite (md_dirs_same_groups _ _ Hs).
  apply bind_ext_in. intros d _. unfold md_dir_block.
  rewrite (md_years_same_groups _ _ d Hs). do 2 f_equal.
  apply bind_ext_in. intros y _. unfold md_year_block.
  now rewrite (md_files_same_groups _ _ d y Hs).
Qed.

Lemma md_count_same_groups (structure structure' : Inventory.Structure) :
  same_groups structure structure' -> md_count structure = md_count structure'.
Proof.
  intros Hs. unfold md_count. rewrite (md_dirs_same_groups _ _ Hs).
  apply sum_list_fmap_ext_in. intros d _.
  rewrite (years_of_same_keys (structure !!! d) (structure' !!! d))
    by apply Hs.
  apply sum_list_fmap_ext_in. intros y _.
  destruct Hs as (_ & _ & Hb). apply Permutation_length, Hb.
Qed.

Lemma size_same_groups (structure structure' : Inventory.Structure) :
  same_groups structure structure' -> size structure = size structure'.
Proof.
  intros (Hk & _ & _). unfold Inventory.Structure in *.
  rewrite <- !length_map_to_list.
  rewrite <- (length_fmap fst (map_to_list structure)).
  rewrite <- (length_fmap fst (map_to_list structure')).
  apply Permutation_length, Hk.
Qed.

Lemma enumerated_Permutation (extensions : option (gset string)) (tree tree' : list Fs.Entry) :
  tree ≡ₚ tree' -> Spec.enumerated extensions tree ≡ₚ Spec.enumerated extensions tree'.
Proof.
  intros Hp. unfold Spec.enumerated. apply fmap_Permutation. now apply filter_Permutation.
Qed.

(** The outcome of the Markdown generator does not depend on the order in
    which the walk yields the files. *)
Lemma generate_markdown_inventory_order (tree tree' : list Fs.Entry)
    (extensions : option (gset string)) (output_file : option string) :
  tree ≡ₚ tree' ->
  Inventory.generate_markdown_inventory tree extensions output_file
  = Inventory.generate_markdown_inventory tree' extensions output_file.
Proof.
  intros Hp. unfold Inventory.generate_markdown_inventory. cbn zeta.
  assert (Hs : same_groups (Inventory.group_files tree extensions)
                           (Inventory.group_files tree' extensions)).
  { rewrite !group_files_enumerated. apply group_by_Permutation.
    now apply enumerated_Permutation. }
  rewrite !render_layout.
  rewrite (md_layout_same_groups _ _ Hs), (md_count_same_groups _ _ Hs),
    (size_same_groups _ _ Hs).
  reflexivity.
Qed.

(** ** The HTML fragment of a rearranged list of entries *)

Lemma html_years_of_same_keys (year_groups year_groups' : gmap Index.YearKey (list Index.PdfEntry)) :
  Inventory.keys year_groups ≡ₚ Inventory.keys year_groups' ->
  html_years_of year_groups = html_years_of year_groups'.
Proof.
  intros Hp. unfold html_years_of. f_equal.
  - f_equal. apply (sorted_order_irrelevant Z.compare id).
    + intros a b _ _ E. exact E.
    + now rewrite Hp.
  - apply (f_equal (fun c : bool => if c then [inr "no-year"] else [])).
    apply bool_decide_ext. rewrite <- !elem_of_keys. now rewrite Hp.
Qed.

Lemma html_layout_same_groups (grouped grouped' : Index.Grouped) :
  same_groups grouped grouped' ->
  (forall d y a b, a ∈ bucket grouped d y -> b ∈ bucket grouped d y ->
                   Py.lower (Index.path a) = Py.lower (Index.path b) -> a = b) ->
  html_layout grouped = html_layout grouped'.
Proof.
  intros Hs Hinj.
  assert (Hfiles : forall d y, html_files grouped d y = html_files grouped' d y).
  { intros d y. unfold html_files.
    apply (sorted_order_irrelevant Py.str_cmp (fun x => Py.lower (Index.path x))).
    - apply Hinj.
    - apply Hs. }
  unfold html_layout, html_dirs.
  assert (Hdirs : Py.sorted Py.str_cmp id (Inventory.keys grouped)
                  = Py.sorted Py.str_cmp id (Inventory.keys grouped')).
  { apply (sorted_order_irrelevant Py.str_cmp id); [|apply Hs].
    intros a b _ _ E. exact E. }
  rewrite Hdirs. apply bind_ext_in. intros d _. unfold html_dir_block, html_years.
  rewrite (html_years_of_same_keys (grouped !!! d) (grouped' !!! d)) by apply Hs.
  do 2 f_equal.
  apply bind_ext_in. intros y _. unfold html_year_block.
  now rewrite Hfiles.
Qed.

(** With pairwise distinct lower-cased paths, the fragment does not depend
    on the order of the entries. *)
Lemma content_of_order (pdf_entries pdf_entries' : list Index.PdfEntry) :
  pdf_entries ≡ₚ pdf_entries' ->
  NoDup ((fun x => Py.lower (Index.path x)) <$> pdf_entries) ->
  Index.content_of pdf_entries = Index.content_of pdf_entries'.
Proof.
  intros Hp Hnd. unfold Index.content_of. rewrite !group_entries_layout.
  f_equal. apply html_layout_same_groups.
  - rewrite !group_entries_group_by. now apply group_by_Permutation.
  - intros d y a b Ha Hb E. rewrite group_entries_group_by in Ha, Hb.
    apply bucket_group_by_subset in Ha, Hb.
    exact (NoDup_fmap_inj_on _ _ a b Hnd Ha Hb E).
Qed.

(** ** C9: determinism *)

(** C9. Both generators are functions of what they read.  The outcome of
    the Markdown generator (text, file written, lines printed) is the same
    for every order in which the walk yields the same entries.  The exit
    status of the index generator, the lines it prints and the text it
    writes to [index_local.html] are given by its arguments, the remote
    listing, the local walk and the template, whatever was printed or
    written before; so a second run leaves the file of the first.  The HTML
    fragment is the same for every order of the same entries when no two of
    them have the same path once lower-cased by [str.lower]; two such
    entries appear in the order they were given. *)
Theorem C9_generators_deterministic :
  (forall (tree tree' : list Fs.Entry) (extensions : option (gset string))
          (output_file : option string),
      tree ≡ₚ tree' ->
      Inventory.generate_markdown_inventory tree extensions output_file
      = Inventory.generate_markdown_inventory tree' extensions output_file)
  /\ (forall (args : Index.Args) (env : Index.Env) (before before' : Index.Out),
         let r := Index.run args env before in
         let r' := Index.run args env before' in
         fst r = fst r'
         /\ (fst r = 0 ->
             is_Some (Index.index_local_html (snd r))
             /\ Index.index_local_html (snd r) = Index.index_local_html (snd r'))
         /\ (fst r <> 0 -> Index.index_local_html (snd r) = Index.index_local_html before)
         /\ exists lines,
              Index.stdout (snd r) = Index.stdout before ++ lines
              /\ Index.stdout (snd r') = Index.stdout before' ++ lines)
  /\ (forall (args : Index.Args) (env : Index.Env) (before : Index.Out),
         let r := Index.run args env before in
         fst (Index.run args env (snd r)) = fst r
         /\ Index.index_local_html (snd (Index.run args env (snd r)))
            = Index.index_local_html (snd r))
  /\ (forall pdf_entries pdf_entries' : list Index.PdfEntry,
         pdf_entries ≡ₚ pdf_entries' ->
         NoDup ((fun x => Py.lower (Index.path x)) <$> pdf_entries) ->
         Index.content_of pdf_entries = Index.content_of pdf_entries')
  /\ Index.content_of [Index.mkPdf "A/x.pdf" "x.pdf" None; Index.mkPdf "A/X.pdf" "X.pdf" None]
     <> Index.content_of [Index.mkPdf "A/X.pdf" "X.pdf" None; Index.mkPdf "A/x.pdf" "x.pdf" None].
Proof.
  split; [|split; [|split; [|split]]].
  - apply generate_markdown_inventory_order.
  - intros args env before before' r r'. subst r r'.
    rewrite !run_outcome. cbn [fst snd Index.index_local_html Index.stdout].
    split; [reflexivity|]. split; [|split].
    + destruct (Spec.written args env) as [text|]; [|discriminate].
      intros _. split; [eauto|reflexivity].
    + destruct (Spec.written args env) as [text|]; [|reflexivity].
      intros Hne. now contradiction Hne.
    + exists (Spec.run_lines args env). now split.
  - intros args env before r. subst r.
    rewrite !run_outcome. cbn [fst snd Index.index_local_html Index.stdout].
    split; [reflexivity|].
    destruct (Spec.written args env); reflexivity.
  - apply content_of_order.
  - apply String.eqb_neq. vm_compute. reflexivity.
Qed.

(** The inventory written into the scanned directory is itself a file of
    the next walk: the default call, which writes [INVENTORY.md] into the
    directory it scans, renders a different text the second time. *)
Example inventory_lists_its_own_output :
  Inventory.content
    (Inventory.generate_markdown_inventory
       [Fs.mkEntry ["B"] false; Fs.mkEntry ["B"; "z.pdf"] true]
       None (Some "INVENTORY.md"))
  <> Inventory.content
       (Inventory.generate_markdown_inventory
          [Fs.mkEntry ["B"] false; Fs.mkEntry ["B"; "z.pdf"] true;
           Fs.mkEntry ["INVENTORY.md"] true]
          None (Some "INVENTORY.md")).
Proof. apply String.eqb_neq. vm_compute. reflexivity. Qed.

(* ===================================================================== *)
(** * Part III: further properties of the code                            *)
(* ===================================================================== *)

(** ** The year of a path, in both scripts *)

(** X1. Both scripts give every path the same year: the loop of
    [group_files] with its 999999 marker finds what [extract_year_from_path]
    finds, for every sequence of segments.  A year that is found lies in
    1900..2099; so the marker is never taken for a year, and the test
    [f["year"]] of [generate_html], false for 0, only fails for [None].
    The segments are any texts: the digits may be of any script, and what
    the pattern finds is read as [int] reads it. *)
Theorem X1_years_agree :
  forall parts : list string,
    Inventory.first_year parts = Index.extract_year_from_path parts
    /\ Forall (fun seg => 1900 <= Inventory.extract_year seg <= 2099
                          \/ Inventory.extract_year seg = 999999) parts
    /\ match Index.extract_year_from_path parts with
       | Some y =>
           1900 <= y <= 2099
           /\ (forall path name : string,
                 Index.year_key_of (Index.mkPdf path name (Some y)) = inl y)
       | None => True
       end.
Proof.
  induction parts as [|seg parts (IH1 & IH2 & IH3)].
  - repeat split. constructor.
  - cbn [Inventory.first_year Index.extract_year_from_path].
    unfold Inventory.extract_year in *.
    destruct (Re.search YEAR_PATTERN seg) as [m|] eqn:E.
    + pose proof (search_year_range seg m E) as Hr.
      replace (Py.int_value m =? 999999) with false by (symmetry; apply Z.eqb_neq; lia).
      cbn [negb]. split; [reflexivity|]. split.
      * constructor; [left; rewrite E; exact Hr|exact IH2].
      * split; [exact Hr|]. intros path name. unfold Index.year_key_of.
        cbn [Index.year].
        replace (Py.int_value m =? 0) with false by (symmetry; apply Z.eqb_neq; lia).
        reflexivity.
    + cbn [negb Z.eqb Pos.eqb]. split; [exact IH1|]. split; [|exact IH3].
      constructor; [right; now rewrite E|exact IH2].
Qed.

(** ** Percent-encoding *)

Lemma hex_digits_of_char (c : ascii) :
  Py.always_safe (Py.hex_digit (Py.ord c / 16)) = true
  /\ Py.always_safe (Py.hex_digit (Py.ord c mod 16)) = true
  /\ Spec.hex_value (Py.hex_digit (Py.ord c / 16)) = Some (Py.ord c / 16)%N
  /\ Spec.hex_value (Py.hex_digit (Py.ord c mod 16)) = Some (Py.ord c mod 16)%N
  /\ ascii_of_N (16 * (Py.ord c / 16) + Py.ord c mod 16) = c.
Proof.
  destruct c as [b0 b1 b2 b3 b4 b5 b6 b7].
  destruct b0, b1, b2, b3, b4, b5, b6, b7; vm_compute; repeat split.
Qed.

Lemma quote_cons (c : ascii) (s safe : string) :
  Py.quote (String c s) safe =
    if Py.always_safe c || Py.mem_char c safe then String c (Py.quote s safe)
    else String "%" (String (Py.hex_digit (Py.ord c / 16))
                       (String (Py.hex_digit (Py.ord c mod 16)) (Py.quote s safe))).
Proof. reflexivity. Qed.

(** The encoded text is made of unreserved characters, characters of
    [safe] and percent signs. *)
Lemma quote_chars (s safe : string) :
  Spec.all_chars (Spec.url_char safe) (Py.quote s safe) = true.
Proof.
  unfold Spec.all_chars.
  induction s as [|c s IH]; [reflexivity|].
  rewrite quote_cons.
  destruct (Py.always_safe c || Py.mem_char c safe) eqn:E.
  - cbn [list_ascii_of_string forallb]. rewrite IH, andb_true_r.
    unfold Spec.url_char. now rewrite E.
  - destruct (hex_digits_of_char c) as (H1 & H2 & _).
    cbn [list_ascii_of_string forallb]. rewrite IH, andb_true_r.
    unfold Spec.url_char. rewrite H1, H2.
    change (Ascii.eqb "%" "%") with true. rewrite orb_true_r. reflexivity.
Qed.

Lemma all_chars_mem (p : ascii -> bool) (s : string) (c : ascii) :
  Spec.all_chars p s = true -> p c = false -> Py.mem_char c s = false.
Proof.
  unfold Spec.all_chars. induction s as [|a s IH]; [reflexivity|].
  cbn [list_ascii_of_string forallb Py.mem_char].
  intros H Hc. apply andb_prop in H as [Ha H].
  rewrite (IH H Hc), orb_false_r.
  destruct (Ascii.eqb_spec c a) as [->|]; [congruence|reflexivity].
Qed.

(** A text without characters to encode is its own encoding. *)
Lemma quote_safe_text (s safe : string) :
  Spec.all_chars (fun c => Py.always_safe c || Py.mem_char c safe) s = true ->
  Py.quote s safe = s.
Proof.
  unfold Spec.all_chars. induction s as [|c s IH]; [reflexivity|].
  cbn [list_ascii_of_string forallb]. intros H. apply andb_prop in H as [Hc H].
  rewrite quote_cons, Hc, (IH H). reflexivity.
Qed.

Lemma unquote_quote (s safe : string) :
  Py.mem_char "%" safe = false -> Spec.unquote (Py.quote s safe) = s.
Proof.
  intros Hsafe. induction s as [|c s IH]; [reflexivity|].
  rewrite quote_cons.
  destruct (Py.always_safe c || Py.mem_char c safe) eqn:E.
  - cbn [Spec.unquote].
    destruct (Ascii.eqb_spec c "%") as [->|Hne].
    + cbn in E. rewrite Hsafe in E. discriminate E.
    + now rewrite IH.
  - destruct (hex_digits_of_char c) as (_ & _ & H3 & H4 & H5).
    cbn [Spec.unquote]. change (Ascii.eqb "%" "%") with true. cbv iota.
    rewrite H3, H4, H5, IH. reflexivity.
Qed.

Lemma quote_inj (s t safe : string) :
  Py.mem_char "%" safe = false -> Py.quote s safe = Py.quote t safe -> s = t.
Proof.
  intros Hsafe E.
  rewrite <- (unquote_quote s safe Hsafe), <- (unquote_quote t safe Hsafe).
  now rewrite E.
Qed.

Lemma quote_append (a b safe : string) :
  Py.quote (a +:+ b) safe = Py.quote a safe +:+ Py.quote b safe.
Proof.
  induction a as [|c a IH]; [now rewrite !append_empty_l|].
  rewrite append_cons, !quote_cons, IH.
  destruct (Py.always_safe c || Py.mem_char c safe); now rewrite !append_cons.
Qed.

Lemma append_inj_l (a x y : string) : a +:+ x = a +:+ y -> x = y.
Proof.
  induction a as [|c a IH]; [now rewrite !append_empty_l|].
  rewrite !append_cons. intros [= E]. now apply IH.
Qed.

(** X2. The target of a Markdown link is the percent-encoding of the
    path: it is made of letters, digits, [_.-~], slashes and percent signs
    only, so that no parenthesis, blank or vertical bar of a file name can
    end the link or the table cell; a path made of such characters is its
    own target. *)
Theorem X2_github_link_target :
  forall rel_path : Fs.Path,
    let target := Py.quote (Fs.as_posix rel_path) "/" in
    Inventory.github_link rel_path
      = "[" +:+ Fs.as_posix rel_path +:+ "](" +:+ target +:+ ")"
    /\ Spec.all_chars (Spec.url_char "/") target = true
    /\ Py.mem_char ")" target = false
    /\ Py.mem_char "(" target = false
    /\ Py.mem_char " " target = false
    /\ Py.mem_char "|" target = false
    /\ (Spec.all_chars (fun c => Py.always_safe c || Py.mem_char c "/")
          (Fs.as_posix rel_path) = true ->
        target = Fs.as_posix rel_path).
Proof.
  intros rel_path target. subst target.
  pose proof (quote_chars (Fs.as_posix rel_path) "/") as Hall.
  split; [reflexivity|]. split; [exact Hall|].
  repeat (split; [apply (all_chars_mem _ _ _ Hall); reflexivity|]).
  apply quote_safe_text.
Qed.

(** X3. The address of a row of the HTML index is the address of the
    dataset followed by the percent-encoding of the path of the file: it is
    made of letters, digits, [_.-~], colons, slashes and percent signs only,
    so that no quote, blank or angle bracket of a file name can end the
    [href] attribute. *)
Theorem X3_row_link_target :
  forall f : Index.PdfEntry,
    let link := Py.quote (Index.hf_url f) ":/" in
    Index.row_piece f
      = "          <tr><td><a href=" +:+ dquote +:+ link +:+ dquote
          +:+ " target=" +:+ dquote +:+ "_blank" +:+ dquote +:+ ">" +:+ Index.safe_name f
          +:+ "</a></td><td><code>" +:+ Index.path f +:+ "</code></td></tr>" +:+ newline
    /\ link = "https://huggingface.co/datasets/yukioitsuki/snowden_archived/resolve/main/"
                +:+ Py.quote (Index.path f) ":/"
    /\ Spec.all_chars (Spec.url_char ":/") link = true
    /\ Py.mem_char (ascii_of_nat 34) link = false
    /\ Py.mem_char " " link = false
    /\ Py.mem_char "<" link = false
    /\ Py.mem_char ">" link = false
    /\ Py.mem_char "&" link = false.
Proof.
  intros f link. subst link.
  pose proof (quote_chars (Index.hf_url f) ":/") as Hall.
  split; [reflexivity|]. split.
  - unfold Index.hf_url.
    rewrite <- append_assoc, quote_append. f_equal.
  - split; [exact Hall|].
    repeat split; apply (all_chars_mem _ _ _ Hall); reflexivity.
Qed.

(** X4. Percent-decoding gives back what was encoded, for the links of
    both generators; so two files with different paths never get the same
    link target. *)
Theorem X4_link_targets_decode :
  (forall rel_path : Fs.Path,
      Spec.unquote (Py.quote (Fs.as_posix rel_path) "/") = Fs.as_posix rel_path)
  /\ (forall f : Index.PdfEntry,
         Spec.unquote (Py.quote (Index.hf_url f) ":/") = Index.hf_url f)
  /\ (forall p q : Fs.Path,
         Py.quote (Fs.as_posix p) "/" = Py.quote (Fs.as_posix q) "/" ->
         Fs.as_posix p = Fs.as_posix q)
  /\ (forall f g : Index.PdfEntry,
         Py.quote (Index.hf_url f) ":/" = Py.quote (Index.hf_url g) ":/" ->
         Index.path f = Index.path g).
Proof.
  split; [|split; [|split]].
  - intros p. now apply unquote_quote.
  - intros f. now apply unquote_quote.
  - intros p q. now apply quote_inj.
  - intros f g E. apply quote_inj in E; [|reflexivity].
    unfold Index.hf_url in E. rewrite <- !append_assoc in E.
    exact (append_inj_l _ _ _ E).
Qed.

(** ** The text of the Markdown document *)

(** X5. The text of the inventory is its lines joined by newlines: the
    stripping of trailing blanks and the newline added after it cancel out,
    because the last line is a rule (or the last title line) that ends with
    a newline of its own.  So the text ends with one newline after a
    character that is not a blank, and this is the text written to the
    output file. *)
Theorem X5_inventory_text_is_joined_lines :
  forall (tree : list Fs.Entry) (extensions : option (gset string))
         (output_file : option string),
    let r := Inventory.generate_markdown_inventory tree extensions output_file in
    Inventory.content r
      = Py.join newline (fst (Inventory.render (Inventory.group_files tree extensions)))
    /\ (exists body c,
          Inventory.content r = body +:+ String c EmptyString +:+ newline
          /\ Py.is_space c = false)
    /\ Inventory.written r
       = match output_file with
         | Some out => Some (out, Inventory.content r)
         | None => None
         end.
Proof.
  intros tree extensions output_file r. subst r.
  assert (Hc : Inventory.content
                 (Inventory.generate_markdown_inventory tree extensions output_file)
               = Py.rstrip (Py.join newline
                   (fst (Inventory.render (Inventory.group_files tree extensions))))
                 +:+ newline).
  { unfold Inventory.generate_markdown_inventory. cbn zeta.
    destruct (Inventory.render (Inventory.group_files tree extensions)) as [lines total].
    destruct output_file; reflexivity. }
  assert (Hw : Inventory.written
                 (Inventory.generate_markdown_inventory tree extensions output_file)
               = match output_file with
                 | Some out =>
                     Some (out, Inventory.content
                                  (Inventory.generate_markdown_inventory tree extensions
                                     output_file))
                 | None => None
                 end).
  { unfold Inventory.generate_markdown_inventory. cbn zeta.
    destruct (Inventory.render (Inventory.group_files tree extensions)) as [lines total].
    destruct output_file; reflexivity. }
  assert (Hjoin : exists body c,
            Py.rstrip (Py.join newline
              (fst (Inventory.render (Inventory.group_files tree extensions)))) +:+ newline
            = Py.join newline
                (fst (Inventory.render (Inventory.group_files tree extensions)))
            /\ Py.join newline
                 (fst (Inventory.render (Inventory.group_files tree extensions)))
               = body +:+ String c EmptyString +:+ newline
            /\ Py.is_space c = false).
  { rewrite render_layout. cbn [fst].
    destruct (md_layout_last (Inventory.group_files tree extensions))
      as (init & body & c & -> & Hsp).
    destruct (join_snoc newline init (body +:+ String c EmptyString +:+ newline))
      as (p & ->).
    exists (p +:+ body), c.
    rewrite <- (append_assoc p body (String c EmptyString +:+ newline)).
    rewrite rstrip_final_newline by exact Hsp.
    split; [now rewrite !append_assoc|]. split; [reflexivity|exact Hsp]. }
  destruct Hjoin as (body & c & H1 & H2 & H3).
  split; [now rewrite Hc|]. split; [|exact Hw].
  exists body, c. split; [|exact H3]. now rewrite Hc, H1.
Qed.

(** ** The local scan *)

Lemma filter_length_le {X : Type} (p q : X -> bool) (l : list X) :
  (forall x, p x = true -> q x = true -> False) ->
  (length (List.filter p l) + length (List.filter q l) <= length l)%nat.
Proof.
  intros Hpq. induction l as [|x l IH]; [reflexivity|].
  cbn [List.filter]. specialize (Hpq x).
  destruct (p x), (q x); cbn [length]; first [lia | exfalso; now apply Hpq].
Qed.

(** X6. [scan_local_pdfs] never leaves through [sys.exit] and writes no
    file.  It returns, in the order of the walk, one entry for each path
    that matches [*.pdf], does not go through a [.files] folder and is a
    regular file; the number it reports as excluded counts the matching
    paths that go through [.files], directories included; and the two
    numbers printed add up to at most the number of matches.  The name of
    every entry ends with [.pdf] in lower case. *)
Theorem X6_local_scan :
  forall (env : Index.Env) (o : Index.Out),
    let matches := Index.rglob_pdf (Index.local_tree env) in
    let found :=
      List.filter (fun e => negb (Spec.in_dot_files e) && Fs.is_file e) matches in
    let entries := (fun e => Spec.local_entry (Fs.rel e)) <$> found in
    let excluded := length (List.filter Spec.in_dot_files matches) in
    Index.scan_local_pdfs env o =
      (Index.Return entries,
       Index.mkOut
         (Index.stdout o
          ++ ["Scanning local directory for PDF files (excluding .files folders)...";
              "Found " +:+ Py.str (Z.of_nat (length entries)) +:+ " local PDF files ("
                +:+ Py.str (Z.of_nat excluded) +:+ " excluded)"])
         (Index.index_local_html o))
    /\ (length entries + excluded <= length matches)%nat
    /\ Forall (fun f => Py.endswith (Index.name f) ".pdf" = true) entries.
Proof.
  intros env o matches found entries excluded.
  assert (Hscan : Spec.local_scan env = (entries, excluded)).
  { unfold Spec.local_scan. rewrite scan_fold. reflexivity. }
  split; [|split].
  - rewrite scan_local_pdfs_run.
    unfold Spec.local_lines, Spec.local_entries, Spec.printing, Index.str_len.
    rewrite Hscan. reflexivity.
  - subst entries excluded found. rewrite length_fmap.
    apply filter_length_le. intros e H1 H2. rewrite H2 in H1. discriminate H1.
  - subst entries found. apply Forall_forall. intros f Hf.
    apply list_elem_of_fmap in Hf as (e & -> & He).
    apply list_elem_of_In, filter_In in He as [He _].
    unfold matches, Index.rglob_pdf in He. apply filter_In in He as [_ He]. exact He.
Qed.

(** ** Paths as texts and as parts *)

Lemma mem_char_cons (c a : ascii) (s : string) :
  Py.mem_char c (String a s) = false -> Ascii.eqb a c = false /\ Py.mem_char c s = false.
Proof.
  cbn [Py.mem_char]. intros H. apply orb_false_elim in H as [H1 H2].
  split; [|exact H2]. now rewrite Ascii.eqb_sym.
Qed.

Lemma split_append (sep : ascii) (p rest : string) :
  Py.mem_char sep p = false ->
  Py.split sep (p +:+ String sep rest) = p :: Py.split sep rest.
Proof.
  induction p as [|a p IH]; intros Hp.
  - rewrite append_empty_l. cbn [Py.split]. now rewrite Ascii.eqb_refl.
  - apply mem_char_cons in Hp as [Ha Hp].
    rewrite append_cons. cbn [Py.split]. rewrite Ha, (IH Hp). reflexivity.
Qed.

Lemma split_no_sep (sep : ascii) (p : string) :
  Py.mem_char sep p = false -> Py.split sep p = [p].
Proof.
  induction p as [|a p IH]; intros Hp; [reflexivity|].
  apply mem_char_cons in Hp as [Ha Hp].
  cbn [Py.split]. rewrite Ha, (IH Hp). reflexivity.
Qed.

Lemma before_first_append (sep : ascii) (p rest : string) :
  Py.mem_char sep p = false ->
  Py.before_first sep (p +:+ String sep rest) = p.
Proof.
  induction p as [|a p IH]; intros Hp.
  - rewrite append_empty_l. cbn [Py.before_first]. now rewrite Ascii.eqb_refl.
  - apply mem_char_cons in Hp as [Ha Hp].
    rewrite append_cons. cbn [Py.before_first]. rewrite Ha, (IH Hp). reflexivity.
Qed.

Lemma before_first_no_sep (sep : ascii) (p : string) :
  Py.mem_char sep p = false -> Py.before_first sep p = p.
Proof.
  induction p as [|a p IH]; intros Hp; [reflexivity|].
  apply mem_char_cons in Hp as [Ha Hp].
  cbn [Py.before_first]. rewrite Ha, (IH Hp). reflexivity.
Qed.

Lemma join_cons_cons (sep p q : string) (ps : list string) :
  Py.join sep (p :: q :: ps) = p +:+ sep +:+ Py.join sep (q :: ps).
Proof. reflexivity. Qed.

Lemma proper_part_inv (p : string) :
  Spec.proper_part p = true ->
  p <> EmptyString /\ p <> "." /\ Py.mem_char "/" p = false.
Proof.
  unfold Spec.proper_part. intros H.
  apply andb_prop in H as [H H3]. apply andb_prop in H as [H1 H2].
  apply negb_true_iff in H1, H2, H3.
  apply String.eqb_neq in H1, H2. auto.
Qed.

Lemma split_join (parts : list string) :
  forallb Spec.proper_part parts = true -> parts <> [] ->
  Py.split "/" (Py.join "/" parts) = parts.
Proof.
  induction parts as [|p parts IH]; intros Hall Hne; [congruence|].
  cbn [forallb] in Hall. apply andb_prop in Hall as [Hp Hall].
  destruct (proper_part_inv p Hp) as (_ & _ & Hslash).
  destruct parts as [|q parts].
  - cbn [Py.join String.concat]. now apply split_no_sep.
  - rewrite join_cons_cons.
    change ("/" +:+ Py.join "/" (q :: parts)) with (String "/" (Py.join "/" (q :: parts))).
    rewrite split_append by exact Hslash. f_equal. now apply IH.
Qed.

Lemma filter_all {X : Type} (p : X -> bool) (l : list X) :
  forallb p l = true -> List.filter p l = l.
Proof.
  induction l as [|x l IH]; [reflexivity|].
  cbn [forallb List.filter]. intros H. apply andb_prop in H as [Hx H].
  now rewrite Hx, IH.
Qed.

Lemma components_join (parts : list string) :
  forallb Spec.proper_part parts = true ->
  Fs.components (Py.join "/" parts) = parts.
Proof.
  intros Hall. unfold Fs.components.
  destruct parts as [|p parts]; [reflexivity|].
  rewrite split_join by (exact Hall || discriminate).
  apply filter_all. rewrite forallb_forall in *. intros x Hx.
  specialize (Hall x Hx). unfold Spec.proper_part in Hall.
  apply andb_prop in Hall as [Hall _]. exact Hall.
Qed.

Lemma join_head (parts : list string) :
  forallb Spec.proper_part parts = true -> parts <> [] ->
  exists c rest, Py.join "/" parts = String c rest /\ c <> "/"%char.
Proof.
  intros Hall Hne. destruct parts as [|p parts]; [congruence|].
  cbn [forallb] in Hall. apply andb_prop in Hall as [Hp _].
  destruct (proper_part_inv p Hp) as (Hp1 & _ & Hslash).
  destruct p as [|c p]; [congruence|].
  apply mem_char_cons in Hslash as [Hc _]. apply Ascii.eqb_neq in Hc.
  destruct parts as [|q parts].
  - exists c, p. now split.
  - rewrite join_cons_cons, append_cons. eexists c, _. now split.
Qed.

Lemma root_of_join (parts : list string) :
  forallb Spec.proper_part parts = true -> Fs.root_of (Py.join "/" parts) = [].
Proof.
  intros Hall. destruct parts as [|p parts]; [reflexivity|].
  destruct (join_head (p :: parts) Hall) as (c & rest & -> & Hc); [discriminate|].
  unfold Fs.root_of, Py.startswith. cbn [String.prefix].
  destruct (ascii_dec "/" c) as [E|_]; [congruence|reflexivity].
Qed.

(** X7. A path given as text, as the remote listing gives it, and the same
    path given by its parts, as the local walk gives it, make the same entry:
    the parts of the joined text are the parts joined, the name is the last
    part, and the top-level directory [generate_html] takes from the text is
    the first part, the one the Markdown generator groups by. *)
Theorem X7_remote_entry_is_local_entry :
  forall parts : Fs.Path,
    forallb Spec.proper_part parts = true ->
    Fs.parts_of (Fs.as_posix parts) = parts
    /\ Fs.name_of (Fs.as_posix parts) = Fs.name parts
    /\ Index.entry_of_hf (Fs.as_posix parts) = Spec.local_entry parts
    /\ Index.top_dir_of (Spec.local_entry parts) = Spec.top_level parts.
Proof.
  intros parts Hall.
  assert (Hparts : Fs.parts_of (Fs.as_posix parts) = parts).
  { unfold Fs.parts_of, Fs.as_posix.
    now rewrite root_of_join, components_join. }
  assert (Hname : Fs.name_of (Fs.as_posix parts) = Fs.name parts).
  { unfold Fs.name_of, Fs.name, Fs.as_posix. now rewrite components_join. }
  split; [exact Hparts|]. split; [exact Hname|]. split.
  - unfold Index.entry_of_hf, Spec.local_entry. now rewrite Hparts, Hname.
  - unfold Index.top_dir_of, Spec.local_entry, Spec.top_level, Fs.as_posix.
    cbn [Index.path].
    destruct parts as [|p parts]; [reflexivity|].
    cbn [forallb] in Hall. apply andb_prop in Hall as [Hp _].
    destruct (proper_part_inv p Hp) as (_ & _ & Hslash).
    destruct parts as [|q parts]; cbn [hd].
    + cbn [Py.join String.concat]. now apply before_first_no_sep.
    + rewrite join_cons_cons.
      change ("/" +:+ Py.join "/" (q :: parts)) with (String "/" (Py.join "/" (q :: parts))).
      now apply before_first_append.
Qed.

(** ** The remote listing of the local files *)

Lemma prefix_append (p z : string) : String.prefix p (p +:+ z) = true.
Proof.
  induction p as [|a p IH].
  - rewrite append_empty_l. now destruct z.
  - rewrite append_cons. cbn [String.prefix].
    destruct (ascii_dec a a); [exact IH|congruence].
Qed.

Lemma prefix_exists (p s : string) :
  String.prefix p s = true -> exists z, s = p +:+ z.
Proof.
  revert s. induction p as [|a p IH]; intros s H.
  - exists s. now rewrite append_empty_l.
  - destruct s as [|b s]; cbn [String.prefix] in H; [discriminate|].
    destruct (ascii_dec a b) as [->|]; [|discriminate].
    destruct (IH s H) as (z & ->). exists z. now rewrite append_cons.
Qed.

Lemma endswith_append (y s : string) : Py.endswith (y +:+ s) s = true.
Proof. unfold Py.endswith. rewrite rev_append. apply prefix_append. Qed.

Lemma endswith_exists (x s : string) :
  Py.endswith x s = true -> exists y, x = y +:+ s.
Proof.
  unfold Py.endswith. intros H. apply prefix_exists in H as (z & Hz).
  exists (Py.rev z).
  rewrite <- (rev_involutive x), Hz, rev_append, rev_involutive. reflexivity.
Qed.

Lemma ascii_lower_append (a b : string) :
  Py.ascii_lower (a +:+ b) = Py.ascii_lower a +:+ Py.ascii_lower b.
Proof.
  induction a as [|c a IH]; [now rewrite !append_empty_l|].
  rewrite append_cons. cbn [Py.ascii_lower]. now rewrite IH, append_cons.
Qed.

(** Lower-casing leaves an ASCII end of a text to the lower-casing of
    ASCII, whatever comes before it. *)
Lemma lower_suffix (s t : string) :
  Py.is_ascii t = true -> exists s', Py.lower (s +:+ t) = s' +:+ Py.ascii_lower t.
Proof. apply Py.uni_lower_suffix. Qed.

(** The text of a path whose name ends with [.pdf] ends with [.pdf], also
    after lower-casing. *)
Lemma as_posix_pdf (parts : Fs.Path) :
  Py.endswith (Fs.name parts) ".pdf" = true ->
  Py.endswith (Py.lower (Fs.as_posix parts)) ".pdf" = true.
Proof.
  unfold Fs.name, Fs.as_posix.
  destruct parts as [|x init _] using rev_ind; [discriminate|].
  rewrite last_last. intros H. apply endswith_exists in H as (y & ->).
  destruct (join_snoc "/" init (y +:+ ".pdf")) as (p & ->).
  rewrite <- append_assoc.
  destruct (lower_suffix (p +:+ y) ".pdf" eq_refl) as (s' & ->).
  change (Py.ascii_lower ".pdf") with ".pdf". apply endswith_append.
Qed.

Lemma entry_of_hf_as_posix (parts : Fs.Path) :
  forallb Spec.proper_part parts = true ->
  Index.entry_of_hf (Fs.as_posix parts) = Spec.local_entry parts.
Proof.
  intros Hall. unfold Index.entry_of_hf, Spec.local_entry, Fs.parts_of, Fs.name_of,
    Fs.name, Fs.as_posix.
  now rewrite root_of_join, components_join.
Qed.

(** X8. When the remote listing holds the paths of the local files, the
    run on the listing and the run on the local walk end with the same exit
    status and leave the same [index_local.html].  The local files are here
    the paths matching [*.pdf]: all of them regular files, none through a
    [.files] folder. *)
Theorem X8_remote_run_is_local_run :
  forall (env : Index.Env) (fb : bool) (before : Index.Out),
    forallb (fun e => Fs.is_file e && negb (Spec.in_dot_files e)
                      && forallb Spec.proper_part (Fs.rel e))
            (Index.rglob_pdf (Index.local_tree env)) = true ->
    Index.hf_listing env
      = inr ((fun e => Fs.as_posix (Fs.rel e)) <$> Index.rglob_pdf (Index.local_tree env)) ->
    fst (Index.run (Index.mkArgs true fb) env before)
      = fst (Index.run (Index.mkArgs false fb) env before)
    /\ Index.index_local_html (snd (Index.run (Index.mkArgs true fb) env before))
       = Index.index_local_html (snd (Index.run (Index.mkArgs false fb) env before)).
Proof.
  intros env fb before Hall Hlisting.
  set (matches := Index.rglob_pdf (Index.local_tree env)) in *.
  assert (Hlocal : Spec.local_entries env
                   = (fun e => Spec.local_entry (Fs.rel e)) <$> matches).
  { unfold Spec.local_entries, Spec.local_scan. fold matches. rewrite scan_fold.
    cbn [fst app]. f_equal. apply filter_all.
    rewrite forallb_forall in *. intros e He. specialize (Hall e He).
    apply andb_prop in Hall as [Hall _]. apply andb_prop in Hall as [H1 H2].
    now rewrite H1, H2. }
  assert (Hremote : Spec.remote_pdfs env = (fun e => Fs.as_posix (Fs.rel e)) <$> matches).
  { unfold Spec.remote_pdfs. rewrite Hlisting. apply filter_all.
    apply forallb_forall. intros f Hf.
    apply list_elem_of_In, list_elem_of_fmap in Hf as (e & -> & He).
    apply as_posix_pdf.
    apply list_elem_of_In in He. unfold matches, Index.rglob_pdf in He.
    now apply filter_In in He as [_ He]. }
  assert (Hentries : Index.entry_of_hf <$> Spec.remote_pdfs env = Spec.local_entries env).
  { rewrite Hremote, Hlocal, <- list_fmap_compose.
    apply list_fmap_ext. intros i e Hi. cbn [compose].
    apply list_elem_of_lookup_2, list_elem_of_In in Hi.
    rewrite forallb_forall in Hall. specialize (Hall e Hi).
    apply andb_prop in Hall as [_ Hp].
    exact (entry_of_hf_as_posix (Fs.rel e) Hp). }
  assert (Hwritten : Spec.written (Index.mkArgs true fb) env
                     = Spec.written (Index.mkArgs false fb) env).
  { unfold Spec.written, Spec.chosen_entries. cbn [Index.hf Index.fallback_local].
    rewrite <- Hentries.
    destruct (Spec.remote_pdfs env) as [|f fs]; [|reflexivity].
    cbn [fmap list_fmap]. now destruct fb. }
  rewrite !run_outcome. cbn [fst snd Index.index_local_html].
  now rewrite Hwritten.
Qed.

(** ** [replace] and the template *)

Lemma occurs_cons (old : string) (c : ascii) (s : string) :
  Spec.occurs old (String c s) = String.prefix old (String c s) || Spec.occurs old s.
Proof. reflexivity. Qed.

Lemma replace_from_absent (old new s : string) :
  Spec.occurs old s = false -> Py.replace_from old new O s = s.
Proof.
  induction s as [|c s IH]; [reflexivity|].
  rewrite occurs_cons. intros H. apply orb_false_elim in H as [Hp Hs].
  cbn [Py.replace_from]. rewrite Hp, (IH Hs). reflexivity.
Qed.

Lemma replace_absent (s old new : string) :
  old <> EmptyString -> Spec.occurs old s = false -> Py.replace s old new = s.
Proof.
  intros Hne H. destruct old as [|a old]; [congruence|].
  unfold Py.replace. now apply replace_from_absent.
Qed.

Lemma replace_from_skip (old new x b : string) :
  Py.replace_from old new (String.length x) (x +:+ b) = Py.replace_from old new O b.
Proof.
  induction x as [|c x IH].
  - now rewrite append_empty_l.
  - rewrite append_cons. cbn [String.length Py.replace_from]. exact IH.
Qed.

(** [replace] puts [new] in the place of the first occurrence of [old] and
    goes on after it. *)
Lemma replace_first (old new a b : string) :
  old <> EmptyString ->
  Spec.starts_before old (a +:+ old +:+ b) (String.length a) = false ->
  Py.replace (a +:+ old +:+ b) old new = a +:+ new +:+ Py.replace b old new.
Proof.
  intros Hne. destruct old as [|a0 old]; [congruence|]. unfold Py.replace.
  induction a as [|c a IH]; intros H.
  - assert (Hp : String.prefix (String a0 old) (String a0 (old +:+ b)) = true)
      by (rewrite <- append_cons; apply prefix_append).
    rewrite !append_empty_l, append_cons. cbn [Py.replace_from].
    rewrite Hp. cbn [String.length Nat.pred].
    now rewrite replace_from_skip.
  - rewrite !append_cons in *. cbn [String.length Spec.starts_before] in H.
    apply orb_false_elim in H as [Hp H].
    cbn [Py.replace_from]. rewrite Hp, (IH H). reflexivity.
Qed.

(** X9. A template that holds neither marker is written back as it is:
    the call returns, the success lines are printed, and the fragment and
    the total appear nowhere in [index_local.html]. *)
Theorem X9_template_without_markers :
  forall (env : Index.Env) (t : string) (pdf_entries : list Index.PdfEntry)
         (total_files : nat) (o : Index.Out),
    Index.template env = Some t ->
    Spec.occurs "{TOTAL_FILES}" t = false ->
    Spec.occurs "<!-- INJECTED_CONTENT -->" t = false ->
    Index.fill t total_files (Index.content_of pdf_entries) = t
    /\ fst (Index.generate_html env pdf_entries total_files o) = Index.Return tt
    /\ Index.index_local_html (snd (Index.generate_html env pdf_entries total_files o))
       = Some t.
Proof.
  intros env t pdf_entries total_files o Ht H1 H2.
  assert (Hfill : Index.fill t total_files (Index.content_of pdf_entries) = t).
  { unfold Index.fill. rewrite (replace_absent t) by (discriminate || exact H1).
    now apply replace_absent. }
  split; [exact Hfill|].
  destruct (generate_html_template env pdf_entries total_files o t Ht) as (lines & ->).
  cbn [fst snd Index.index_local_html]. now rewrite Hfill.
Qed.

(** X10. In a template without the total marker and with the content
    marker at one place only, the fragment takes the place of the marker,
    character for character, and the rest of the template is kept. *)
Theorem X10_template_content_spliced :
  forall (a b : string) (total_files : nat) (content : string),
    Spec.occurs "{TOTAL_FILES}" (a +:+ "<!-- INJECTED_CONTENT -->" +:+ b) = false ->
    Spec.starts_before "<!-- INJECTED_CONTENT -->"
      (a +:+ "<!-- INJECTED_CONTENT -->" +:+ b) (String.length a) = false ->
    Spec.occurs "<!-- INJECTED_CONTENT -->" b = false ->
    Index.fill (a +:+ "<!-- INJECTED_CONTENT -->" +:+ b) total_files content
      = a +:+ content +:+ b.
Proof.
  intros a b total_files content H1 H2 H3. unfold Index.fill.
  rewrite (replace_absent _ "{TOTAL_FILES}") by (discriminate || exact H1).
  rewrite replace_first by (discriminate || exact H2).
  rewrite (replace_absent b) by (discriminate || exact H3). reflexivity.
Qed.

(** ** The extension filter of the inventory *)

Lemma lower_char_facts (c : ascii) :
  Py.lower_char (Py.lower_char c) = Py.lower_char c
  /\ Ascii.eqb (Py.lower_char c) "." = Ascii.eqb c "."
  /\ (Py.ord (Py.lower_char c) <? 128)%N = (Py.ord c <? 128)%N.
Proof.
  destruct c as [b0 b1 b2 b3 b4 b5 b6 b7].
  destruct b0, b1, b2, b3, b4, b5, b6, b7; vm_compute; repeat split; reflexivity.
Qed.

Lemma ascii_lower_idem (s : string) : Py.ascii_lower (Py.ascii_lower s) = Py.ascii_lower s.
Proof.
  induction s as [|c s IH]; [reflexivity|].
  cbn [Py.ascii_lower]. now rewrite (proj1 (lower_char_facts c)), IH.
Qed.

Lemma ascii_lower_ascii (s : string) : Py.is_ascii (Py.ascii_lower s) = Py.is_ascii s.
Proof.
  induction s as [|c s IH]; [reflexivity|].
  cbn [Py.ascii_lower Py.is_ascii].
  now rewrite (proj2 (proj2 (lower_char_facts c))), IH.
Qed.

Lemma lower_ascii (s : string) : Py.is_ascii s = true -> Py.lower s = Py.ascii_lower s.
Proof. unfold Py.lower, Py.lower_with. now intros ->. Qed.


Lemma lower_dot (s : string) : Py.lower (String "." s) = String "." (Py.lower s).
Proof. apply (Py.uni_lower_dot s). Qed.

Lemma startswith_dot (s : string) :
  Py.startswith s "." = match s with String c _ => Ascii.eqb c "." | EmptyString => false end.
Proof.
  unfold Py.startswith. destruct s as [|c s]; [reflexivity|]. apply prefix_one_char.
Qed.

Lemma startswith_lower_dot (s : string) :
  Py.startswith (Py.lower s) "." = Py.startswith s ".".
Proof. apply Py.uni_lower_starts_dot. Qed.

Lemma normalise_ext_cases (ext : string) :
  Inventory.normalise_ext ext =
    if Py.startswith ext "." then Py.lower ext else String "." (Py.lower ext).
Proof.
  unfold Inventory.normalise_ext. rewrite startswith_lower_dot.
  destruct (Py.startswith ext "."); [reflexivity|].
  apply lower_dot.
Qed.

Lemma normalise_ext_dot (ext : string) :
  Py.startswith (Inventory.normalise_ext ext) "." = true.
Proof.
  rewrite normalise_ext_cases.
  destruct (Py.startswith ext ".") eqn:E; [|now rewrite startswith_dot].
  now rewrite startswith_lower_dot.
Qed.


(** *** The suffix of a name *)

Lemma from_last_dot_shape (s t : string) :
  Fs.from_last_dot s = Some t ->
  exists t', t = String "." t' /\ Py.mem_char "." t' = false.
Proof.
  revert t. induction s as [|c s IH]; intros t; cbn [Fs.from_last_dot]; [discriminate|].
  destruct (Fs.from_last_dot s) as [u|] eqn:E.
  - intros [= <-]. now apply IH.
  - destruct (Ascii.eqb_spec c ".") as [->|Hne]; [|discriminate].
    intros [= <-]. exists s. split; [reflexivity|].
    clear IH. induction s as [|a s IH]; [reflexivity|].
    cbn [Fs.from_last_dot] in E. cbn [Py.mem_char].
    destruct (Fs.from_last_dot s) as [u|]; [discriminate|].
    destruct (Ascii.eqb_spec a ".") as [->|Ha]; [discriminate|].
    rewrite IH by reflexivity.
    destruct (Ascii.eqb_spec "." a); [congruence|reflexivity].
Qed.

Lemma suffix_shape (p : Fs.Path) :
  Fs.suffix p = EmptyString
  \/ exists t, Fs.suffix p = String "." t /\ t <> EmptyString /\ Py.mem_char "." t = false.
Proof.
  unfold Fs.suffix. destruct (Fs.name p) as [|c rest]; [now left|].
  destruct (Fs.from_last_dot rest) as [t|] eqn:E; [|now left].
  destruct (from_last_dot_shape rest t E) as (t' & -> & Ht').
  destruct t' as [|a t']; [now left|].
  right. exists (String a t'). change (String.eqb (String "." (String a t')) ".") with false.
  repeat split; [discriminate|exact Ht'].
Qed.

Lemma extensions_set_mem (e : string) (es : list string) (x : string) :
  x ∈ (list_to_set (Inventory.normalise_ext <$> e :: es) : gset string)
  <-> x ∈ Inventory.normalise_ext <$> e :: es.
Proof. apply elem_of_list_to_set. Qed.

Lemma extensions_set_nonempty (e : string) (es : list string) :
  (list_to_set (Inventory.normalise_ext <$> e :: es) : gset string) <> ∅.
Proof.
  intros Hempty.
  assert (Hin : Inventory.normalise_ext e
                  ∈ (list_to_set (Inventory.normalise_ext <$> e :: es) : gset string)).
  { apply extensions_set_mem. cbn [fmap list_fmap]. apply list_elem_of_here. }
  rewrite Hempty in Hin. now apply not_elem_of_empty in Hin.
Qed.

Lemma filtered_out_extensions (e : string) (es : list string) (p : Fs.Path) :
  Inventory.filtered_out (Inventory.extensions_set (Some (e :: es))) p
  = negb (bool_decide (Py.lower (Fs.suffix p) ∈ Inventory.normalise_ext <$> e :: es)).
Proof.
  unfold Inventory.filtered_out, Inventory.extensions_set.
  rewrite (bool_decide_eq_false_2 _ (extensions_set_nonempty e es)). cbn [negb andb].
  f_equal. apply bool_decide_ext. apply extensions_set_mem.
Qed.

(** X12. With [--ext] given, a file is kept exactly when its suffix,
    lower-cased by [str.lower], is one of the normalised extensions; so the
    case of the suffix makes no difference.  A suffix is empty or a dot followed by
    characters other than the dot; and a file without suffix (no dot in its
    name, or only a leading or a final one) is dropped by every filter. *)
Theorem X12_extension_filter :
  forall (e : string) (es : list string) (p : Fs.Path),
    Inventory.filtered_out (Inventory.extensions_set (Some (e :: es))) p
      = negb (bool_decide (Py.lower (Fs.suffix p) ∈ Inventory.normalise_ext <$> e :: es))
    /\ (Fs.suffix p = EmptyString
        \/ exists t, Fs.suffix p = String "." t /\ t <> EmptyString
                     /\ Py.mem_char "." t = false)
    /\ (Fs.suffix p = EmptyString ->
        Inventory.filtered_out (Inventory.extensions_set (Some (e :: es))) p = true)
    /\ Inventory.filtered_out (Inventory.extensions_set (Some [])) p = false
    /\ Inventory.filtered_out (Inventory.extensions_set None) p = false.
Proof.
  intros e es p. split; [apply filtered_out_extensions|].
  split; [apply suffix_shape|]. split; [|split; reflexivity].
  intros Hs. rewrite filtered_out_extensions, Hs.
  change (Py.lower EmptyString) with EmptyString.
  apply negb_true_iff, bool_decide_eq_false. intros Hin.
  apply list_elem_of_fmap in Hin as (x & Hx & _).
  pose proof (normalise_ext_dot x) as Hdot. rewrite <- Hx in Hdot. discriminate Hdot.
Qed.

(** ** [main] of the inventory *)

Lemma extensions_set_ext (exts exts' : list string) :
  (forall x, x ∈ Inventory.normalise_ext <$> exts <-> x ∈ Inventory.normalise_ext <$> exts') ->
  Inventory.extensions_set (Some exts) = Inventory.extensions_set (Some exts').
Proof.
  intros Hsame. destruct exts as [|e es], exts' as [|e' es']; cbn [Inventory.extensions_set].
  - reflexivity.
  - exfalso. apply (not_elem_of_nil (Inventory.normalise_ext e')).
    apply Hsame. cbn [fmap list_fmap]. apply list_elem_of_here.
  - exfalso. apply (not_elem_of_nil (Inventory.normalise_ext e)).
    apply Hsame. cbn [fmap list_fmap]. apply list_elem_of_here.
  - f_equal. apply leibniz_equiv. intros x.
    rewrite !elem_of_list_to_set. apply Hsame.
Qed.

(** X13. What [main] does depends on the [--ext] values only through the
    set of their normal forms: their order, repetitions, letter case and
    leading dots change neither the file written nor a line printed. *)
Theorem X13_ext_spelling_is_irrelevant :
  forall (exts exts' : list string) (out : string) (env : Inventory.Env),
    (forall x, x ∈ Inventory.normalise_ext <$> exts
               <-> x ∈ Inventory.normalise_ext <$> exts') ->
    Inventory.main (Inventory.mkArgs (Some exts) out) env
    = Inventory.main (Inventory.mkArgs (Some exts') out) env.
Proof.
  intros exts exts' out env Hsame. unfold Inventory.main.
  cbn [Inventory.extensions Inventory.output].
  now rewrite (extensions_set_ext exts exts' Hsame).
Qed.

Lemma group_by_size {K1 K2 V : Type} `{Countable K1} `{Countable K2}
    (k1 : V -> K1) (k2 : V -> K2) (l : list V) :
  size (group_by k1 k2 l) = size (list_to_set (k1 <$> l) : gset K1).
Proof.
  rewrite <- size_dom. f_equal. apply leibniz_equiv. intros a.
  rewrite elem_of_dom, (group_by_dom k1 k2), elem_of_list_to_set, list_elem_of_fmap.
  split; intros (v & H1 & H2); exists v; auto.
Qed.

Lemma sorted_extensions_spec (s : gset string) :
  StronglySorted Spec.text_before (Inventory.sorted_extensions s)
  /\ (forall x, x ∈ Inventory.sorted_extensions s <-> x ∈ s).
Proof.
  unfold Inventory.sorted_extensions. split.
  - apply (sorted_strict Py.str_cmp id). rewrite list_fmap_id. apply NoDup_elements.
  - intros x. rewrite (sorted_Permutation Py.str_cmp id). apply elem_of_elements.
Qed.

Lemma generate_markdown_inventory_printed (tree : list Fs.Entry)
    (extensions : option (gset string)) (out : string) :
  Inventory.printed (Inventory.generate_markdown_inventory tree extensions (Some out))
  = ["Success: GitHub-ready inventory saved → " +:+ out;
     "Success: " +:+ Py.str (Z.of_nat (length (Spec.enumerated extensions tree)))
       +:+ " files in "
       +:+ Py.str (Z.of_nat (size (list_to_set
                                     (Spec.top_level <$> Spec.enumerated extensions tree)
                                   : gset string)))
       +:+ " top-level directories"]
  /\ Inventory.written (Inventory.generate_markdown_inventory tree extensions (Some out))
     = Some (out, Inventory.content
                    (Inventory.generate_markdown_inventory tree extensions (Some out))).
Proof.
  unfold Inventory.generate_markdown_inventory. cbn zeta.
  rewrite render_layout, md_count_all_items, group_files_enumerated.
  rewrite (Permutation_length (all_items_group_by Spec.top_level Inventory.first_year _)).
  unfold Inventory.Structure.
  rewrite (group_by_size Spec.top_level Inventory.first_year).
  split; reflexivity.
Qed.

(** X14. On an existing directory [main] writes one file, at the path
    given with [--output], holding the text of the inventory.  It prints the
    directory scanned, the filter in force (the normalised extensions, each
    once, in ascending order), the path of the file, the number of files
    kept, the number of different top-level names among them, and the two
    closing lines. *)
Theorem X14_main_report :
  forall (args : Inventory.Args) (env : Inventory.Env),
    Inventory.is_dir env = true ->
    let exts := Inventory.extensions_set (Inventory.extensions args) in
    let files := Spec.enumerated exts (Inventory.tree env) in
    Inventory.file (Inventory.main args env)
      = Some (Inventory.output args,
              Inventory.content
                (Inventory.generate_markdown_inventory (Inventory.tree env) exts
                   (Some (Inventory.output args))))
    /\ Inventory.lines (Inventory.main args env)
       = ["Scanning: " +:+ Inventory.root env]
         ++ match exts with
            | Some s => ["Only including: " +:+ Py.join ", " (Inventory.sorted_extensions s)]
            | None => []
            end
         ++ ["Success: GitHub-ready inventory saved → " +:+ Inventory.output args;
             "Success: " +:+ Py.str (Z.of_nat (length files)) +:+ " files in "
               +:+ Py.str (Z.of_nat (size (list_to_set (Spec.top_level <$> files)
                                           : gset string)))
               +:+ " top-level directories";
             newline +:+ "Finished! Commit '" +:+ Inventory.output args
               +:+ "' to your repository root.";
             "Every FilePath will now be a working link on GitHub."]
    /\ match exts with
       | Some s =>
           StronglySorted Spec.text_before (Inventory.sorted_extensions s)
           /\ (forall x, x ∈ Inventory.sorted_extensions s
                         <-> x ∈ Inventory.normalise_ext
                                   <$> default [] (Inventory.extensions args))
       | None => True
       end.
Proof.
  intros args env Hdir exts files. subst files.
  unfold Inventory.main. rewrite Hdir. cbn [negb Inventory.file Inventory.lines].
  fold exts.
  destruct (generate_markdown_inventory_printed (Inventory.tree env) exts
              (Inventory.output args)) as [Hp Hw].
  rewrite Hp, Hw. split; [reflexivity|].
  subst exts. destruct args as [[[|e es]|] out];
    cbn [Inventory.extensions Inventory.extensions_set Inventory.output default].
  - split; [reflexivity|exact I].
  - rewrite (bool_decide_eq_false_2 _ (extensions_set_nonempty e es)).
    split; [reflexivity|].
    destruct (sorted_extensions_spec (list_to_set (Inventory.normalise_ext <$> e :: es)))
      as [Hs Hm].
    split; [exact Hs|]. intros x. rewrite Hm. apply elem_of_list_to_set.
  - split; [reflexivity|exact I].
Qed.

(** ** Nothing to list *)

Lemma render_empty : Inventory.render ∅ = (Inventory.title_lines, O).
Proof.
  unfold Inventory.render, Inventory.keys, Inventory.Structure.
  rewrite map_to_list_empty. reflexivity.
Qed.

(** X15. When the walk holds no file that passes the filters, the
    Markdown generator still returns (and writes, when a path is given) a
    document: the three title lines and nothing else, and it reports 0 files
    in 0 directories. *)
Theorem X15_empty_inventory :
  forall (tree : list Fs.Entry) (extensions : option (gset string))
         (output_file : option string),
    Spec.enumerated extensions tree = [] ->
    let r := Inventory.generate_markdown_inventory tree extensions output_file in
    Inventory.content r = Py.join newline Inventory.title_lines
    /\ Inventory.written r
       = match output_file with
         | Some out => Some (out, Py.join newline Inventory.title_lines)
         | None => None
         end
    /\ List.last (Inventory.printed r) EmptyString
       = "Success: 0 files in 0 top-level directories".
Proof.
  intros tree extensions output_file Hnone r. subst r.
  unfold Inventory.generate_markdown_inventory. cbn zeta.
  rewrite group_files_enumerated, Hnone.
  change (group_by Spec.top_level Inventory.first_year []) with (∅ : Inventory.Structure).
  rewrite render_empty.
  assert (Hsize : size (∅ : Inventory.Structure) = O) by apply map_size_empty.
  rewrite Hsize.
  assert (Htext : Py.rstrip (Py.join newline Inventory.title_lines) +:+ newline
                  = Py.join newline Inventory.title_lines) by (vm_compute; reflexivity).
  rewrite Htext.
  destruct output_file; repeat split; reflexivity.
Qed.

(** X16. When the local scan finds no file, the index generator prints
    the two lines of the scan and [No PDF files found.], leaves with status
    1 and does not touch [index_local.html]; the template is not looked
    at. *)
Theorem X16_no_local_pdf :
  forall (env : Index.Env) (fb : bool) (before : Index.Out),
    List.filter (fun e => negb (Spec.in_dot_files e) && Fs.is_file e)
                (Index.rglob_pdf (Index.local_tree env)) = [] ->
    Index.run (Index.mkArgs false fb) env before
    = (1,
       Index.mkOut
         (Index.stdout before
          ++ ["Scanning local directory for PDF files (excluding .files folders)...";
              "Found 0 local PDF files ("
                +:+ Py.str (Z.of_nat (length (List.filter Spec.in_dot_files
                                                (Index.rglob_pdf (Index.local_tree env)))))
                +:+ " excluded)";
              "No PDF files found."])
         (Index.index_local_html before)).
Proof.
  intros env fb before Hnone.
  assert (Hscan : Spec.local_scan env
                  = ([], length (List.filter Spec.in_dot_files
                                   (Index.rglob_pdf (Index.local_tree env))))).
  { unfold Spec.local_scan. rewrite scan_fold, Hnone. reflexivity. }
  unfold Index.run. rewrite main_local.
  unfold Spec.local_lines, Spec.local_entries, Spec.printing, Index.str_len.
  rewrite Hscan. reflexivity.
Qed.

(** ** The numbers of the HTML index *)

Lemma bucket_nonempty_iff {K1 K2 V : Type} `{Countable K1} `{Countable K2}
    (k1 : V -> K1) (k2 : V -> K2) (l : list V) (a : K1) (b : K2) :
  bucket (group_by k1 k2 l) a b <> [] <-> is_Some ((group_by k1 k2 l !!! a) !! b).
Proof.
  rewrite lookup_total_lookup. split.
  - apply bucket_nonempty_is_Some.
  - intros Hs. apply is_Some_bind_lookup in Hs as (inner & E & [vs Hvs]).
    rewrite (bucket_of_lookups _ a b inner vs E Hvs).
    exact (group_by_buckets_nonempty k1 k2 l a b inner vs E Hvs).
Qed.

Lemma year_key_before_irrefl (y : Index.YearKey) : ~ Spec.year_key_before y y.
Proof. destruct y as [z|s]; cbn; [lia|tauto]. Qed.

Lemma html_years_keys (pdf_entries : list Index.PdfEntry) (d : string) :
  html_years (Index.group_entries pdf_entries) d
    ≡ₚ Inventory.keys (Index.group_entries pdf_entries !!! d).
Proof.
  apply NoDup_Permutation.
  - apply (StronglySorted_irrefl_NoDup _ _ year_key_before_irrefl).
    apply html_years_sorted.
  - apply keys_NoDup.
  - intros y. rewrite html_years_mem, elem_of_keys.
    rewrite group_entries_group_by.
    apply (bucket_nonempty_iff Index.top_dir_of Index.year_key_of).
Qed.

Lemma sum_buckets_all_items {K1 K2 V : Type} `{Countable K1} `{Countable K2}
    (m : gmap K1 (gmap K2 (list V))) (dirs : list K1) (years : K1 -> list K2) :
  dirs ≡ₚ Inventory.keys m ->
  (forall d, years d ≡ₚ Inventory.keys (m !!! d)) ->
  sum_list ((fun d => sum_list ((fun y => length (bucket m d y)) <$> years d)) <$> dirs)
  = length (all_items m).
Proof.
  intros Hdirs Hyears. unfold all_items.
  rewrite (sum_list_fmap_Permutation _ _ _ Hdirs).
  rewrite length_bind_sum. unfold Inventory.keys at 1.
  rewrite <- list_fmap_compose.
  apply sum_list_fmap_ext_in. intros [d inner] Hin.
  apply elem_of_map_to_list in Hin. cbn [compose fst].
  assert (Hd : m !!! d = inner) by (rewrite lookup_total_alt, Hin; reflexivity).
  rewrite (sum_list_fmap_Permutation _ _ _ (Hyears d)), Hd.
  rewrite length_bind_sum. unfold Inventory.keys.
  rewrite <- list_fmap_compose.
  apply sum_list_fmap_ext_in. intros [y vs] Hy.
  apply elem_of_map_to_list in Hy. cbn [compose fst snd].
  f_equal. exact (bucket_of_lookups m d y inner vs Hin Hy).
Qed.

Lemma filter_row_pieces (files : list Index.PdfEntry) :
  List.filter Spec.is_row_piece (Index.row_piece <$> files) = Index.row_piece <$> files.
Proof.
  induction files as [|f files IH]; [reflexivity|].
  cbn [fmap list_fmap List.filter].
  assert (Hrow : Spec.is_row_piece (Index.row_piece f) = true) by reflexivity.
  rewrite Hrow. f_equal. exact IH.
Qed.

Lemma rows_html_year_block (grouped : Index.Grouped) (d : string) (y : Index.YearKey) :
  length (List.filter Spec.is_row_piece (html_year_block grouped d y))
  = length (bucket grouped d y).
Proof.
  unfold html_year_block. rewrite !List.filter_app, filter_row_pieces.
  assert (Hhead : forall name files,
            Spec.is_row_piece (Index.year_header_piece name files) = false)
    by reflexivity.
  cbn [List.filter]. rewrite Hhead.
  change (Spec.is_row_piece ("    <div " +:+ Index.cls "year collapsed" +:+ ">" +:+ newline))
    with false.
  change (Spec.is_row_piece ("      <div " +:+ Index.cls "content" +:+ ">" +:+ newline))
    with false.
  change (Spec.is_row_piece
            ("        <div " +:+ Index.cls "table-wrapper"
             +:+ "><table><thead><tr><th>Document</th><th>Path</th></tr></thead><tbody>"
             +:+ newline)) with false.
  change (Spec.is_row_piece ("        </tbody></table></div>" +:+ newline)) with false.
  change (Spec.is_row_piece ("      </div></div>" +:+ newline)) with false.
  cbn [app]. rewrite app_nil_r, length_fmap. unfold html_files. apply sorted_length.
Qed.

Lemma rows_html_dir_block (grouped : Index.Grouped) (d : string) :
  length (List.filter Spec.is_row_piece (html_dir_block grouped d))
  = sum_list ((fun y => length (bucket grouped d y)) <$> html_years grouped d).
Proof.
  unfold html_dir_block. rewrite !List.filter_app.
  assert (Hhead : forall name, Spec.is_row_piece (Index.dir_header_piece name) = false)
    by reflexivity.
  cbn [List.filter]. rewrite Hhead.
  change (Spec.is_row_piece ("<div " +:+ Index.cls "directory collapsed" +:+ ">" +:+ newline))
    with false.
  change (Spec.is_row_piece ("  <div " +:+ Index.cls "content" +:+ ">" +:+ newline))
    with false.
  change (Spec.is_row_piece ("  </div></div>" +:+ newline)) with false.
  cbn [app]. rewrite app_nil_r, filter_bind_length.
  apply sum_list_fmap_ext_in. intros y _. apply rows_html_year_block.
Qed.

(** X17. The index has one table row for each entry given to
    [generate_html], and the numbers shown in the year headers add up to the
    number of entries: the number [main] passes as the total. *)
Theorem X17_index_rows_and_counts :
  forall pdf_entries : list Index.PdfEntry,
    let grouped := Index.group_entries pdf_entries in
    length (List.filter Spec.is_row_piece (Index.pieces grouped)) = length pdf_entries
    /\ sum_list ((fun d => sum_list ((fun y => length (bucket grouped d y))
                                       <$> html_years grouped d))
                   <$> html_dirs grouped)
       = length pdf_entries
    /\ Spec.html_outline (Index.pieces grouped)
       = html_dirs grouped ≫= (fun d =>
           inl (d +:+ Spec.dir_header_rest)
             :: ((fun y => inr (Index.display y
                                  +:+ Spec.year_header_rest (length (bucket grouped d y))))
                   <$> html_years grouped d)).
Proof.
  intros pdf_entries grouped. subst grouped.
  assert (Hsum : sum_list
            ((fun d => sum_list
                ((fun y => length (bucket (Index.group_entries pdf_entries) d y))
                   <$> html_years (Index.group_entries pdf_entries) d))
               <$> html_dirs (Index.group_entries pdf_entries))
            = length pdf_entries).
  { unfold Index.Grouped.
    rewrite (sum_buckets_all_items (Index.group_entries pdf_entries)).
    - rewrite group_entries_group_by.
      apply Permutation_length, all_items_group_by.
    - apply html_dirs_sorted.
    - intros d. apply html_years_keys. }
  split; [|split; [exact Hsum|]].
  - rewrite group_entries_layout. unfold html_layout.
    rewrite filter_bind_length, <- Hsum.
    apply sum_list_fmap_ext_in. intros d _. apply rows_html_dir_block.
  - rewrite group_entries_layout. apply html_outline_layout.
Qed.

(** ** Entries with the same sort key *)

Section Stability.
Context {A K : Type} `{EqDecision K} (cmp : K -> K -> comparison) `{!Py.CmpOrder cmp}.
Context (key : A -> K).

Lemma insert_sorted_same_key (k : K) (x : A) (l : list A) :
  List.filter (fun a => bool_decide (key a = k)) (Py.insert_sorted cmp key x l)
  = List.filter (fun a => bool_decide (key a = k)) (x :: l).
Proof.
  induction l as [|y l IH]; [reflexivity|].
  cbn [Py.insert_sorted]. unfold Py.lt_of.
  destruct (cmp (key y) (key x)) eqn:E; try reflexivity.
  assert (Hne : key y <> key x).
  { intros Heq. rewrite Heq, (Py.cmp_refl (cmp:=cmp)) in E. discriminate E. }
  cbn [List.filter] in *. rewrite IH.
  destruct (bool_decide_reflect (key y = k)) as [Hy|Hy];
    destruct (bool_decide_reflect (key x = k)) as [Hx|Hx]; try reflexivity.
  congruence.
Qed.

(** Sorting keeps the order of the items that have the same key. *)
Lemma sorted_same_key (k : K) (l : list A) :
  List.filter (fun a => bool_decide (key a = k)) (Py.sorted cmp key l)
  = List.filter (fun a => bool_decide (key a = k)) l.
Proof.
  induction l as [|x l IH]; [reflexivity|].
  cbn [Py.sorted]. rewrite insert_sorted_same_key. cbn [List.filter]. now rewrite IH.
Qed.

End Stability.

(** X18. In a table of the HTML index, the entries whose paths are the
    same up to letter case (they have the same image under [str.lower])
    stand in the order in which they were given to [generate_html]: the rows
    of the table with a given lower-cased path are the entries of the input
    with this directory, year and lower-cased path, in input order. *)
Theorem X18_rows_with_equal_keys_keep_input_order :
  forall (pdf_entries : list Index.PdfEntry) (d : string) (y : Index.YearKey)
         (k : string),
    Index.pieces (Index.group_entries pdf_entries)
      = html_layout (Index.group_entries pdf_entries)
    /\ List.filter (fun f => bool_decide (Py.lower (Index.path f) = k))
                   (html_files (Index.group_entries pdf_entries) d y)
       = List.filter (fun f => bool_decide (Py.lower (Index.path f) = k))
           (List.filter (has_key Index.top_dir_of Index.year_key_of d y) pdf_entries).
Proof.
  intros pdf_entries d y k. split; [apply group_entries_layout|]. unfold html_files.
  rewrite (sorted_same_key Py.str_cmp (fun x => Py.lower (Index.path x))).
  rewrite group_entries_group_by.
  now rewrite (bucket_group_by Index.top_dir_of Index.year_key_of).
Qed.

End Properties.

(* ===================================================================== *)
(** * Part IV: the properties on examples                                 *)
(* ===================================================================== *)

(** ** The fragment obeys the laws of the tables *)

Lemma fragment_decimal_digit (ch : string) (v : N) :
  Fragment.decimal ch = Some v -> (v < 10)%N.
Proof.
  unfold Fragment.decimal. destruct ch as [|a [|b [|c r]]]; try discriminate.
  destruct ((Py.ord a =? 217)%N && Py.in_range 160 169 b) eqn:E; [|discriminate].
  intros [= <-]. apply andb_prop in E as [_ E].
  unfold Py.in_range in E. apply andb_prop in E as [E1 E2].
  apply N.leb_le in E1, E2. lia.
Qed.

Lemma fragment_decimal_alnum (ch : string) (v : N) :
  Fragment.decimal ch = Some v -> Fragment.alnum ch = true.
Proof.
  unfold Fragment.decimal, Fragment.alnum.
  destruct ch as [|a [|b [|c r]]]; try discriminate.
  destruct ((Py.ord a =? 217)%N && Py.in_range 160 169 b); [|discriminate].
  intros _. apply orb_true_r.
Qed.

(** What the lower-casing of the fragment does to one byte. *)
Lemma fragment_lower_byte (after_c3 : bool) (c : ascii) :
  if after_c3 && Py.in_range 128 158 c && negb (Py.ord c =? 151)%N
  then
    after_c3 && Py.in_range 128 158 (ascii_of_N (Py.ord c + 32))
      && negb (Py.ord (ascii_of_N (Py.ord c + 32)) =? 151)%N = false
    /\ Py.lower_char (ascii_of_N (Py.ord c + 32)) = ascii_of_N (Py.ord c + 32)
    /\ (Py.ord (ascii_of_N (Py.ord c + 32)) =? 195)%N = false
  else
    after_c3 && Py.in_range 128 158 (Py.lower_char c)
      && negb (Py.ord (Py.lower_char c) =? 151)%N = false
    /\ Py.lower_char (Py.lower_char c) = Py.lower_char c
    /\ (Py.ord (Py.lower_char c) =? 195)%N = (Py.ord c =? 195)%N.
Proof.
  destruct c as [b0 b1 b2 b3 b4 b5 b6 b7].
  destruct after_c3, b0, b1, b2, b3, b4, b5, b6, b7; vm_compute; repeat split; reflexivity.
Qed.

Lemma fragment_lower_from_idem (after_c3 : bool) (s : string) :
  Fragment.lower_from after_c3 (Fragment.lower_from after_c3 s)
  = Fragment.lower_from after_c3 s.
Proof.
  revert after_c3. induction s as [|c s IH]; intros f; [reflexivity|].
  cbn [Fragment.lower_from]. pose proof (fragment_lower_byte f c) as Hb.
  destruct (f && Py.in_range 128 158 c && negb (Py.ord c =? 151)%N);
    destruct Hb as (H1 & H2 & H3); cbn [Fragment.lower_from];
    rewrite H1, H2, H3, IH; reflexivity.
Qed.

Lemma fragment_lower_from_ascii (after_c3 : bool) (s : string) :
  Py.is_ascii s = true -> Fragment.lower_from after_c3 s = Py.ascii_lower s.
Proof.
  revert after_c3. induction s as [|c s IH]; intros f; [reflexivity|].
  cbn [Py.is_ascii Fragment.lower_from Py.ascii_lower]. intros H.
  apply andb_prop in H as [Hc Hs]. apply N.ltb_lt in Hc.
  assert (H1 : Py.in_range 128 158 c = false).
  { unfold Py.in_range. apply andb_false_iff. left. apply N.leb_gt. exact Hc. }
  assert (H2 : (Py.ord c =? 195)%N = false) by (apply N.eqb_neq; lia).
  rewrite H1, andb_false_r, H2. cbn [andb]. now rewrite (IH false Hs).
Qed.

Lemma fragment_lower_with (s : string) :
  Py.lower_with Fragment.lower s = Fragment.lower s.
Proof.
  unfold Py.lower_with. destruct (Py.is_ascii s) eqn:E; [|reflexivity].
  symmetry. now apply fragment_lower_from_ascii.
Qed.

Lemma fragment_lower_idem (s : string) :
  Py.lower_with Fragment.lower (Py.lower_with Fragment.lower s)
  = Py.lower_with Fragment.lower s.
Proof. rewrite !fragment_lower_with. apply fragment_lower_from_idem. Qed.

Lemma fragment_lower_dot (s : string) :
  Py.lower_with Fragment.lower ("." +:+ s) = "." +:+ Py.lower_with Fragment.lower s.
Proof. rewrite !fragment_lower_with. reflexivity. Qed.

Lemma fragment_lower_starts_dot (s : string) :
  Py.startswith (Py.lower_with Fragment.lower s) "." = Py.startswith s ".".
Proof.
  rewrite fragment_lower_with, !startswith_dot.
  destruct s as [|c s]; [reflexivity|].
  unfold Fragment.lower. cbn [Fragment.lower_from andb]. apply lower_char_facts.
Qed.

Lemma fragment_lower_suffix (s t : string) :
  Py.is_ascii t = true ->
  exists s', Py.lower_with Fragment.lower (s +:+ t) = s' +:+ Py.ascii_lower t.
Proof.
  intros Ht. rewrite fragment_lower_with. unfold Fragment.lower.
  generalize false. induction s as [|c s IH]; intros f.
  - exists EmptyString. rewrite !append_empty_l. now apply fragment_lower_from_ascii.
  - rewrite append_cons. cbn [Fragment.lower_from].
    destruct (f && Py.in_range 128 158 c && negb (Py.ord c =? 151)%N).
    + destruct (IH false) as (s' & ->). eexists (String _ s'). reflexivity.
    + destruct (IH (Py.ord c =? 195)%N) as (s' & ->). eexists (String _ s'). reflexivity.
Qed.

(** The fragment as tables. *)
#[global] Instance fragment_tables : Py.Unicode := {|
  Py.uni_decimal := Fragment.decimal;
  Py.uni_alnum := Fragment.alnum;
  Py.uni_lower := Fragment.lower;
  Py.uni_decimal_digit := fragment_decimal_digit;
  Py.uni_decimal_alnum := fragment_decimal_alnum;
  Py.uni_lower_idem := fragment_lower_idem;
  Py.uni_lower_dot := fragment_lower_dot;
  Py.uni_lower_starts_dot := fragment_lower_starts_dot;
  Py.uni_lower_suffix := fragment_lower_suffix
|}.

(** ** Text outside ASCII *)

(** A letter before the digits, or an ideograph after them, leaves no word
    boundary: no year is found.  Digits of another script are digits, and
    are read as such. *)
Example year_next_to_a_letter :
  Inventory.extract_year "é2013" = 999999
  /\ Index.extract_year_from_path ["A"; "2013年"; "x.pdf"] = None
  /\ Inventory.extract_year "19٣٤" = 1934
  /\ Index.extract_year_from_path ["A"; "19٣٤"; "x.pdf"] = Some 1934
  /\ Inventory.extract_year "é 2013" = 2013.
Proof. repeat split; vm_compute; reflexivity. Qed.

(** Two paths that differ in the case of a letter outside ASCII have the
    same sort key: their rows stay in the order of the input. *)
Example rows_of_equal_keys :
  let lower := Index.mkPdf "A/é.pdf" "é.pdf" None in
  let upper := Index.mkPdf "A/É.pdf" "É.pdf" None in
  Py.lower (Index.path upper) = Py.lower (Index.path lower)
  /\ html_files (Index.group_entries [lower; upper]) "A" (inr "no-year") = [lower; upper]
  /\ html_files (Index.group_entries [upper; lower]) "A" (inr "no-year") = [upper; lower]
  /\ Index.content_of [lower; upper] <> Index.content_of [upper; lower].
Proof.
  repeat split; try (vm_compute; reflexivity).
  apply String.eqb_neq. vm_compute. reflexivity.
Qed.

(** The extension filter lower-cases letters outside ASCII as well. *)
Example extension_outside_ascii :
  Inventory.normalise_ext "É" = ".é"
  /\ Inventory.filtered_out (Inventory.extensions_set (Some ["é"])) ["A"; "a.É"] = false
  /\ Inventory.filtered_out (Inventory.extensions_set (Some ["é"])) ["A"; "a.e"] = true.
Proof. repeat split; vm_compute; reflexivity. Qed.

(** ** The theorems at work *)

Lemma C1_year_extractor_witness :
  (exists y : Z,
      Py.int (Spec.token_text "v-2013 1999" 2) = Some y /\ 1900 <= y <= 2099 /\
      Index.extract_year_from_path ["docs"; "x2012"; "v-2013 1999"; "2020"] = Some y /\
      Inventory.first_year ["docs"; "x2012"; "v-2013 1999"; "2020"] = Some y /\
      Inventory.extract_year "v-2013 1999" = y)
  /\ (exists y : Z,
        Py.int (Spec.token_text "19٣٤" 0) = Some y /\ 1900 <= y <= 2099 /\
        Index.extract_year_from_path ["é2013"; "19٣٤"; "2020"] = Some y /\
        Inventory.first_year ["é2013"; "19٣٤"; "2020"] = Some y /\
        Inventory.extract_year "19٣٤" = y)
  /\ (Index.extract_year_from_path ["docs"; "misc_2013"; "2013年"] = None /\
      Inventory.first_year ["docs"; "misc_2013"; "2013年"] = None /\
      Forall (fun seg => Inventory.extract_year seg = 999999)
             ["docs"; "misc_2013"; "2013年"])
  /\ Spec.is_year_text (Py.chars (four "2" "0" "1" "3"))
     = match Py.int (four "2" "0" "1" "3") with
       | Some y => (1900 <=? y) && (y <=? 2099)
       | None => false
       end.
Proof.
  split; [|split; [|split]].
  - apply (proj1 C1_year_extractor_first_match ["docs"; "x2012"] "v-2013 1999" ["2020"] 2%nat);
      vm_compute; reflexivity.
  - apply (proj1 C1_year_extractor_first_match ["é2013"] "19٣٤" ["2020"] 0%nat);
      vm_compute; reflexivity.
  - apply (proj1 (proj2 C1_year_extractor_first_match) ["docs"; "misc_2013"; "2013年"]).
    vm_compute; reflexivity.
  - apply (proj2 (proj2 C1_year_extractor_first_match) "2" "0" "1" "3")%char.
    vm_compute; reflexivity.
Defined.

Lemma C4_remote_failure_witness :
  Index.run (Index.mkArgs true false)
    (Index.mkEnv (inl "timeout") [Fs.mkEntry ["a"; "2010"; "x.pdf"] true] (Some "T"))
    (Index.mkOut [] None)
  = (1, Index.mkOut ["Fetching file list from Hugging Face dataset: yukioitsuki/snowden_archived";
                     "Failed to fetch from HF: timeout";
                     "No files found and no fallback enabled."] None)
  /\ Index.run (Index.mkArgs true true)
       (Index.mkEnv (inr ["notes/readme.txt"]) [Fs.mkEntry ["a"; "2010"; "x.pdf"] true]
                    (Some "{TOTAL_FILES}"))
       (Index.mkOut [] None)
     = Index.run (Index.mkArgs false false)
         (Index.mkEnv (inr ["notes/readme.txt"]) [Fs.mkEntry ["a"; "2010"; "x.pdf"] true]
                      (Some "{TOTAL_FILES}"))
         (Index.mkOut ["Fetching file list from Hugging Face dataset: yukioitsuki/snowden_archived";
                       "Found 0 PDF files on Hugging Face";
                       "Falling back to local files..."] None)
  /\ (fst (Index.run (Index.mkArgs true true)
             (Index.mkEnv (inr ["notes/readme.txt"])
                [Fs.mkEntry ["a"; "2010"; "x.pdf"] true; Fs.mkEntry [".files"; "y.pdf"] true]
                (Some "{TOTAL_FILES}"))
             (Index.mkOut [] None)) = 0
      /\ Index.index_local_html
           (snd (Index.run (Index.mkArgs true true)
                   (Index.mkEnv (inr ["notes/readme.txt"])
                      [Fs.mkEntry ["a"; "2010"; "x.pdf"] true;
                       Fs.mkEntry [".files"; "y.pdf"] true]
                      (Some "{TOTAL_FILES}"))
                   (Index.mkOut [] None))) = Some "1").
Proof.
  split; [|split].
  - exact (proj1 (C4_remote_failure_and_fallback
             (Index.mkEnv (inl "timeout") [Fs.mkEntry ["a"; "2010"; "x.pdf"] true] (Some "T"))
             (Index.mkOut [] None) eq_refl)).
  - exact (proj1 (proj2 (proj2 (C4_remote_failure_and_fallback
             (Index.mkEnv (inr ["notes/readme.txt"]) [Fs.mkEntry ["a"; "2010"; "x.pdf"] true]
                          (Some "{TOTAL_FILES}"))
             (Index.mkOut [] None) eq_refl))) false).
  - pose proof (proj2 (proj2 (proj2 (C4_remote_failure_and_fallback
             (Index.mkEnv (inr ["notes/readme.txt"])
                [Fs.mkEntry ["a"; "2010"; "x.pdf"] true; Fs.mkEntry [".files"; "y.pdf"] true]
                (Some "{TOTAL_FILES}"))
             (Index.mkOut [] None) eq_refl)))) as H.
    cbv zeta in H. destruct H as (_ & _ & _ & H).
    specialize (H "{TOTAL_FILES}").
    destruct H as [H0 H1]; [vm_compute; discriminate | reflexivity |].
    split; [exact H0|]. rewrite H1. vm_compute. reflexivity.
Defined.

Lemma C5_missing_template_witness :
  Index.generate_html (Index.mkEnv (inr ["a/2010/x.pdf"]) [] None)
      [Index.entry_of_hf "a/2010/x.pdf"] 1 (Index.mkOut ["earlier"] (Some "old index"))
    = (Index.SysExit 1,
       Index.mkOut ["earlier"; "Error: templates.html not found!"] (Some "old index"))
  /\ fst (Index.run (Index.mkArgs true false) (Index.mkEnv (inr ["a/2010/x.pdf"]) [] None)
                    (Index.mkOut ["earlier"] (Some "old index"))) = 1.
Proof.
  split.
  - exact (proj1 (proj1 (C5_missing_template (Index.mkEnv (inr ["a/2010/x.pdf"]) [] None)
             (Index.mkOut ["earlier"] (Some "old index"))) eq_refl)
             [Index.entry_of_hf "a/2010/x.pdf"] 1%nat).
  - exact (proj1 (proj2 (proj1 (C5_missing_template (Index.mkEnv (inr ["a/2010/x.pdf"]) [] None)
             (Index.mkOut ["earlier"] (Some "old index"))) eq_refl)
             (Index.mkArgs true false))).
Defined.

Lemma C9_generators_witness :
  Inventory.generate_markdown_inventory
    [Fs.mkEntry ["A"; "2010"; "x.pdf"] true; Fs.mkEntry ["B"; "z.pdf"] true] None None
  = Inventory.generate_markdown_inventory
      [Fs.mkEntry ["B"; "z.pdf"] true; Fs.mkEntry ["A"; "2010"; "x.pdf"] true] None None
  /\ Index.content_of [Index.mkPdf "A/x.pdf" "x.pdf" None; Index.mkPdf "B/y.pdf" "y.pdf" None]
     = Index.content_of [Index.mkPdf "B/y.pdf" "y.pdf" None; Index.mkPdf "A/x.pdf" "x.pdf" None]
  /\ Index.index_local_html
       (snd (Index.run (Index.mkArgs true false)
               (Index.mkEnv (inr ["A/2013/x.pdf"]) [] (Some "<!-- INJECTED_CONTENT -->"))
               (Index.mkOut [] None)))
     = Index.index_local_html
         (snd (Index.run (Index.mkArgs true false)
                 (Index.mkEnv (inr ["A/2013/x.pdf"]) [] (Some "<!-- INJECTED_CONTENT -->"))
                 (Index.mkOut ["earlier"] (Some "old")))).
Proof.
  split; [|split].
  - apply (proj1 C9_generators_deterministic). apply perm_swap.
  - apply (proj1 (proj2 (proj2 (proj2 C9_generators_deterministic)))).
    + apply perm_swap.
    + cbn [fmap list_fmap Index.path]. apply NoDup_cons.
      split; [|apply NoDup_singleton].
      rewrite list_elem_of_singleton. vm_compute. discriminate.
  - pose proof (proj1 (proj2 C9_generators_deterministic)
                  (Index.mkArgs true false)
                  (Index.mkEnv (inr ["A/2013/x.pdf"]) [] (Some "<!-- INJECTED_CONTENT -->"))
                  (Index.mkOut [] None) (Index.mkOut ["earlier"] (Some "old"))) as Hrun.
    cbv zeta in Hrun. destruct Hrun as (_ & Hw & _).
    apply Hw. vm_compute. reflexivity.
Defined.

Lemma X7_remote_entry_witness :
  Fs.parts_of (Fs.as_posix ["A"; "2013"; "x.pdf"]) = ["A"; "2013"; "x.pdf"]
  /\ Fs.name_of (Fs.as_posix ["A"; "2013"; "x.pdf"]) = Fs.name ["A"; "2013"; "x.pdf"]
  /\ Index.entry_of_hf (Fs.as_posix ["A"; "2013"; "x.pdf"])
     = Spec.local_entry ["A"; "2013"; "x.pdf"]
  /\ Index.top_dir_of (Spec.local_entry ["A"; "2013"; "x.pdf"])
     = Spec.top_level ["A"; "2013"; "x.pdf"].
Proof. apply (X7_remote_entry_is_local_entry ["A"; "2013"; "x.pdf"]). reflexivity. Defined.

Lemma X8_remote_run_witness :
  fst (Index.run (Index.mkArgs true false)
         (Index.mkEnv (inr ["A/2013/x.pdf"])
            [Fs.mkEntry ["A"] false; Fs.mkEntry ["A"; "2013"; "x.pdf"] true]
            (Some "<!-- INJECTED_CONTENT -->"))
         (Index.mkOut [] None))
  = fst (Index.run (Index.mkArgs false false)
           (Index.mkEnv (inr ["A/2013/x.pdf"])
              [Fs.mkEntry ["A"] false; Fs.mkEntry ["A"; "2013"; "x.pdf"] true]
              (Some "<!-- INJECTED_CONTENT -->"))
           (Index.mkOut [] None))
  /\ Index.index_local_html
       (snd (Index.run (Index.mkArgs true false)
               (Index.mkEnv (inr ["A/2013/x.pdf"])
                  [Fs.mkEntry ["A"] false; Fs.mkEntry ["A"; "2013"; "x.pdf"] true]
                  (Some "<!-- INJECTED_CONTENT -->"))
               (Index.mkOut [] None)))
     = Index.index_local_html
         (snd (Index.run (Index.mkArgs false false)
                 (Index.mkEnv (inr ["A/2013/x.pdf"])
                    [Fs.mkEntry ["A"] false; Fs.mkEntry ["A"; "2013"; "x.pdf"] true]
                    (Some "<!-- INJECTED_CONTENT -->"))
                 (Index.mkOut [] None))).
Proof.
  apply (X8_remote_run_is_local_run
           (Index.mkEnv (inr ["A/2013/x.pdf"])
              [Fs.mkEntry ["A"] false; Fs.mkEntry ["A"; "2013"; "x.pdf"] true]
              (Some "<!-- INJECTED_CONTENT -->"))
           false (Index.mkOut [] None)).
  - vm_compute. reflexivity.
  - vm_compute. reflexivity.
Defined.

Lemma X9_template_without_markers_witness :
  Index.fill "<html></html>" 1
    (Index.content_of [Index.mkPdf "A/x.pdf" "x.pdf" None]) = "<html></html>"
  /\ fst (Index.generate_html (Index.mkEnv (inr []) [] (Some "<html></html>"))
            [Index.mkPdf "A/x.pdf" "x.pdf" None] 1 (Index.mkOut [] None))
     = Index.Return tt
  /\ Index.index_local_html
       (snd (Index.generate_html (Index.mkEnv (inr []) [] (Some "<html></html>"))
               [Index.mkPdf "A/x.pdf" "x.pdf" None] 1 (Index.mkOut [] None)))
     = Some "<html></html>".
Proof.
  apply (X9_template_without_markers (Index.mkEnv (inr []) [] (Some "<html></html>"))
           "<html></html>"); reflexivity.
Defined.

Lemma X10_template_content_witness :
  Index.fill ("<body>" +:+ "<!-- INJECTED_CONTENT -->" +:+ "</body>") 2 "<p>{TOTAL_FILES}</p>"
    = "<body>" +:+ "<p>{TOTAL_FILES}</p>" +:+ "</body>".
Proof.
  apply (X10_template_content_spliced "<body>" "</body>" 2 "<p>{TOTAL_FILES}</p>");
    reflexivity.
Defined.

Lemma X13_ext_spelling_witness :
  Inventory.main (Inventory.mkArgs (Some ["PDF"; ".md"]) "INVENTORY.md")
    (Inventory.mkEnv "/data" true [Fs.mkEntry ["A"; "x.pdf"] true])
  = Inventory.main (Inventory.mkArgs (Some [".md"; "pdf"; ".Pdf"]) "INVENTORY.md")
      (Inventory.mkEnv "/data" true [Fs.mkEntry ["A"; "x.pdf"] true]).
Proof.
  apply (X13_ext_spelling_is_irrelevant ["PDF"; ".md"] [".md"; "pdf"; ".Pdf"]).
  intros x. vm_compute (Inventory.normalise_ext <$> _).
  rewrite !elem_of_cons, !elem_of_nil. tauto.
Defined.

Lemma X14_main_report_witness :
  Inventory.lines
    (Inventory.main (Inventory.mkArgs (Some ["PDF"]) "INVENTORY.md")
       (Inventory.mkEnv "/data" true
          [Fs.mkEntry ["A"] false; Fs.mkEntry ["A"; "x.pdf"] true;
           Fs.mkEntry ["A"; "notes.txt"] true; Fs.mkEntry ["z.PDF"] true]))
  = ["Scanning: /data";
     "Only including: .pdf";
     "Success: GitHub-ready inventory saved → INVENTORY.md";
     "Success: 2 files in 2 top-level directories";
     newline +:+ "Finished! Commit 'INVENTORY.md' to your repository root.";
     "Every FilePath will now be a working link on GitHub."].
Proof.
  pose proof (X14_main_report (Inventory.mkArgs (Some ["PDF"]) "INVENTORY.md")
                (Inventory.mkEnv "/data" true
                   [Fs.mkEntry ["A"] false; Fs.mkEntry ["A"; "x.pdf"] true;
                    Fs.mkEntry ["A"; "notes.txt"] true; Fs.mkEntry ["z.PDF"] true])
                eq_refl) as H.
  cbv zeta in H. destruct H as (_ & -> & _). vm_compute. reflexivity.
Defined.

Lemma X15_empty_inventory_witness :
  Inventory.content
    (Inventory.generate_markdown_inventory
       [Fs.mkEntry ["A"] false; Fs.mkEntry ["A"; "notes.txt"] true]
       (Some {[ ".pdf" ]}) None)
  = Py.join newline Inventory.title_lines
  /\ Inventory.written
       (Inventory.generate_markdown_inventory
          [Fs.mkEntry ["A"] false; Fs.mkEntry ["A"; "notes.txt"] true]
          (Some {[ ".pdf" ]}) None)
     = None
  /\ List.last
       (Inventory.printed
          (Inventory.generate_markdown_inventory
             [Fs.mkEntry ["A"] false; Fs.mkEntry ["A"; "notes.txt"] true]
             (Some {[ ".pdf" ]}) None))
       EmptyString
     = "Success: 0 files in 0 top-level directories".
Proof.
  apply (X15_empty_inventory
           [Fs.mkEntry ["A"] false; Fs.mkEntry ["A"; "notes.txt"] true]
           (Some {[ ".pdf" ]}) None).
  vm_compute. reflexivity.
Defined.

Lemma X16_no_local_pdf_witness :
  Index.run (Index.mkArgs false false)
    (Index.mkEnv (inr []) [Fs.mkEntry ["a.pdf"] false;
                           Fs.mkEntry [".files"; "b.pdf"] true;
                           Fs.mkEntry ["c.txt"] true] None)
    (Index.mkOut [] (Some "old"))
  = (1,
     Index.mkOut
       ["Scanning local directory for PDF files (excluding .files folders)...";
        "Found 0 local PDF files (1 excluded)";
        "No PDF files found."]
       (Some "old")).
Proof.
  rewrite (X16_no_local_pdf
             (Index.mkEnv (inr []) [Fs.mkEntry ["a.pdf"] false;
                                    Fs.mkEntry [".files"; "b.pdf"] true;
                                    Fs.mkEntry ["c.txt"] true] None)
             false (Index.mkOut [] (Some "old"))).
  - vm_compute. reflexivity.
  - vm_compute. reflexivity.
Defined.
